(** * Galaxy Watch local data sync server: ingestion, validation and sync cursor

    A shallow embedding of the request handlers of the sync server
    (server/routes/healthData.js, server/routes/sync.js), of the validation
    and sanitisation helpers (server/utils/validation.js), of the constants
    of server/config/config.js and of the three tables of
    server/database/init.js that these handlers read and write.

    Conventions of the embedding:
    - a JavaScript value decoded from a JSON body is a [jsval];
    - a JavaScript number is a [number]: NaN, an infinity or a rational
      (every finite double is a rational; the validation code only compares
      numbers, it never rounds);
    - an integer produced by [parseInt] is a [Z] ([None] stands for NaN);
    - a JavaScript string is a [string], one character per UTF-16 code unit
      (code units up to U+00FF);
    - the handlers run in a small state-and-exception monad over the
      database; the storage engine may reject any statement, which is
      decided by an oracle of the surrounding [World]. *)

From Stdlib Require Import ZArith QArith Qabs String Ascii List Sorted Lia Bool.
From stdpp Require Import base option list gmap strings pretty.

Local Open Scope Z_scope.

(** ** JavaScript numbers *)

Inductive number : Type :=
| NaN
| NegInf
| Fin (q : Q)
| PosInf.

(** [a < b] on JavaScript numbers: every comparison with NaN is false. *)
Definition num_lt (a b : number) : bool :=
  match a, b with
  | NaN, _ | _, NaN => false
  | NegInf, NegInf => false
  | NegInf, _ => true
  | _, NegInf => false
  | PosInf, _ => false
  | Fin _, PosInf => true
  | Fin p, Fin q => negb (Qle_bool q p)
  end.

Definition num_gt (a b : number) : bool := num_lt b a.

Definition isNaN (n : number) : bool :=
  match n with NaN => true | _ => false end.

Definition num_of_Z (z : Z) : number := Fin (inject_Z z).

(** ** JavaScript values *)

#[warnings="-register-all"]
Inductive jsval : Type :=
| JUndefined
| JNull
| JBool (b : bool)
| JNum (n : number)
| JStr (s : string)
| JArr (items : list jsval)
| JObj (fields : list (string * jsval)).

(** Own properties of an object, in insertion order; a name is looked up
    from the front. *)
Fixpoint assoc (k : string) (fs : list (string * jsval)) : option jsval :=
  match fs with
  | [] => None
  | (k', v) :: fs' => if String.eqb k k' then Some v else assoc k fs'
  end.

(** A call either returns or throws an [Error] with a message. *)
Inductive completion (A : Type) : Type :=
| Normal (a : A)
| Thrown (message : string).
Arguments Normal {A} a.
Arguments Thrown {A} message.

(** [o.k]: reading a property of [undefined] or [null] throws a TypeError;
    a missing property, and any of the property names used here on a
    primitive or an array, reads as [undefined]. *)
Definition get (o : jsval) (k : string) : completion jsval :=
  match o with
  | JUndefined =>
      Thrown ("Cannot read properties of undefined (reading '" ++ k ++ "')")
  | JNull =>
      Thrown ("Cannot read properties of null (reading '" ++ k ++ "')")
  | JObj fs => Normal (default JUndefined (assoc k fs))
  | _ => Normal JUndefined
  end.

(** ToBoolean. *)
Definition truthy (v : jsval) : bool :=
  match v with
  | JUndefined | JNull => false
  | JBool b => b
  | JNum NaN => false
  | JNum (Fin q) => negb (Qeq_bool q 0)
  | JNum _ => true
  | JStr s => negb (String.eqb s EmptyString)
  | JArr _ | JObj _ => true
  end.

(** [typeof v === 'object'] (true of [null] as well). *)
Definition typeof_object (v : jsval) : bool :=
  match v with
  | JNull | JArr _ | JObj _ => true
  | _ => false
  end.

(** ** The builtins [parseInt] and [parseFloat]

    Both convert their argument to a string and read the longest numeric
    prefix.  What they read from a string, and what [parseInt] reads from
    a number that prints in exponent notation, is left to the runtime. *)

Class Runtime : Type := {
  parseInt_string : string -> option Z;
  parseFloat_string : string -> number;
  parseInt_exponent : Q -> option Z
}.

(** Rounding towards zero. *)
Definition Qtruncate (q : Q) : Z := Z.quot (Qnum q) (Zpos (Qden q)).

(** A finite number prints without exponent when it is zero or when
    1e-6 <= |q| < 1e21. *)
Definition prints_plain (q : Q) : bool :=
  Qeq_bool q 0
  || (Qle_bool (1 # 1000000) (Qabs q)
      && negb (Qle_bool (inject_Z (10 ^ 21)) (Qabs q))).

Section Builtins.
Context {rt : Runtime}.

(** An array prints as its elements joined by commas, [null] and
    [undefined] printing as nothing; the numeric prefix of the result is
    the one of the first element.  Both functions are total here: on a
    value whose conversion to a string throws (an object with an own
    [toString] property, or an array that holds one) they read nothing,
    where the builtin throws a TypeError. *)
Fixpoint parseFloat (v : jsval) : number :=
  match v with
  | JNum n => n
  | JStr s => parseFloat_string s
  | JArr (x :: _) =>
      match x with
      | JNum _ | JStr _ | JArr _ => parseFloat x
      | _ => NaN
      end
  | _ => NaN
  end.

Fixpoint parseInt (v : jsval) : option Z :=
  match v with
  | JNum (Fin q) =>
      if prints_plain q then Some (Qtruncate q) else parseInt_exponent q
  | JStr s => parseInt_string s
  | JArr (x :: _) =>
      match x with
      | JNum _ | JStr _ | JArr _ => parseInt x
      | _ => None
      end
  | _ => None
  end.
End Builtins.

(** ** server/config/config.js *)

Module config.
Definition maxBatchSize : nat := 1000.

Definition supportedTypes : list string :=
  [ "heart_rate"; "steps"; "sleep"; "activity"; "workout";
    "blood_pressure"; "blood_oxygen"; "body_temperature"; "gps_route";
    "calories_burned"; "distance"; "floors_climbed" ]%string.

Definition maxRecordAge : Z := 90 * 24 * 60 * 60 * 1000.

Record range : Type := { min : number; max : number }.

Definition heartRate : range := {| min := num_of_Z 30; max := num_of_Z 220 |}.
Definition steps : range := {| min := num_of_Z 0; max := num_of_Z 100000 |}.
Definition systolic : range := {| min := num_of_Z 70; max := num_of_Z 250 |}.
Definition diastolic : range := {| min := num_of_Z 40; max := num_of_Z 150 |}.
Definition bloodOxygen : range := {| min := num_of_Z 70; max := num_of_Z 100 |}.
Definition bodyTemperature : range := {| min := num_of_Z 35; max := num_of_Z 42 |}.
End config.

(** The grace period of the future check, [5 * 60 * 1000] ms. *)
Definition gracePeriod : Z := 5 * 60 * 1000.

(** ** server/utils/validation.js: validation *)

Inductive validation : Type :=
| Valid
| Invalid (error : string).

(** The degree sign of the body-temperature message. *)
Definition degree : string := String "176" EmptyString.

(** [isNaN(v) || v < lo || v > hi]. *)
Definition out_of_range (v lo hi : number) : bool :=
  isNaN v || num_lt v lo || num_gt v hi.

Section Validation.
Context {rt : Runtime}.

Definition validateGPSCoordinate (coord : jsval) : bool :=
  if negb (truthy coord) || negb (typeof_object coord) then false
  else
    match get coord "latitude", get coord "longitude" with
    | Normal la, Normal lo =>
        let lat := parseFloat la in
        let lng := parseFloat lo in
        if isNaN lat || isNaN lng then false
        else if num_lt lat (num_of_Z (-90)) || num_gt lat (num_of_Z 90) then false
        else if num_lt lng (num_of_Z (-180)) || num_gt lng (num_of_Z 180) then false
        else true
    | _, _ => false
    end.

(** The call throws when a property of a [null] metadata is read. *)
Definition validateValueByType (dataType : string) (value metadata : jsval)
  : completion validation :=
  let metadata := match metadata with JUndefined => JObj [] | m => m end in
  let numValue := parseFloat value in
  let bounded (lo hi : number) (msg : string) : completion validation :=
    Normal (if out_of_range numValue lo hi then Invalid msg else Valid) in
  if String.eqb dataType "heart_rate" then
    bounded (config.min config.heartRate) (config.max config.heartRate)
      "Heart rate must be between 30 and 220 bpm"
  else if String.eqb dataType "steps" then
    bounded (config.min config.steps) (config.max config.steps)
      "Steps must be between 0 and 100000"
  else if String.eqb dataType "blood_pressure" then
    match get metadata "systolic", get metadata "diastolic" with
    | Thrown e, _ | _, Thrown e => Thrown e
    | Normal sys, Normal dia =>
        if negb (truthy sys) || negb (truthy dia) then
          Normal (Invalid
            "Blood pressure requires systolic and diastolic values in metadata")
        else
          let systolic := parseFloat sys in
          let diastolic := parseFloat dia in
          if out_of_range systolic
               (config.min config.systolic) (config.max config.systolic) then
            Normal (Invalid "Systolic pressure must be between 70 and 250 mmHg")
          else if out_of_range diastolic
               (config.min config.diastolic) (config.max config.diastolic) then
            Normal (Invalid "Diastolic pressure must be between 40 and 150 mmHg")
          else Normal Valid
    end
  else if String.eqb dataType "blood_oxygen" then
    bounded (config.min config.bloodOxygen) (config.max config.bloodOxygen)
      "Blood oxygen must be between 70% and 100%"
  else if String.eqb dataType "body_temperature" then
    bounded (config.min config.bodyTemperature)
      (config.max config.bodyTemperature)
      ("Body temperature must be between 35" ++ degree ++ "C and 42"
       ++ degree ++ "C")%string
  else if String.eqb dataType "sleep" then
    bounded (num_of_Z 0) (num_of_Z (24 * 60))
      "Sleep duration must be between 0 and 1440 minutes (24 hours)"
  else if String.eqb dataType "activity" || String.eqb dataType "workout" then
    bounded (num_of_Z 0) (num_of_Z (12 * 60))
      "Activity duration must be between 0 and 720 minutes (12 hours)"
  else if String.eqb dataType "calories_burned" then
    bounded (num_of_Z 0) (num_of_Z 10000)
      "Calories burned must be between 0 and 10000"
  else if String.eqb dataType "distance" then
    bounded (num_of_Z 0) (num_of_Z 1000000)
      "Distance must be between 0 and 1000000 meters"
  else if String.eqb dataType "floors_climbed" then
    bounded (num_of_Z 0) (num_of_Z 1000)
      "Floors climbed must be between 0 and 1000"
  else if String.eqb dataType "gps_route" then
    if out_of_range numValue (num_of_Z 0) (num_of_Z 50000) then
      Normal (Invalid "GPS route points must be between 0 and 50000")
    else
      match get metadata "coordinates" with
      | Thrown e => Thrown e
      | Normal (JArr coords) =>
          if forallb validateGPSCoordinate coords then Normal Valid
          else Normal (Invalid "Invalid GPS coordinates in metadata")
      | Normal _ => Normal Valid
      end
  else
    Normal (if isNaN numValue then Invalid "Value must be a valid number"
            else Valid).

(** [now] is the reading of [Date.now()] taken inside the call. *)
Definition validateHealthData (now : Z) (dataType : string) (record : jsval)
  : validation :=
  match get record "timestamp", get record "value", get record "metadata" with
  | Thrown e, _, _ | _, Thrown e, _ | _, _, Thrown e =>
      Invalid ("Validation error: " ++ e)
  | Normal ts, Normal value, Normal metadata =>
      if negb (truthy ts) || negb (truthy value) then
        Invalid "Missing required fields: timestamp and value"
      else
        match parseInt ts with
        | None => Invalid "Invalid timestamp"
        | Some timestamp =>
            if timestamp <? 0 then Invalid "Invalid timestamp"
            else if now - timestamp >? config.maxRecordAge then
              Invalid "Record too old (max age: 7776000000ms)"
            else if timestamp >? now + gracePeriod then
              Invalid "Timestamp cannot be in the future"
            else
              match validateValueByType dataType value metadata with
              | Normal valueValidation => valueValidation
              | Thrown e => Invalid ("Validation error: " ++ e)
              end
        end
  end.
End Validation.

(** ** server/utils/validation.js: sanitisation *)

(** The characters the regular expression of [sanitizeString] removes:
    less-than, greater-than, double quote, apostrophe and ampersand. *)
Definition is_markup (c : ascii) : bool :=
  existsb (Ascii.eqb c) [ "<"; ">"; "034"; "'"; "&" ]%char.

(** White space and line terminators, as [String.prototype.trim] strips
    them: TAB, LF, VT, FF, CR, SP and NBSP. *)
Definition is_white_space (c : ascii) : bool :=
  existsb (N.eqb (N_of_ascii c)) [ 9; 10; 11; 12; 13; 32; 160 ]%N.

Fixpoint trimStart (l : list ascii) : list ascii :=
  match l with
  | [] => []
  | c :: l' => if is_white_space c then trimStart l' else l
  end.

Definition trimEnd (l : list ascii) : list ascii := rev (trimStart (rev l)).

Definition trim (l : list ascii) : list ascii := trimEnd (trimStart l).

(** [str.replace(..., '')] with the global flag: every such character goes. *)
Definition remove_markup (l : list ascii) : list ascii :=
  List.filter (fun c => negb (is_markup c)) l.

(** [str.replace(...).trim().substring(0, 255)] on the code units. *)
Definition sanitize_chars (l : list ascii) : list ascii :=
  take 255 (trim (remove_markup l)).

Definition sanitizeString (str : jsval) : jsval :=
  match str with
  | JStr s => JStr (string_of_list_ascii (sanitize_chars (list_ascii_of_string s)))
  | _ => JNull
  end.

(** [sanitized[key] = value]. *)
Fixpoint obj_set (key : string) (value : jsval) (fs : list (string * jsval))
  : list (string * jsval) :=
  match fs with
  | [] => [ (key, value) ]
  | (k, v) :: fs' =>
      if String.eqb key k then (key, value) :: fs'
      else (k, v) :: obj_set key value fs'
  end.

(** One turn of the loop of [sanitizeMetadata]; [self] is the function
    itself, [nested] its use on the items of an array. *)
Definition sanitize_entry (self : jsval -> jsval)
    (nested : list jsval -> list jsval)
    (sanitized : list (string * jsval)) (key : string) (value : jsval)
  : list (string * jsval) :=
  match sanitizeString (JStr key) with
  | JStr sanitizedKey =>
      if String.eqb sanitizedKey EmptyString then sanitized
      else
        match value with
        | JStr _ => obj_set sanitizedKey (sanitizeString value) sanitized
        | JNum n =>
            if isNaN n then sanitized else obj_set sanitizedKey value sanitized
        | JBool _ => obj_set sanitizedKey value sanitized
        | JArr items =>
            obj_set sanitizedKey (JArr (take 1000 (nested items))) sanitized
        | JObj _ => obj_set sanitizedKey (self value) sanitized
        | JUndefined | JNull => sanitized
        end
  | _ => sanitized
  end.

(** [Object.entries] of an object lists its properties, of an array its
    indices. *)
Fixpoint sanitizeMetadata (metadata : jsval) : jsval :=
  let nested :=
    fix nested (items : list jsval) : list jsval :=
      match items with
      | [] => []
      | item :: items' =>
          if truthy item && typeof_object item
          then sanitizeMetadata item :: nested items'
          else nested items'
      end in
  match metadata with
  | JObj fs =>
      JObj ((fix entries (fs : list (string * jsval)) sanitized :=
               match fs with
               | [] => sanitized
               | (key, value) :: fs' =>
                   entries fs'
                     (sanitize_entry sanitizeMetadata nested sanitized key value)
               end) fs [])
  | JArr items =>
      JObj ((fix entries (i : nat) (items : list jsval) sanitized :=
               match items with
               | [] => sanitized
               | value :: items' =>
                   entries (S i) items'
                     (sanitize_entry sanitizeMetadata nested sanitized
                        (pretty i) value)
               end) 0%nat items [])
  | _ => JObj []
  end.

(** The record built by [sanitizeHealthData]; [metadata] is [None] when the
    property is not set. *)
Module Sanitized.
Record t : Type := {
  timestamp : option Z;
  value : number;
  unit : jsval;
  sourceApp : jsval;
  metadata : option jsval
}.
End Sanitized.

Section Sanitize.
Context {rt : Runtime}.

Definition sanitizeHealthData (dataType : string) (record : jsval)
  : completion Sanitized.t :=
  match get record "timestamp", get record "value", get record "unit",
        get record "sourceApp", get record "metadata" with
  | Normal ts, Normal v, Normal u, Normal app, Normal md =>
      Normal {| Sanitized.timestamp := parseInt ts;
                Sanitized.value := parseFloat v;
                Sanitized.unit := sanitizeString u;
                Sanitized.sourceApp := sanitizeString app;
                Sanitized.metadata :=
                  if truthy md && typeof_object md
                  then Some (sanitizeMetadata md) else None |}
  | Thrown e, _, _, _, _ | _, Thrown e, _, _, _ | _, _, Thrown e, _, _
  | _, _, _, Thrown e, _ | _, _, _, _, Thrown e => Thrown e
  end.
End Sanitize.

(** ** A runtime to run the model on examples

    It reads plain decimal literals (optional sign, digits, optional
    fraction) after leading white space, and gives NaN on anything else,
    numbers in exponent notation included. *)

Module DecimalRuntime.
Definition digit (c : ascii) : option Z :=
  let n := Z.of_N (N_of_ascii c) in
  if (48 <=? n) && (n <=? 57) then Some (n - 48) else None.

(** The digits at the front of [l]: how many, their value, the rest. *)
Fixpoint digits (l : list ascii) (count : nat) (acc : Z)
  : nat * Z * list ascii :=
  match l with
  | c :: l' =>
      match digit c with
      | Some d => digits l' (S count) (10 * acc + d)
      | None => (count, acc, l)
      end
  | [] => (count, acc, l)
  end.

Definition signed (l : list ascii) : Z * list ascii :=
  match l with
  | "-"%char :: l' => (-1, l')
  | "+"%char :: l' => (1, l')
  | _ => (1, l)
  end.

Definition read_int (s : string) : option Z :=
  let '(sign, l) := signed (trimStart (list_ascii_of_string s)) in
  let '(count, n, _) := digits l 0 0 in
  if Nat.eqb count 0 then None else Some (sign * n).

Definition read_float (s : string) : number :=
  let '(sign, l) := signed (trimStart (list_ascii_of_string s)) in
  let '(count, n, rest) := digits l 0 0 in
  let '(fcount, f, _) :=
    match rest with
    | "."%char :: rest' => digits rest' 0 0
    | _ => (0%nat, 0, rest)
    end in
  if Nat.eqb (count + fcount) 0 then NaN
  else Fin (Qred (inject_Z sign
                  * (inject_Z n + inject_Z f / inject_Z (10 ^ Z.of_nat fcount)))).

Definition runtime : Runtime := {|
  parseInt_string := read_int;
  parseFloat_string := read_float;
  parseInt_exponent := fun _ => None
|}.
End DecimalRuntime.

(** ** server/database/init.js: the tables *)

Module Devices.
Record row : Type := {
  name : string;
  type : string;
  last_seen : Z;
  last_sync_timestamp : option Z;
  is_active : bool;
  metadata : jsval;
  created_at : Z;
  updated_at : Z
}.
End Devices.

Module HealthData.
Record row : Type := {
  device_id : string;
  data_type : string;
  timestamp : Z;
  value : number;
  unit : option string;
  metadata : option jsval;
  source_app : option string;
  created_at : Z
}.
End HealthData.

Module SyncSessions.
Inductive status_t : Type := started | completed | failed.

Record row : Type := {
  device_id : string;
  sync_type : string;
  status : status_t;
  records_synced : Z;
  start_time : Z;
  end_time : option Z;
  error_message : option string
}.
End SyncSessions.

(** The database: [devices] and [sync_sessions] by primary key,
    [health_data] in insertion order (its surrogate key is never read). *)
Record Db : Type := {
  devices : gmap string Devices.row;
  health_data : list HealthData.row;
  sync_sessions : gmap string SyncSessions.row
}.

(** ** The world around a request

    [fault n] tells whether the storage engine rejects the [n]-th statement
    it is handed (busy time-out, I/O error); [CURRENT_TIMESTAMP n] is the
    engine's clock at that statement; [Date_now i] is the reading of
    [Date.now()] taken for the [i]-th record of a batch, and after the
    batch for [i] its length. *)
Record World : Type := {
  fault : nat -> bool;
  CURRENT_TIMESTAMP : nat -> Z;
  Date_now : nat -> Z
}.

(** ** The handler monad: state and exceptions *)

Record St : Type := {
  db : Db;
  nstmt : nat
}.

Definition M (A : Type) : Type := St -> completion A * St.

Definition ret {A} (a : A) : M A := fun st => (Normal a, st).

Definition throw {A} (e : string) : M A := fun st => (Thrown e, st).

Definition bind {A B} (m : M A) (k : A -> M B) : M B :=
  fun st =>
    match m st with
    | (Normal a, st') => k a st'
    | (Thrown e, st') => (Thrown e, st')
    end.

Definition try_catch {A} (m : M A) (handler : string -> M A) : M A :=
  fun st =>
    match m st with
    | (Normal a, st') => (Normal a, st')
    | (Thrown e, st') => handler e st'
    end.

Declare Scope handler_scope.
Delimit Scope handler_scope with handler.
Notation "'let*' x ':=' m 'in' k" := (bind m (fun x => k))
  (at level 10, x name, m at level 100, k at level 200) : handler_scope.
Notation "'do*' m 'in' k" := (bind m (fun _ => k))
  (at level 10, m at level 100, k at level 200) : handler_scope.
Local Open Scope handler_scope.

Section Storage.
Variable w : World.

(** [db.run]: a statement that may change the database or violate a
    constraint. *)
Definition runQuery (sql : Z -> Db -> completion Db) : M unit :=
  fun st =>
    let n := nstmt st in
    if fault w n then
      (Thrown "SQLITE_ERROR", {| db := db st; nstmt := S n |})
    else
      match sql (CURRENT_TIMESTAMP w n) (db st) with
      | Normal d => (Normal tt, {| db := d; nstmt := S n |})
      | Thrown e => (Thrown e, {| db := db st; nstmt := S n |})
      end.

(** [db.get] and [db.all]: a query. *)
Definition getRow {A} (sql : Db -> completion A) : M A :=
  fun st =>
    let n := nstmt st in
    let st' := {| db := db st; nstmt := S n |} in
    if fault w n then (Thrown "SQLITE_ERROR", st') else (sql (db st), st').

Definition getRows {A} (sql : Db -> completion (list A)) : M (list A) :=
  getRow sql.
End Storage.

(** What a handler sends: a 200 body, or a status with an error text. *)
Inductive response (B : Type) : Type :=
| Success (body : B)
| Failure (status : nat) (error : string).
Arguments Success {B} body.
Arguments Failure {B} status error.

(** An optional string field of a body as a value. *)
Definition js_of (x : option string) : jsval :=
  match x with
  | Some s => JStr s
  | None => JUndefined
  end.

(** [x || null] for a string or null. *)
Definition or_null (v : jsval) : option string :=
  match v with
  | JStr s => if String.eqb s EmptyString then None else Some s
  | _ => None
  end.

(** [x || fallback] for an optional string. *)
Definition or_else (x : option string) (fallback : string) : string :=
  match x with
  | Some s => if String.eqb s EmptyString then fallback else s
  | None => fallback
  end.

Definition includes (l : list string) (s : string) : bool :=
  existsb (String.eqb s) l.

(** [Math.max(...l)]: NaN as soon as one argument is; the maximum of no
    argument is not an integer either. *)
Fixpoint Math_max (l : list (option Z)) : option Z :=
  match l with
  | [] => None
  | [ x ] => x
  | x :: l' =>
      match x, Math_max l' with
      | Some a, Some b => Some (Z.max a b)
      | _, _ => None
      end
  end.

(** ** The statements of server/routes/healthData.js *)

Module Sql.
(** [SELECT id FROM devices WHERE id = ?] and its variants with more
    columns. *)
Definition select_device (id : string) (d : Db)
  : completion (option Devices.row) :=
  Normal (devices d !! id).

Definition with_devices (d : Db) (ds : gmap string Devices.row) : Db :=
  {| devices := ds; health_data := health_data d;
     sync_sessions := sync_sessions d |}.

(** [INSERT INTO devices (id, name, type, last_seen, metadata)
    VALUES (?, ?, ?, CURRENT_TIMESTAMP, ?)]; the other columns take
    their defaults. *)
Definition insert_device (id name type : string) (metadata : jsval)
    (now : Z) (d : Db) : completion Db :=
  if negb (includes [ "wearos"; "ios" ]%string type) then
    Thrown "SQLITE_CONSTRAINT: CHECK constraint failed: devices"
  else
    match devices d !! id with
    | Some _ => Thrown "SQLITE_CONSTRAINT: UNIQUE constraint failed: devices.id"
    | None =>
        Normal (with_devices d
          (<[ id := {| Devices.name := name;
                       Devices.type := type;
                       Devices.last_seen := now;
                       Devices.last_sync_timestamp := Some 0;
                       Devices.is_active := true;
                       Devices.metadata := metadata;
                       Devices.created_at := now;
                       Devices.updated_at := now |} ]> (devices d)))
    end.

(** [UPDATE devices SET last_seen = CURRENT_TIMESTAMP WHERE id = ?];
    the trigger [update_devices_timestamp] refreshes [updated_at]. *)
Definition touch_device (id : string) (now : Z) (d : Db) : completion Db :=
  Normal (with_devices d
    (alter (fun r =>
       {| Devices.name := Devices.name r;
          Devices.type := Devices.type r;
          Devices.last_seen := now;
          Devices.last_sync_timestamp := Devices.last_sync_timestamp r;
          Devices.is_active := Devices.is_active r;
          Devices.metadata := Devices.metadata r;
          Devices.created_at := Devices.created_at r;
          Devices.updated_at := now |}) id (devices d))).

(** [UPDATE devices SET last_sync_timestamp = ? WHERE id = ?]. *)
Definition update_last_sync (timestamp : option Z) (id : string)
    (now : Z) (d : Db) : completion Db :=
  Normal (with_devices d
    (alter (fun r =>
       {| Devices.name := Devices.name r;
          Devices.type := Devices.type r;
          Devices.last_seen := Devices.last_seen r;
          Devices.last_sync_timestamp := timestamp;
          Devices.is_active := Devices.is_active r;
          Devices.metadata := Devices.metadata r;
          Devices.created_at := Devices.created_at r;
          Devices.updated_at := now |}) id (devices d))).

(** [INSERT INTO health_data (device_id, data_type, timestamp, value,
    unit, metadata, source_app) VALUES (?, ?, ?, ?, ?, ?, ?)]:
    [timestamp] is NOT NULL (a NaN is bound as NULL) and [device_id]
    references [devices]. *)
Definition insert_health_data (deviceId dataType : string)
    (record : Sanitized.t) (now : Z) (d : Db) : completion Db :=
  match Sanitized.timestamp record with
  | None =>
      Thrown "SQLITE_CONSTRAINT: NOT NULL constraint failed: health_data.timestamp"
  | Some timestamp =>
      match devices d !! deviceId with
      | None => Thrown "SQLITE_CONSTRAINT: FOREIGN KEY constraint failed"
      | Some _ =>
          Normal
            {| devices := devices d;
               health_data :=
                 health_data d ++
                 [ {| HealthData.device_id := deviceId;
                      HealthData.data_type := dataType;
                      HealthData.timestamp := timestamp;
                      HealthData.value := Sanitized.value record;
                      HealthData.unit := or_null (Sanitized.unit record);
                      HealthData.metadata := Sanitized.metadata record;
                      HealthData.source_app :=
                        or_null (Sanitized.sourceApp record);
                      HealthData.created_at := now |} ];
               sync_sessions := sync_sessions d |}
      end
  end.
End Sql.

(** ** server/routes/healthData.js: POST /api/v1/health-data *)

Module Processed.
Record t : Type := {
  total : nat;
  inserted : nat;
  errors : nat
}.
End Processed.

Module Ingest.
Record request : Type := {
  deviceId : option string;
  dataType : option string;
  records : jsval;
  deviceName : option string;
  deviceType : option string
}.

(** The 200 body; [errors] is sent only when it is not empty. *)
Record body : Type := {
  processed : Processed.t;
  errors : list (nat * string)
}.
End Ingest.

Section HealthDataRoute.
Context {rt : Runtime}.
Variable w : World.

Definition ensureDeviceExists (deviceId : string)
    (deviceName : option string) (deviceType : string) : M unit :=
  let* existingDevice := getRow w (Sql.select_device deviceId) in
  match existingDevice with
  | None =>
      runQuery w
        (Sql.insert_device deviceId
           (or_else deviceName (deviceType ++ " Device")) deviceType
           (JObj [ ("auto_created"%string, JBool true) ]))
  | Some _ => runQuery w (Sql.touch_device deviceId)
  end.

(** The loop of [insertHealthRecords]: a failed insertion is logged and
    the loop goes on. *)
Fixpoint insertHealthRecords_from (insertedCount : nat)
    (deviceId dataType : string) (records : list Sanitized.t) : M nat :=
  match records with
  | [] => ret insertedCount
  | record :: records' =>
      let* insertedCount :=
        try_catch
          (do* runQuery w (Sql.insert_health_data deviceId dataType record) in
           ret (S insertedCount))
          (fun _ => ret insertedCount) in
      insertHealthRecords_from insertedCount deviceId dataType records'
  end.

Definition insertHealthRecords : string -> string -> list Sanitized.t -> M nat :=
  insertHealthRecords_from 0.

Definition updateDeviceLastSync (deviceId : string) (timestamp : option Z)
  : M unit :=
  runQuery w (Sql.update_last_sync timestamp deviceId).

(** The validation loop of the handler from index [i] on: the sanitised
    valid records and the errors, each with its index in the batch. *)
Fixpoint process_records (dataType : string) (i : nat) (records : list jsval)
  : list Sanitized.t * list (nat * string) :=
  match records with
  | [] => ([], [])
  | record :: records' =>
      let '(validRecords, errors) := process_records dataType (S i) records' in
      match validateHealthData (Date_now w i) dataType record with
      | Invalid error => (validRecords, (i, error) :: errors)
      | Valid =>
          match sanitizeHealthData dataType record with
          | Normal sanitizedRecord => (sanitizedRecord :: validRecords, errors)
          | Thrown message => (validRecords, (i, message) :: errors)
          end
      end
  end.

(** The timestamp handed to [updateDeviceLastSync] after a batch of
    [n] records: the greatest one of the valid records, or the clock. *)
Definition maxTimestamp (validRecords : list Sanitized.t) (n : nat)
  : option Z :=
  if (0 <? length validRecords)%nat
  then Math_max (map Sanitized.timestamp validRecords)
  else Some (Date_now w n).

Definition post_health_data (req : Ingest.request)
  : M (response Ingest.body) :=
  try_catch
    (match Ingest.deviceId req, Ingest.dataType req, Ingest.records req with
     | Some deviceId, Some dataType, JArr records =>
         if String.eqb deviceId EmptyString || String.eqb dataType EmptyString
         then
           ret (Failure 400
             "Missing required fields: deviceId, dataType, records (array)")
         else if negb (includes config.supportedTypes dataType) then
           ret (Failure 400 ("Unsupported data type: " ++ dataType))
         else if (config.maxBatchSize <? length records)%nat then
           ret (Failure 400 "Batch size exceeds maximum allowed (1000)")
         else
           do* ensureDeviceExists deviceId (Ingest.deviceName req)
                 (or_else (Ingest.deviceType req) "wearos") in
           let '(validRecords, errors) := process_records dataType 0 records in
           let* insertedCount :=
             if (0 <? length validRecords)%nat
             then insertHealthRecords deviceId dataType validRecords
             else ret 0%nat in
           do* updateDeviceLastSync deviceId
                 (maxTimestamp validRecords (length records)) in
           ret (Success
             {| Ingest.processed :=
                  {| Processed.total := length records;
                     Processed.inserted := insertedCount;
                     Processed.errors := length errors |};
                Ingest.errors := errors |})
     | _, _, _ =>
         ret (Failure 400
           "Missing required fields: deviceId, dataType, records (array)")
     end)
    (fun _ => ret (Failure 500 "Internal server error")).
End HealthDataRoute.

(** ** server/utils/validation.js: the parameters of a sync read *)

Definition is_undefined (v : jsval) : bool :=
  match v with JUndefined => true | _ => false end.

Section SyncParams.
Context {rt : Runtime}.

Definition validateSyncParams (since until limit offset : jsval) : validation :=
  let bad (v : jsval) (least : Z) : bool :=
    negb (is_undefined v) &&
    match parseInt v with
    | None => true
    | Some n => n <? least
    end in
  if bad since 0 then Invalid "Since parameter must be a valid timestamp"
  else if bad until 0 then Invalid "Until parameter must be a valid timestamp"
  else if negb (is_undefined limit) &&
          match parseInt limit with
          | None => true
          | Some n => (n <? 1) || (n >? Z.of_nat config.maxBatchSize)
          end
  then Invalid "Limit must be between 1 and 1000"
  else if bad offset 0 then Invalid "Offset must be a non-negative number"
  else Valid.
End SyncParams.

(** ** The statements of server/routes/sync.js *)

Module SyncSql.
(** The conditions a sync read joins with AND; a comparison with NULL
    (a NaN parameter) holds of no row. *)
Definition device_id_ne (deviceId : string) (r : HealthData.row) : bool :=
  negb (String.eqb (HealthData.device_id r) deviceId).

Definition timestamp_gt (since : option Z) (r : HealthData.row) : bool :=
  match since with
  | Some t => HealthData.timestamp r >? t
  | None => false
  end.

Definition timestamp_le (until : option Z) (r : HealthData.row) : bool :=
  match until with
  | Some t => HealthData.timestamp r <=? t
  | None => false
  end.

Definition data_type_eq (dataType : string) (r : HealthData.row) : bool :=
  String.eqb (HealthData.data_type r) dataType.

Definition where_ (conditions : list (HealthData.row -> bool))
    (r : HealthData.row) : bool :=
  forallb (fun c => c r) conditions.

(** [ORDER BY timestamp DESC]; rows of one timestamp keep their order. *)
Fixpoint insert_desc (r : HealthData.row) (l : list HealthData.row)
  : list HealthData.row :=
  match l with
  | [] => [ r ]
  | r' :: l' =>
      if HealthData.timestamp r' <=? HealthData.timestamp r
      then r :: l
      else r' :: insert_desc r l'
  end.

Definition order_by_timestamp_desc (l : list HealthData.row)
  : list HealthData.row :=
  fold_right insert_desc [] l.

(** [LIMIT ? OFFSET ?]: a negative limit is no limit, a negative offset
    is none. *)
Definition limit_offset (limit offset : Z) (l : list HealthData.row)
  : list HealthData.row :=
  let l := drop (Z.to_nat offset) l in
  if limit <? 0 then l else take (Z.to_nat limit) l.

(** [SELECT device_id, data_type, timestamp, value, unit, metadata,
    source_app FROM health_data WHERE ... ORDER BY timestamp DESC
    LIMIT ? OFFSET ?]; a NaN limit or offset is refused. *)
Definition select_health_data (conditions : list (HealthData.row -> bool))
    (limit offset : option Z) (d : Db) : completion (list HealthData.row) :=
  match limit, offset with
  | Some limit, Some offset =>
      Normal (limit_offset limit offset
                (order_by_timestamp_desc
                   (List.filter (where_ conditions) (health_data d))))
  | _, _ => Thrown "SQLITE_MISMATCH: datatype mismatch"
  end.

(** [SELECT COUNT( * ) as total FROM health_data WHERE ...]. *)
Definition count_health_data (conditions : list (HealthData.row -> bool))
    (d : Db) : completion nat :=
  Normal (length (List.filter (where_ conditions) (health_data d))).

(** [UPDATE devices SET last_sync_timestamp = ?,
    last_seen = CURRENT_TIMESTAMP WHERE id = ?]. *)
Definition update_sync_timestamp (timestamp : Z) (id : string)
    (now : Z) (d : Db) : completion Db :=
  Normal (Sql.with_devices d
    (alter (fun r =>
       {| Devices.name := Devices.name r;
          Devices.type := Devices.type r;
          Devices.last_seen := now;
          Devices.last_sync_timestamp := Some timestamp;
          Devices.is_active := Devices.is_active r;
          Devices.metadata := Devices.metadata r;
          Devices.created_at := Devices.created_at r;
          Devices.updated_at := now |}) id (devices d))).

(** [SELECT id, device_id, sync_type, status FROM sync_sessions
    WHERE id = ?]. *)
Definition select_session (id : string) (d : Db)
  : completion (option SyncSessions.row) :=
  Normal (sync_sessions d !! id).

(** [UPDATE sync_sessions SET status = ?, records_synced = ?,
    end_time = CURRENT_TIMESTAMP, error_message = ? WHERE id = ?]. *)
Definition update_session (status : SyncSessions.status_t)
    (recordsSynced : Z) (errorMessage : option string) (id : string)
    (now : Z) (d : Db) : completion Db :=
  Normal
    {| devices := devices d;
       health_data := health_data d;
       sync_sessions :=
         alter (fun s =>
           {| SyncSessions.device_id := SyncSessions.device_id s;
              SyncSessions.sync_type := SyncSessions.sync_type s;
              SyncSessions.status := status;
              SyncSessions.records_synced := recordsSynced;
              SyncSessions.start_time := SyncSessions.start_time s;
              SyncSessions.end_time := Some now;
              SyncSessions.error_message := errorMessage |})
           id (sync_sessions d) |}.
End SyncSql.

(** ** server/routes/sync.js *)

Module SyncData.
(** The query string of [GET /data/:deviceId]; a parameter is a string
    or is not there. *)
Record query : Type := {
  since : option string;
  until : option string;
  dataType : option string;
  limit : option string;
  offset : option string
}.

Record pagination : Type := {
  total : nat;
  limitNum : option Z;
  offsetNum : option Z;
  hasMore : bool
}.

Record body : Type := {
  data : list HealthData.row;
  pagination_ : pagination;
  lastSyncTimestamp : option Z
}.
End SyncData.

Module Complete.
(** The body of [POST /complete]. *)
Record request : Type := {
  sessionId : option string;
  recordsSynced : option Z;
  errorMessage : option string
}.

Record body : Type := {
  status : SyncSessions.status_t;
  recordsSynced_ : Z
}.
End Complete.

Definition status_text (s : SyncSessions.status_t) : string :=
  match s with
  | SyncSessions.started => "started"
  | SyncSessions.completed => "completed"
  | SyncSessions.failed => "failed"
  end.

Section SyncRoute.
Context {rt : Runtime}.
Variable w : World.

(** A query parameter as a value, with the default of the
    destructuring when it is not there. *)
Definition param (p : option string) (default : jsval) : jsval :=
  match p with
  | Some s => JStr s
  | None => default
  end.

(** The two queries and the 200 body of a sync read, once the
    conditions are built. *)
Definition read_page (conditions : list (HealthData.row -> bool))
    (limit offset : jsval) (sinceTimestamp : option Z)
  : M (response SyncData.body) :=
  let limitNum :=
    option_map (Z.min (Z.of_nat config.maxBatchSize)) (parseInt limit) in
  let offsetNum := parseInt offset in
  let* records :=
    getRows w (SyncSql.select_health_data conditions limitNum offsetNum) in
  let* total := getRow w (SyncSql.count_health_data conditions) in
  ret (Success
    {| SyncData.data := records;
       SyncData.pagination_ :=
         {| SyncData.total := total;
            SyncData.limitNum := limitNum;
            SyncData.offsetNum := offsetNum;
            SyncData.hasMore :=
              match offsetNum with
              | Some o => o + Z.of_nat (length records) <? Z.of_nat total
              | None => false
              end |};
       SyncData.lastSyncTimestamp := sinceTimestamp |}).

(** [GET /api/v1/sync/data/:deviceId]. *)
Definition get_sync_data (deviceId : string) (q : SyncData.query)
  : M (response SyncData.body) :=
  try_catch
    (let since := param (SyncData.since q) JUndefined in
     let until := param (SyncData.until q) JUndefined in
     let limit := param (SyncData.limit q) (JNum (num_of_Z 1000)) in
     let offset := param (SyncData.offset q) (JNum (num_of_Z 0)) in
     match validateSyncParams since until limit offset with
     | Invalid error => ret (Failure 400 error)
     | Valid =>
         let* device := getRow w (Sql.select_device deviceId) in
         match device with
         | None => ret (Failure 404 "Device not found")
         | Some device =>
             let sinceTimestamp :=
               if truthy since then parseInt since
               else Devices.last_sync_timestamp device in
             let conditions := [ SyncSql.device_id_ne deviceId ] in
             let conditions :=
               if match sinceTimestamp with Some t => t >? 0 | None => false end
               then conditions ++ [ SyncSql.timestamp_gt sinceTimestamp ]
               else conditions in
             let conditions :=
               if truthy until
               then conditions ++ [ SyncSql.timestamp_le (parseInt until) ]
               else conditions in
             match SyncData.dataType q with
             | Some dataType =>
                 if String.eqb dataType EmptyString then
                   read_page conditions limit offset sinceTimestamp
                 else if negb (includes config.supportedTypes dataType) then
                   ret (Failure 400 ("Unsupported data type: " ++ dataType))
                 else
                   read_page (conditions ++ [ SyncSql.data_type_eq dataType ])
                     limit offset sinceTimestamp
             | None => read_page conditions limit offset sinceTimestamp
             end
         end
     end)
    (fun _ => ret (Failure 500 "Internal server error")).

(** [PUT /api/v1/sync/timestamp/:deviceId]. *)
Definition put_sync_timestamp (deviceId : string) (timestamp : jsval)
  : M (response Z) :=
  try_catch
    (match parseInt timestamp with
     | Some timestampNum =>
         if negb (truthy timestamp) then
           ret (Failure 400 "Valid timestamp is required")
         else
           let* device := getRow w (Sql.select_device deviceId) in
           match device with
           | None => ret (Failure 404 "Device not found")
           | Some _ =>
               do* runQuery w
                     (SyncSql.update_sync_timestamp timestampNum deviceId) in
               ret (Success timestampNum)
           end
     | None => ret (Failure 400 "Valid timestamp is required")
     end)
    (fun _ => ret (Failure 500 "Internal server error")).

(** [POST /api/v1/sync/complete]. *)
Definition post_sync_complete (req : Complete.request)
  : M (response Complete.body) :=
  try_catch
    (let recordsSynced := default 0 (Complete.recordsSynced req) in
     let errorMessage := Complete.errorMessage req in
     match Complete.sessionId req with
     | None => ret (Failure 400 "Session ID is required")
     | Some sessionId =>
         if String.eqb sessionId EmptyString then
           ret (Failure 400 "Session ID is required")
         else
           let* session := getRow w (SyncSql.select_session sessionId) in
           match session with
           | None => ret (Failure 404 "Sync session not found")
           | Some session =>
               match SyncSessions.status session with
               | SyncSessions.started =>
                   let status :=
                     if truthy (js_of errorMessage)
                     then SyncSessions.failed else SyncSessions.completed in
                   do* runQuery w
                         (SyncSql.update_session status recordsSynced
                            (or_null (js_of errorMessage)) sessionId) in
                   ret (Success {| Complete.status := status;
                                   Complete.recordsSynced_ := recordsSynced |})
               | other =>
                   ret (Failure 400
                          ("Cannot complete session with status: " ++
                           status_text other))
               end
           end
     end)
    (fun _ => ret (Failure 500 "Internal server error")).
End SyncRoute.

(** ** Vocabulary of the properties *)

(** No white space at the front. *)
Definition no_leading_space (l : list ascii) : bool :=
  match l with
  | [] => true
  | c :: _ => negb (is_white_space c)
  end.

(** The sync cursor of a device, when the device is known and the column
    is not NULL. *)
Definition lastSyncCursor (d : Db) (deviceId : string) : option Z :=
  match devices d !! deviceId with
  | Some r => Devices.last_sync_timestamp r
  | None => None
  end.

(** A timestamp that is neither older than [maxRecordAge] nor more than
    the grace period ahead of [now]. *)
Definition fresh (now timestamp : Z) : Prop :=
  now - config.maxRecordAge <= timestamp <= now + gracePeriod.

(** ** Sample data *)

Module Sample.
Definition now : Z := 1700000000000.

(** A world where the storage never fails and the clocks stand still. *)
Definition quiet : World := {|
  fault := fun _ => false;
  CURRENT_TIMESTAMP := fun _ => 1700000000;
  Date_now := fun _ => now
|}.

(** A world where the storage rejects its third statement only. *)
Definition third_fails : World := {|
  fault := fun n => Nat.eqb n 2;
  CURRENT_TIMESTAMP := fun _ => 1700000000;
  Date_now := fun _ => now
|}.

Definition record (timestamp value : Z) : jsval :=
  JObj [ ("timestamp"%string, JNum (num_of_Z timestamp));
         ("value"%string, JNum (num_of_Z value)) ].

Definition empty : Db :=
  {| devices := ∅; health_data := []; sync_sessions := ∅ |}.

Definition start (d : Db) : St := {| db := d; nstmt := 0 |}.

Definition batch (deviceId dataType : string) (records : list jsval)
  : Ingest.request :=
  {| Ingest.deviceId := Some deviceId;
     Ingest.dataType := Some dataType;
     Ingest.records := JArr records;
     Ingest.deviceName := None;
     Ingest.deviceType := None |}.

(** 256 characters: an a, 254 spaces, a b. *)
Definition long_text : string :=
  String "a" (string_of_list_ascii (repeat " "%char 254) ++ "b").

(** A session of device w1 in each status. *)
Definition session (status : SyncSessions.status_t) : SyncSessions.row :=
  {| SyncSessions.device_id := "w1";
     SyncSessions.sync_type := "http";
     SyncSessions.status := status;
     SyncSessions.records_synced := 0;
     SyncSessions.start_time := 1700000000;
     SyncSessions.end_time := None;
     SyncSessions.error_message := None |}.

Definition with_session (status : SyncSessions.status_t) : Db :=
  {| devices := ∅; health_data := [];
     sync_sessions := {[ "s1"%string := session status ]} |}.

(** Two batches of device w1, the second one second older. *)
Definition first_batch : Ingest.request :=
  batch "w1" "heart_rate" [ record now 72 ].

Definition second_batch : Ingest.request :=
  batch "w1" "heart_rate" [ record (now - 1000) 75 ].

Definition after_first : St :=
  snd (post_health_data (rt := DecimalRuntime.runtime) quiet first_batch
         (start empty)).

Definition after_second : St :=
  snd (post_health_data (rt := DecimalRuntime.runtime) quiet second_batch
         after_first).

(** The database after w1 and then p1 sent one record each, and a sync
    read of everything since 0. *)
Definition after_both : St :=
  snd (post_health_data (rt := DecimalRuntime.runtime) quiet
         (batch "p1" "heart_rate" [ record now 80 ]) after_first).

Definition since_zero : SyncData.query :=
  {| SyncData.since := Some "0"%string;
     SyncData.until := None;
     SyncData.dataType := None;
     SyncData.limit := None;
     SyncData.offset := None |}.

(** Two valid records in one batch. *)
Definition pair_batch : Ingest.request :=
  batch "w1" "heart_rate" [ record now 72; record now 75 ].

(** A record one millisecond older than [maxRecordAge], with a valid
    value. *)
Definition stale_batch : Ingest.request :=
  batch "w1" "heart_rate" [ record (now - config.maxRecordAge - 1) 72 ].

(** 1001 records. *)
Definition oversized_batch : Ingest.request :=
  batch "w1" "heart_rate" (repeat (record now 72) 1001).

Definition complete (errorMessage : option string) : Complete.request :=
  {| Complete.sessionId := Some "s1"%string;
     Complete.recordsSynced := Some 5;
     Complete.errorMessage := errorMessage |}.
End Sample.

(** The elements of an array; nothing for any other value. *)
Definition items (v : jsval) : list jsval :=
  match v with
  | JArr l => l
  | _ => []
  end.

(** A computation whose every run relates the database before to the
    database after by [R], whether it returns or throws. *)
Definition keeps (R : Db -> Db -> Prop) {A} (m : M A) : Prop :=
  forall st, R (db st) (db (snd (m st))).

(** A sanitised record that stems from the record at some index [i + j]
    of a batch, which passed validation at the clock reading taken for it
    and carries its fresh timestamp. *)
Definition accepted_at {rt : Runtime} (w : World) (dataType : string)
    (i : nat) (records : list jsval) (s : Sanitized.t) : Prop :=
  exists (j : nat) (record : jsval) (timestamp : Z),
    records !! j = Some record /\
    validateHealthData (Date_now w (i + j)) dataType record = Valid /\
    Sanitized.timestamp s = Some timestamp /\
    fresh (Date_now w (i + j)) timestamp.

(** The database [d'] is [d] with rows added at the end of [health_data],
    each of them satisfying [P]; the other tables may differ. *)
Definition appends (P : HealthData.row -> Prop) (d d' : Db) : Prop :=
  exists rows,
    health_data d' = health_data d ++ rows /\ Forall P rows.

(** * The other routes of server/routes/sync.js and
      server/routes/healthData.js *)

(** A double quote, for the messages that carry one. *)
Definition dquote : string := String "034" EmptyString.

(** [String(v)] returns rather than throws. A primitive always prints. An
    object is asked for its [toString] and then its [valueOf]: the
    inherited [toString] prints every object, but an own [toString]
    property of a parsed JSON object is a value, not a function, and the
    inherited [valueOf] gives the object back, so the conversion ends in
    a TypeError. An array joins its elements, converting each but [null]
    and [undefined].  [parseInt] and [parseFloat] convert their argument
    first, so they throw where this is false. *)
Fixpoint converts_to_string (v : jsval) : bool :=
  match v with
  | JObj fs =>
      match assoc "toString" fs with
      | Some _ => false
      | None => true
      end
  | JArr l => forallb converts_to_string l
  | _ => true
  end.

(** [typeof v === 'string']. *)
Definition typeof_string (v : jsval) : bool :=
  match v with JStr _ => true | _ => false end.

(** [v.length] of a string, in code units. *)
Definition length_of (v : jsval) : nat :=
  match v with JStr s => String.length s | _ => 0 end.

(** [list.includes(v)] for a list of strings: only a string is found. *)
Definition includes_value (l : list string) (v : jsval) : bool :=
  match v with JStr s => includes l s | _ => false end.

(** ** server/utils/validation.js: device registration *)

Definition validateDeviceRegistration (deviceId deviceName deviceType : jsval)
  : validation :=
  if negb (truthy deviceId) || negb (typeof_string deviceId)
     || (length_of deviceId <? 1)%nat || (100 <? length_of deviceId)%nat
  then Invalid "Device ID must be a string between 1 and 100 characters"
  else if negb (truthy deviceName) || negb (typeof_string deviceName)
          || (length_of deviceName <? 1)%nat
          || (255 <? length_of deviceName)%nat
  then Invalid "Device name must be a string between 1 and 255 characters"
  else if negb (truthy deviceType)
          || negb (includes_value [ "wearos"; "ios" ]%string deviceType)
  then Invalid ("Device type must be either " ++ dquote ++ "wearos" ++ dquote
                ++ " or " ++ dquote ++ "ios" ++ dquote)
  else Valid.

(** ** More statements *)

Module DeviceSql.
(** [UPDATE devices SET name = ?, type = ?, last_seen = CURRENT_TIMESTAMP,
  is_active = 1, metadata = ? WHERE id = ?]; the CHECK on [type] holds
  for the row written, and the trigger refreshes [updated_at]. *)
Definition update_device (id name type : string) (metadata : jsval)
  (now : Z) (d : Db) : completion Db :=
match devices d !! id with
| None => Normal d
| Some r =>
    if negb (includes [ "wearos"; "ios" ]%string type) then
      Thrown "SQLITE_CONSTRAINT: CHECK constraint failed: devices"
    else
      Normal (Sql.with_devices d
        (<[ id := {| Devices.name := name;
                     Devices.type := type;
                     Devices.last_seen := now;
                     Devices.last_sync_timestamp :=
                       Devices.last_sync_timestamp r;
                     Devices.is_active := true;
                     Devices.metadata := metadata;
                     Devices.created_at := Devices.created_at r;
                     Devices.updated_at := now |} ]> (devices d)))
end.

(** [UPDATE devices SET is_active = 0, updated_at = CURRENT_TIMESTAMP
  WHERE id = ?]. *)
Definition deactivate_device (id : string) (now : Z) (d : Db)
: completion Db :=
Normal (Sql.with_devices d
  (alter (fun r =>
     {| Devices.name := Devices.name r;
        Devices.type := Devices.type r;
        Devices.last_seen := Devices.last_seen r;
        Devices.last_sync_timestamp := Devices.last_sync_timestamp r;
        Devices.is_active := false;
        Devices.metadata := Devices.metadata r;
        Devices.created_at := Devices.created_at r;
        Devices.updated_at := now |}) id (devices d))).

(** [INSERT INTO sync_sessions (id, device_id, sync_type, status,
  start_time) VALUES (?, ?, ?, 'started', CURRENT_TIMESTAMP)]: [id] is
  the primary key, [sync_type] is checked and [device_id] references
  [devices]; the other columns take their defaults. *)
Definition insert_session (id device_id sync_type : string) (now : Z)
  (d : Db) : completion Db :=
if negb (includes [ "http"; "bluetooth" ]%string sync_type) then
  Thrown "SQLITE_CONSTRAINT: CHECK constraint failed: sync_sessions"
else
  match sync_sessions d !! id, devices d !! device_id with
  | Some _, _ =>
      Thrown "SQLITE_CONSTRAINT: UNIQUE constraint failed: sync_sessions.id"
  | None, None => Thrown "SQLITE_CONSTRAINT: FOREIGN KEY constraint failed"
  | None, Some _ =>
      Normal
        {| devices := devices d;
           health_data := health_data d;
           sync_sessions :=
             <[ id := {| SyncSessions.device_id := device_id;
                         SyncSessions.sync_type := sync_type;
                         SyncSessions.status := SyncSessions.started;
                         SyncSessions.records_synced := 0;
                         SyncSessions.start_time := now;
                         SyncSessions.end_time := None;
                         SyncSessions.error_message := None |} ]>
               (sync_sessions d) |}
  end.
End DeviceSql.

Module HealthSql.
Definition device_id_eq (deviceId : string) (r : HealthData.row) : bool :=
String.eqb (HealthData.device_id r) deviceId.

Definition timestamp_ge (since : Z) (r : HealthData.row) : bool :=
HealthData.timestamp r >=? since.

Definition timestamp_lt (before : Z) (r : HealthData.row) : bool :=
HealthData.timestamp r <? before.

(** [DELETE FROM health_data WHERE ...], with the number of rows it
  removed. *)
Definition delete_health_data (conditions : list (HealthData.row -> bool))
  (now : Z) (d : Db) : completion (Db * nat) :=
Normal
  ({| devices := devices d;
      health_data :=
        List.filter (fun r => negb (SyncSql.where_ conditions r))
          (health_data d);
      sync_sessions := sync_sessions d |},
   length (List.filter (SyncSql.where_ conditions) (health_data d))).
End HealthSql.

(** [db.run] seen with [this.changes], the number of rows the statement
    changed. *)
Definition runQuery_changes (w : World)
    (sql : Z -> Db -> completion (Db * nat)) : M nat :=
  fun st =>
    let n := nstmt st in
    if fault w n then
      (Thrown "SQLITE_ERROR", {| db := db st; nstmt := S n |})
    else
      match sql (CURRENT_TIMESTAMP w n) (db st) with
      | Normal (d, changes) => (Normal changes, {| db := d; nstmt := S n |})
      | Thrown e => (Thrown e, {| db := db st; nstmt := S n |})
      end.

(** [x || fallback] for the result of [parseInt]: NaN and 0 give way. *)
Definition or_number (x : option Z) (fallback : Z) : Z :=
  match x with
  | Some 0 | None => fallback
  | Some n => n
  end.

(** ** The bodies of the other routes *)

Module Register.
(** The body of [POST /register]; the fields are any JSON values. *)
Record request : Type := {
deviceId : jsval;
deviceName : jsval;
deviceType : jsval;
metadata : jsval
}.

Record device : Type := {
id : string;
name : string;
type : string;
lastSyncTimestamp : option Z
}.

(** What is sent with status [status], 200 or 201. *)
Record body : Type := {
status : nat;
message : string;
device_ : device
}.
End Register.

Module Start.
Record request : Type := {
deviceId : option string;
syncType : option string
}.

Record body : Type := {
sessionId : string;
syncType_ : string
}.
End Start.

Module Retrieve.
(** The query string of [GET /api/v1/health-data]. *)
Record query : Type := {
deviceId : option string;
dataType : option string;
since : option string;
until : option string;
limit : option string;
offset : option string
}.

Record pagination : Type := {
total : nat;
limitNum : Z;
offsetNum : Z;
hasMore : bool
}.

Record body : Type := {
data : list HealthData.row;
pagination_ : pagination
}.
End Retrieve.

Module Purge.
(** The query string of [DELETE /api/v1/health-data]. *)
Record query : Type := {
deviceId : option string;
dataType : option string;
before : option string
}.
End Purge.

Section MoreSyncRoutes.
Context {rt : Runtime}.
Variable w : World.

(** [POST /api/v1/sync/register]; validation lets only strings through,
  so the last branch is never taken. *)
Definition post_sync_register (req : Register.request)
: M (response Register.body) :=
try_catch
  (match validateDeviceRegistration (Register.deviceId req)
           (Register.deviceName req) (Register.deviceType req) with
   | Invalid error => ret (Failure 400 error)
   | Valid =>
       match Register.deviceId req, Register.deviceName req,
             Register.deviceType req with
       | JStr deviceId, JStr deviceName, JStr deviceType =>
           let metadata :=
             if truthy (Register.metadata req) then Register.metadata req
             else JObj [] in
           let* existingDevice := getRow w (Sql.select_device deviceId) in
           match existingDevice with
           | Some existingDevice =>
               do* runQuery w
                     (DeviceSql.update_device deviceId deviceName deviceType
                        metadata) in
               ret (Success
                 {| Register.status := 200;
                    Register.message := "Device updated successfully";
                    Register.device_ :=
                      {| Register.id := deviceId;
                         Register.name := deviceName;
                         Register.type := deviceType;
                         Register.lastSyncTimestamp :=
                           Devices.last_sync_timestamp existingDevice |} |})
           | None =>
               do* runQuery w
                     (Sql.insert_device deviceId deviceName deviceType
                        metadata) in
               ret (Success
                 {| Register.status := 201;
                    Register.message := "Device registered successfully";
                    Register.device_ :=
                      {| Register.id := deviceId;
                         Register.name := deviceName;
                         Register.type := deviceType;
                         Register.lastSyncTimestamp := Some 0 |} |})
           end
       | _, _, _ => throw "TypeError"
       end
   end)
  (fun _ => ret (Failure 500 "Internal server error")).

(** [POST /api/v1/sync/start]; [uuid] is what [uuidv4()] returns. *)
Definition post_sync_start (uuid : string) (req : Start.request)
: M (response Start.body) :=
try_catch
  (let syncType := default "http"%string (Start.syncType req) in
   if negb (truthy (js_of (Start.deviceId req))) then
     ret (Failure 400 "Device ID is required")
   else if negb (includes [ "http"; "bluetooth" ]%string syncType) then
     ret (Failure 400
            ("Sync type must be either " ++ dquote ++ "http" ++ dquote
             ++ " or " ++ dquote ++ "bluetooth" ++ dquote))
   else
     let deviceId := default EmptyString (Start.deviceId req) in
     let* device := getRow w (Sql.select_device deviceId) in
     match device with
     | None =>
         ret (Failure 404
                "Device not found. Please register the device first.")
     | Some _ =>
         let sessionId := uuid in
         do* runQuery w (DeviceSql.insert_session sessionId deviceId syncType) in
         ret (Success {| Start.sessionId := sessionId;
                         Start.syncType_ := syncType |})
     end)
  (fun _ => ret (Failure 500 "Internal server error")).

(** [DELETE /api/v1/sync/device/:deviceId]: the device is marked inactive,
  no row is removed. *)
Definition delete_sync_device (deviceId : string) : M (response string) :=
try_catch
  (let* device := getRow w (Sql.select_device deviceId) in
   match device with
   | None => ret (Failure 404 "Device not found")
   | Some _ =>
       do* runQuery w (DeviceSql.deactivate_device deviceId) in
       ret (Success "Device unregistered successfully"%string)
   end)
  (fun _ => ret (Failure 500 "Internal server error")).
End MoreSyncRoutes.

Section MoreHealthDataRoutes.
Context {rt : Runtime}.
Variable w : World.

(** The queries and the 200 body of [GET /api/v1/health-data], once the
  conditions are built. *)
Definition retrieve_page (conditions : list (HealthData.row -> bool))
  (limit offset : jsval) : M (response Retrieve.body) :=
let limitNum :=
  Z.min (or_number (parseInt limit) 1000) (Z.of_nat config.maxBatchSize) in
let offsetNum := or_number (parseInt offset) 0 in
let* records :=
  getRows w
    (SyncSql.select_health_data conditions (Some limitNum) (Some offsetNum)) in
let* total := getRow w (SyncSql.count_health_data conditions) in
ret (Success
  {| Retrieve.data := records;
     Retrieve.pagination_ :=
       {| Retrieve.total := total;
          Retrieve.limitNum := limitNum;
          Retrieve.offsetNum := offsetNum;
          Retrieve.hasMore :=
            offsetNum + Z.of_nat (length records) <? Z.of_nat total |} |}).

(** The condition a [since], [until] or [before] parameter adds: none
  when the parameter is not there or empty, [None] when it is not a
  number. *)
Definition timestamp_condition (p : option string)
  (condition : Z -> HealthData.row -> bool)
: option (list (HealthData.row -> bool)) :=
if truthy (js_of p) then
  match parseInt (js_of p) with
  | Some timestamp => Some [ condition timestamp ]
  | None => None
  end
else Some [].

(** [GET /api/v1/health-data]. *)
Definition get_health_data (q : Retrieve.query) : M (response Retrieve.body) :=
try_catch
  (let limit := param (Retrieve.limit q) (JNum (num_of_Z 1000)) in
   let offset := param (Retrieve.offset q) (JNum (num_of_Z 0)) in
   let conditions :=
     if truthy (js_of (Retrieve.deviceId q))
     then [ HealthSql.device_id_eq (default EmptyString (Retrieve.deviceId q)) ]
     else [] in
   let dataType := default EmptyString (Retrieve.dataType q) in
   if truthy (js_of (Retrieve.dataType q))
      && negb (includes config.supportedTypes dataType)
   then ret (Failure 400 ("Unsupported data type: " ++ dataType))
   else
     let conditions :=
       if truthy (js_of (Retrieve.dataType q))
       then conditions ++ [ SyncSql.data_type_eq dataType ]
       else conditions in
     match timestamp_condition (Retrieve.since q) HealthSql.timestamp_ge with
     | None => ret (Failure 400 "Invalid since timestamp")
     | Some since =>
         match timestamp_condition (Retrieve.until q)
                 (fun t => SyncSql.timestamp_le (Some t)) with
         | None => ret (Failure 400 "Invalid until timestamp")
         | Some until =>
             retrieve_page (conditions ++ since ++ until) limit offset
         end
     end)
  (fun _ => ret (Failure 500 "Internal server error")).

(** [DELETE /api/v1/health-data]; [environment] is
  [config.server.environment], read from [NODE_ENV]. *)
Definition delete_health_data (environment : string) (q : Purge.query)
: M (response nat) :=
try_catch
  (if String.eqb environment "production" then
     ret (Failure 403 "Data deletion not allowed in production")
   else
     let conditions :=
       if truthy (js_of (Purge.deviceId q))
       then [ HealthSql.device_id_eq (default EmptyString (Purge.deviceId q)) ]
       else [] in
     let conditions :=
       if truthy (js_of (Purge.dataType q))
       then conditions
            ++ [ SyncSql.data_type_eq (default EmptyString (Purge.dataType q)) ]
       else conditions in
     match timestamp_condition (Purge.before q) HealthSql.timestamp_lt with
     | None => ret (Failure 400 "Invalid before timestamp")
     | Some before =>
         let conditions := conditions ++ before in
         if Nat.eqb (length conditions) 0 then
           ret (Failure 400
             "At least one filter (deviceId, dataType, or before) is required")
         else
           let* changes :=
             runQuery_changes w (HealthSql.delete_health_data conditions) in
           ret (Success changes)
     end)
  (fun _ => ret (Failure 500 "Internal server error")).
End MoreHealthDataRoutes.

(** ** More vocabulary *)

(** A key or text the sanitiser can have produced: no markup character,
    at most 255 code units, no white space at the front. *)
Definition clean_text (s : string) : Prop :=
  Forall (fun c => is_markup c = false) (list_ascii_of_string s) /\
  (String.length s <= 255)%nat /\
  no_leading_space (list_ascii_of_string s) = true.

(** What the registry keeps when only the device [touched] is written:
    the sessions, the absence of every other device, and of every device
    its presence, name, type, activity flag, metadata and creation time,
    the other devices being kept whole. *)
Definition registry_kept (touched : option string) (d d' : Db) : Prop :=
  sync_sessions d' = sync_sessions d /\
  (forall id, devices d !! id = None -> touched <> Some id ->
     devices d' !! id = None) /\
  (forall id r, devices d !! id = Some r ->
     exists r',
       devices d' !! id = Some r' /\
       Devices.name r' = Devices.name r /\
       Devices.type r' = Devices.type r /\
       Devices.is_active r' = Devices.is_active r /\
       Devices.metadata r' = Devices.metadata r /\
       Devices.created_at r' = Devices.created_at r /\
       (touched <> Some id -> r' = r)).

(** The row [row] holds the sanitised record [s] of device [deviceId] and
    type [dataType]. *)
Definition stored_as (deviceId dataType : string) (s : Sanitized.t)
    (row : HealthData.row) : Prop :=
  HealthData.device_id row = deviceId /\
  HealthData.data_type row = dataType /\
  Sanitized.timestamp s = Some (HealthData.timestamp row) /\
  HealthData.value row = Sanitized.value s /\
  HealthData.unit row = or_null (Sanitized.unit s) /\
  HealthData.metadata row = Sanitized.metadata s /\
  HealthData.source_app row = or_null (Sanitized.sourceApp s).

(** The watermark of a sync read: the [since] parameter when it is given,
    the stored cursor of the device otherwise. *)
Definition sync_since {rt : Runtime} (q : SyncData.query)
    (device : Devices.row) : option Z :=
  match SyncData.since q with
  | Some s =>
      if String.eqb s EmptyString then Devices.last_sync_timestamp device
      else parseInt (JStr s)
  | None => Devices.last_sync_timestamp device
  end.

(** The rows a sync read of device [deviceId] selects, in one predicate:
    rows of other devices, newer than a positive watermark, not newer than
    [until] and of the type [dataType], for the parameters that are given
    and not empty. *)
Definition sync_selects {rt : Runtime} (deviceId : string)
    (sinceTimestamp : option Z) (until dataType : option string)
    (r : HealthData.row) : bool :=
  negb (String.eqb (HealthData.device_id r) deviceId)
  && match sinceTimestamp with
     | Some s => if s >? 0 then HealthData.timestamp r >? s else true
     | None => true
     end
  && match until with
     | Some u =>
         if String.eqb u EmptyString then true
         else match parseInt (JStr u) with
              | Some t => HealthData.timestamp r <=? t
              | None => false
              end
     | None => true
     end
  && match dataType with
     | Some t =>
         if String.eqb t EmptyString then true
         else String.eqb (HealthData.data_type r) t
     | None => true
     end.

(** Newest first. *)
Definition newest_first (l : list HealthData.row) : Prop :=
  StronglySorted
    (fun a b => HealthData.timestamp b <= HealthData.timestamp a) l.

(** No white space at the end. *)
Definition no_trailing_space (l : list ascii) : bool :=
  no_leading_space (rev l).

(** The parameter [p] of a query string is there with the text [s], not
    empty. *)
Definition given (p : option string) (s : string) : Prop :=
  p = Some s /\ s <> EmptyString.

(** The row [r] passes every filter the query [q] of
    [GET /api/v1/health-data] gives: the device, the type, a timestamp
    not before [since] and not after [until]. *)
Definition retrieve_matches {rt : Runtime} (q : Retrieve.query)
    (r : HealthData.row) : Prop :=
  (forall deviceId, given (Retrieve.deviceId q) deviceId ->
     HealthData.device_id r = deviceId) /\
  (forall dataType, given (Retrieve.dataType q) dataType ->
     HealthData.data_type r = dataType) /\
  (forall since t, given (Retrieve.since q) since ->
     parseInt (JStr since) = Some t -> t <= HealthData.timestamp r) /\
  (forall until t, given (Retrieve.until q) until ->
     parseInt (JStr until) = Some t -> HealthData.timestamp r <= t).

(** The row [r] passes every filter the query [q] of
    [DELETE /api/v1/health-data] gives: the device, the type, a timestamp
    before [before]. *)
Definition purge_matches {rt : Runtime} (q : Purge.query)
    (r : HealthData.row) : Prop :=
  (forall deviceId, given (Purge.deviceId q) deviceId ->
     HealthData.device_id r = deviceId) /\
  (forall dataType, given (Purge.dataType q) dataType ->
     HealthData.data_type r = dataType) /\
  (forall before t, given (Purge.before q) before ->
     parseInt (JStr before) = Some t -> HealthData.timestamp r < t).

(** Sample values for the other routes. *)
Module Scenario.
Definition coordinate (latitude longitude : Z) : jsval :=
JObj [ ("latitude"%string, JNum (num_of_Z latitude));
       ("longitude"%string, JNum (num_of_Z longitude)) ].

Definition pressure (systolic diastolic : Z) : jsval :=
JObj [ ("systolic"%string, JNum (num_of_Z systolic));
       ("diastolic"%string, JNum (num_of_Z diastolic)) ].

(** A batch of a device of a type the [devices] table does not allow. *)
Definition android_batch : Ingest.request :=
{| Ingest.deviceId := Some "a1"%string;
   Ingest.dataType := Some "steps"%string;
   Ingest.records := JArr [ Sample.record Sample.now 10 ];
   Ingest.deviceName := None;
   Ingest.deviceType := Some "android"%string |}.

(** A batch that names no data type. *)
Definition untyped_batch : Ingest.request :=
{| Ingest.deviceId := Some "w1"%string;
   Ingest.dataType := None;
   Ingest.records := JArr [ Sample.record Sample.now 10 ];
   Ingest.deviceName := None;
   Ingest.deviceType := None |}.

(** A batch of a new device that gives its name and type. *)
Definition named_batch : Ingest.request :=
{| Ingest.deviceId := Some "p9"%string;
   Ingest.dataType := Some "steps"%string;
   Ingest.records := JArr [ Sample.record Sample.now 10 ];
   Ingest.deviceName := Some "Phone"%string;
   Ingest.deviceType := Some "ios"%string |}.

(** The database after w1 sent three steps records and then p1 one, and
  queries of p1. *)
Definition three_steps : Ingest.request :=
Sample.batch "w1" "steps"
  [ Sample.record (Sample.now - 2000) 10;
    Sample.record Sample.now 30;
    Sample.record (Sample.now - 1000) 20 ].

Definition populated : St :=
snd (post_health_data (rt := DecimalRuntime.runtime) Sample.quiet
       (Sample.batch "p1" "steps" [ Sample.record (Sample.now - 5000) 5 ])
       (snd (post_health_data (rt := DecimalRuntime.runtime) Sample.quiet
               three_steps (Sample.start Sample.empty)))).

(** 300 characters, none of them markup or white space. *)
Definition cut_text : string := string_of_list_ascii (repeat "a"%char 300).

(** A request to start a session of w1, and its completion. *)
Definition start_w1 : Start.request :=
{| Start.deviceId := Some "w1"%string; Start.syncType := None |}.

Definition complete_u1 : Complete.request :=
{| Complete.sessionId := Some "u1"%string;
   Complete.recordsSynced := Some 3;
   Complete.errorMessage := None |}.

(** A registration of w1 under a new name. *)
Definition register_w1 : Register.request :=
{| Register.deviceId := JStr "w1";
   Register.deviceName := JStr "Galaxy Watch";
   Register.deviceType := JStr "wearos";
   Register.metadata := JUndefined |}.

(** Queries of the health data of w1, and the deletion of what is older
  than a timestamp. *)
Definition retrieve (since limit : option string) : Retrieve.query :=
{| Retrieve.deviceId := Some "w1"%string;
   Retrieve.dataType := None;
   Retrieve.since := since;
   Retrieve.until := None;
   Retrieve.limit := limit;
   Retrieve.offset := None |}.

Definition purge (before : option string) : Purge.query :=
{| Purge.deviceId := Some "w1"%string;
   Purge.dataType := None;
   Purge.before := before |}.

Definition page (since limit offset : option string) : SyncData.query :=
{| SyncData.since := since;
   SyncData.until := None;
   SyncData.dataType := Some "steps"%string;
   SyncData.limit := limit;
   SyncData.offset := offset |}.
End Scenario.

(** * Properties *)

(** ** The string sanitiser *)

Section SanitizeStringFacts.
Lemma trimStart_no_leading l : no_leading_space (trimStart l) = true.
Proof.
  induction l as [|c l IH]; simpl; [reflexivity|].
  destruct (is_white_space c) eqn:E; [exact IH|].
  simpl. now rewrite E.
Qed.

Lemma trimStart_fixed l : no_leading_space l = true -> trimStart l = l.
Proof.
  destruct l as [|c l]; simpl; [reflexivity|].
  now destruct (is_white_space c).
Qed.

Lemma trimStart_snoc l c :
  is_white_space c = false -> trimStart (l ++ [c]) = trimStart l ++ [c].
Proof.
  intros Hc. induction l as [|a l IH]; simpl.
  - now rewrite Hc.
  - destruct (is_white_space a); [exact IH|reflexivity].
Qed.

Lemma trimEnd_cons c l :
  is_white_space c = false -> trimEnd (c :: l) = c :: trimEnd l.
Proof.
  intros Hc. unfold trimEnd. simpl rev at 2.
  rewrite trimStart_snoc by exact Hc.
  now rewrite rev_app_distr.
Qed.

Lemma trimEnd_no_leading l :
  no_leading_space l = true -> no_leading_space (trimEnd l) = true.
Proof.
  destruct l as [|c l]; [reflexivity|]. simpl. intros Hc.
  apply negb_true_iff in Hc. rewrite trimEnd_cons by exact Hc.
  simpl. now rewrite Hc.
Qed.

Lemma trimEnd_trimEnd l : trimEnd (trimEnd l) = trimEnd l.
Proof.
  unfold trimEnd. rewrite rev_involutive.
  now rewrite (trimStart_fixed _ (trimStart_no_leading _)).
Qed.

Lemma trim_trim l : trim (trim l) = trim l.
Proof.
  unfold trim.
  rewrite (trimStart_fixed (trimEnd (trimStart l))).
  - apply trimEnd_trimEnd.
  - apply trimEnd_no_leading, trimStart_no_leading.
Qed.

(** Trimming only drops characters. *)
Lemma trimStart_Forall (P : ascii -> Prop) l :
  Forall P l -> Forall P (trimStart l).
Proof.
  induction 1 as [|c l Hc Hl IH]; simpl; [constructor|].
  destruct (is_white_space c); [exact IH|now constructor].
Qed.

Lemma trim_Forall (P : ascii -> Prop) l : Forall P l -> Forall P (trim l).
Proof.
  intros H. unfold trim, trimEnd.
  apply Forall_rev, trimStart_Forall, Forall_rev, trimStart_Forall, H.
Qed.

Lemma remove_markup_Forall l :
  Forall (fun c => is_markup c = false) (remove_markup l).
Proof.
  apply List.Forall_forall. intros c Hc.
  apply List.filter_In in Hc. now apply negb_true_iff.
Qed.

Lemma remove_markup_fixed l :
  Forall (fun c => is_markup c = false) l -> remove_markup l = l.
Proof.
  induction 1 as [|c l Hc Hl IH]; simpl; [reflexivity|].
  rewrite Hc. simpl. now f_equal.
Qed.

(** When nothing is cut off, the result of a pass is a fixed point. *)
Lemma sanitize_chars_idempotent l :
  (length (trim (remove_markup l)) <= 255)%nat ->
  sanitize_chars (sanitize_chars l) = sanitize_chars l.
Proof.
  intros Hlen. unfold sanitize_chars.
  rewrite (firstn_all2 (n := 255) (trim (remove_markup l))) by exact Hlen.
  rewrite (remove_markup_fixed (trim _))
    by apply trim_Forall, remove_markup_Forall.
  rewrite trim_trim. now apply firstn_all2.
Qed.
End SanitizeStringFacts.

(** ** Validation of one record *)

Section ValidationFacts.
Context {rt : Runtime}.

(** A value whose properties can be read at all has every property
    readable. *)
Lemma get_Normal r k v k' :
  get r k = Normal v -> exists v', get r k' = Normal v'.
Proof. destruct r; simpl; intros H; try discriminate; eauto. Qed.

(** What a record that passes validation looks like. *)
Lemma validateHealthData_Valid now dataType record :
  validateHealthData now dataType record = Valid ->
  exists ts value metadata timestamp,
    get record "timestamp" = Normal ts /\
    get record "value" = Normal value /\
    get record "metadata" = Normal metadata /\
    truthy ts = true /\ truthy value = true /\
    parseInt ts = Some timestamp /\
    0 <= timestamp /\ fresh now timestamp /\
    validateValueByType dataType value metadata = Normal Valid.
Proof.
  unfold validateHealthData, fresh.
  destruct (get record "timestamp") as [ts|]; [|now destruct (get record "value"), (get record "metadata")].
  destruct (get record "value") as [value|]; [|now destruct (get record "metadata")].
  destruct (get record "metadata") as [metadata|]; [|discriminate].
  destruct (truthy ts) eqn:Hts; [|discriminate].
  destruct (truthy value) eqn:Hv; [|discriminate]. simpl.
  destruct (parseInt ts) as [timestamp|] eqn:Hp; [|discriminate].
  destruct (timestamp <? 0) eqn:H0; [discriminate|].
  destruct (now - timestamp >? config.maxRecordAge) eqn:Hold; [discriminate|].
  destruct (timestamp >? now + gracePeriod) eqn:Hnew; [discriminate|].
  destruct (validateValueByType dataType value metadata) as [[|]|] eqn:Hval;
    try discriminate.
  intros _. exists ts, value, metadata, timestamp.
  repeat split; try reflexivity; try assumption; lia.
Qed.

(** Past the structural and freshness checks the verdict is the one on
    the value. *)
Lemma validateHealthData_checked now dataType record ts value timestamp :
  get record "timestamp" = Normal ts ->
  get record "value" = Normal value ->
  truthy ts = true -> truthy value = true ->
  parseInt ts = Some timestamp ->
  0 <= timestamp -> fresh now timestamp ->
  exists metadata,
    get record "metadata" = Normal metadata /\
    validateHealthData now dataType record =
      match validateValueByType dataType value metadata with
      | Normal valueValidation => valueValidation
      | Thrown e => Invalid ("Validation error: " ++ e)
      end.
Proof.
  intros Hts Hv Tts Tv Hp H0 [Hold Hnew].
  destruct (get_Normal _ _ _ "metadata" Hts) as [metadata Hm].
  exists metadata. split; [exact Hm|].
  unfold validateHealthData. rewrite Hts, Hv, Hm, Tts, Tv. simpl.
  rewrite Hp.
  replace (timestamp <? 0) with false by lia.
  replace (now - timestamp >? config.maxRecordAge) with false by lia.
  replace (timestamp >? now + gracePeriod) with false by lia.
  reflexivity.
Qed.

(** A stale or early timestamp is rejected whatever the value and the
    data type. *)
Lemma validateHealthData_stale now dataType record ts timestamp :
  get record "timestamp" = Normal ts ->
  parseInt ts = Some timestamp ->
  ~ fresh now timestamp ->
  exists error, validateHealthData now dataType record = Invalid error.
Proof.
  intros Hts Hp Hfresh.
  destruct (validateHealthData now dataType record) as [|error] eqn:Hv;
    [|now exists error].
  apply validateHealthData_Valid in Hv.
  destruct Hv as (ts' & _ & _ & timestamp' & Hts' & _ & _ & _ & _ & Hp' & _ & Hf & _).
  congruence.
Qed.

Lemma in_range_Fin q lo hi :
  out_of_range (Fin q) (num_of_Z lo) (num_of_Z hi) = false <->
  (inject_Z lo <= q <= inject_Z hi)%Q.
Proof.
  unfold out_of_range, num_gt, num_of_Z. simpl.
  rewrite orb_false_iff, !negb_false_iff, !Qle_bool_iff. tauto.
Qed.

Lemma truthy_Fin q : truthy (JNum (Fin q)) = true <-> ~ (q == 0)%Q.
Proof.
  simpl. rewrite negb_true_iff, <- not_true_iff_false, Qeq_bool_iff. tauto.
Qed.

(** [steps]: past the other checks, a number is accepted exactly when it
    is positive and at most 100000; zero fails the required-fields
    check. *)
Lemma steps_accepted_iff now record ts timestamp q :
  get record "timestamp" = Normal ts ->
  truthy ts = true ->
  parseInt ts = Some timestamp ->
  0 <= timestamp -> fresh now timestamp ->
  get record "value" = Normal (JNum (Fin q)) ->
  validateHealthData now "steps" record = Valid <-> (0 < q <= 100000)%Q.
Proof.
  intros Hts Tts Hp H0 Hf Hv. split.
  - intros HV. apply validateHealthData_Valid in HV.
    destruct HV as (? & value & metadata & ? & _ & Hv' & _ & _ & Tv & _ & _ & _ & Hval).
    rewrite Hv in Hv'. injection Hv' as <-.
    apply truthy_Fin in Tv.
    unfold validateValueByType in Hval. simpl in Hval.
    destruct (out_of_range _ _ _) eqn:Hr in Hval; [discriminate|].
    apply (in_range_Fin q 0 100000) in Hr. destruct Hr as [Hlo Hhi].
    split; [|exact Hhi].
    apply Qle_lteq in Hlo. destruct Hlo as [Hlt|Heq]; [exact Hlt|].
    exfalso. apply Tv. symmetry. exact Heq.
  - intros [Hlo Hhi].
    assert (Tv : truthy (JNum (Fin q)) = true).
    { apply truthy_Fin. intros Heq. rewrite Heq in Hlo. now apply Qlt_irrefl in Hlo. }
    destruct (validateHealthData_checked now "steps" record ts _ timestamp
                Hts Hv Tts Tv Hp H0 Hf) as (metadata & _ & ->).
    unfold validateValueByType. simpl.
    assert (Hr : out_of_range (Fin q) (num_of_Z 0) (num_of_Z 100000) = false).
    { apply in_range_Fin. split; [now apply Qlt_le_weak|exact Hhi]. }
    unfold config.min, config.max, config.steps. now rewrite Hr.
Qed.
End ValidationFacts.

(** C4: a steps record whose value is exactly 0 does not pass validation:
    the required-fields check [!record.value] takes the number 0 for a
    missing value, for every data type, clock and timestamp. *)
Theorem zero_value_rejected (rt : Runtime) (now timestamp : Z) :
  validateHealthData now "steps" (Sample.record timestamp 0)
  = Invalid "Missing required fields: timestamp and value".
Proof.
  unfold validateHealthData, Sample.record. simpl get. cbv iota beta.
  replace (truthy (JNum (num_of_Z 0))) with false by reflexivity.
  now rewrite orb_true_r.
Qed.

(** C5: for a heart_rate record that passes the structural and freshness
    checks, a numeric value v is accepted if and only if 30 <= v <= 220. *)
Theorem heart_rate_accepted_iff (rt : Runtime) (now : Z) (record ts : jsval)
    (timestamp : Z) (v : Q) :
  get record "timestamp" = Normal ts ->
  truthy ts = true ->
  parseInt ts = Some timestamp ->
  0 <= timestamp -> fresh now timestamp ->
  get record "value" = Normal (JNum (Fin v)) ->
  validateHealthData now "heart_rate" record = Valid <-> (30 <= v <= 220)%Q.
Proof.
  intros Hts Tts Hp H0 Hf Hv. split.
  - intros HV. apply validateHealthData_Valid in HV.
    destruct HV as (? & value & metadata & ? & _ & Hv' & _ & _ & _ & _ & _ & _ & Hval).
    rewrite Hv in Hv'. injection Hv' as <-.
    unfold validateValueByType in Hval. simpl in Hval.
    destruct (out_of_range _ _ _) eqn:Hr in Hval; [discriminate|].
    now apply (in_range_Fin v 30 220) in Hr.
  - intros Hr.
    assert (Tv : truthy (JNum (Fin v)) = true).
    { apply truthy_Fin. intros Heq. rewrite Heq in Hr. now destruct Hr. }
    destruct (validateHealthData_checked now "heart_rate" record ts _ timestamp
                Hts Hv Tts Tv Hp H0 Hf) as (metadata & _ & ->).
    unfold validateValueByType. simpl.
    apply (in_range_Fin v 30 220) in Hr.
    unfold config.min, config.max, config.heartRate. now rewrite Hr.
Qed.

(** The boundary values of C5 on a record stamped with the current time:
    30 and 220 pass, 29 and 221 do not. *)
Lemma heart_rate_boundaries :
  validateHealthData (rt := DecimalRuntime.runtime) Sample.now "heart_rate"
    (Sample.record Sample.now 30) = Valid /\
  validateHealthData (rt := DecimalRuntime.runtime) Sample.now "heart_rate"
    (Sample.record Sample.now 220) = Valid /\
  validateHealthData (rt := DecimalRuntime.runtime) Sample.now "heart_rate"
    (Sample.record Sample.now 29) <> Valid /\
  validateHealthData (rt := DecimalRuntime.runtime) Sample.now "heart_rate"
    (Sample.record Sample.now 221) <> Valid.
Proof.
  assert (F : fresh Sample.now Sample.now) by (unfold fresh; vm_compute; split; discriminate).
  assert (P : 0 <= Sample.now) by (vm_compute; discriminate).
  split; [|split; [|split]].
  - apply (heart_rate_accepted_iff DecimalRuntime.runtime Sample.now
             (Sample.record Sample.now 30) (JNum (num_of_Z Sample.now))
             Sample.now 30); try reflexivity; try assumption.
    split; vm_compute; discriminate.
  - apply (heart_rate_accepted_iff DecimalRuntime.runtime Sample.now
             (Sample.record Sample.now 220) (JNum (num_of_Z Sample.now))
             Sample.now 220); try reflexivity; try assumption.
    split; vm_compute; discriminate.
  - intros H.
    apply (heart_rate_accepted_iff DecimalRuntime.runtime Sample.now
             (Sample.record Sample.now 29) (JNum (num_of_Z Sample.now))
             Sample.now 29) in H; try reflexivity; try assumption.
    destruct H as [H _]. now vm_compute in H.
  - intros H.
    apply (heart_rate_accepted_iff DecimalRuntime.runtime Sample.now
             (Sample.record Sample.now 221) (JNum (num_of_Z Sample.now))
             Sample.now 221) in H; try reflexivity; try assumption.
    destruct H as [_ H]. now vm_compute in H.
Defined.

(** ** Rules for the handler monad *)

Section HandlerRules.
Variable w : World.
Variable R : Db -> Db -> Prop.
Hypothesis R_refl : forall d, R d d.
Hypothesis R_trans : forall d1 d2 d3, R d1 d2 -> R d2 d3 -> R d1 d3.

Lemma keeps_ret {A} (a : A) : keeps R (ret a).
Proof. intros st. apply R_refl. Qed.

Lemma keeps_throw {A} e : keeps R (@throw A e).
Proof. intros st. apply R_refl. Qed.

Lemma keeps_bind {A B} (m : M A) (k : A -> M B) :
  keeps R m -> (forall a, keeps R (k a)) -> keeps R (bind m k).
Proof.
  intros Hm Hk st. unfold bind. specialize (Hm st).
  destruct (m st) as [[a|e] st']; simpl in *; [|exact Hm].
  eapply R_trans; [exact Hm|apply Hk].
Qed.

Lemma keeps_try_catch {A} (m : M A) (handler : string -> M A) :
  keeps R m -> (forall e, keeps R (handler e)) -> keeps R (try_catch m handler).
Proof.
  intros Hm Hh st. unfold try_catch. specialize (Hm st).
  destruct (m st) as [[a|e] st']; simpl in *; [exact Hm|].
  eapply R_trans; [exact Hm|apply Hh].
Qed.

Lemma keeps_getRow {A} (sql : Db -> completion A) : keeps R (getRow w sql).
Proof. intros st. unfold getRow. destruct (fault w (nstmt st)); apply R_refl. Qed.

Lemma keeps_getRows {A} (sql : Db -> completion (list A)) :
  keeps R (getRows w sql).
Proof. apply keeps_getRow. Qed.

Lemma keeps_runQuery (sql : Z -> Db -> completion Db) :
  (forall now d d', sql now d = Normal d' -> R d d') ->
  keeps R (runQuery w sql).
Proof.
  intros Hsql st. unfold runQuery.
  destruct (fault w (nstmt st)); [apply R_refl|].
  destruct (sql _ _) as [d'|e] eqn:E; simpl; [|apply R_refl].
  eapply Hsql, E.
Qed.
End HandlerRules.

Section StatementFacts.
Variable w : World.

Lemma runQuery_Normal sql st u st' :
  runQuery w sql st = (Normal u, st') ->
  fault w (nstmt st) = false /\
  sql (CURRENT_TIMESTAMP w (nstmt st)) (db st) = Normal (db st') /\
  nstmt st' = S (nstmt st).
Proof.
  unfold runQuery. destruct (fault w (nstmt st)); [discriminate|].
  destruct (sql _ _) as [d'|e]; [|discriminate].
  intros [= _ <-]. auto.
Qed.

Lemma runQuery_Thrown sql st e st' :
  runQuery w sql st = (Thrown e, st') -> db st' = db st.
Proof.
  unfold runQuery. destruct (fault w (nstmt st)); [now intros [= _ <-]|].
  destruct (sql _ _) as [d'|e']; [discriminate|]. now intros [= _ <-].
Qed.

Lemma getRow_Normal {A} (sql : Db -> completion A) st a st' :
  getRow w sql st = (Normal a, st') ->
  sql (db st) = Normal a /\ db st' = db st /\ nstmt st' = S (nstmt st).
Proof.
  unfold getRow. destruct (fault w (nstmt st)); [discriminate|].
  intros [= -> <-]. auto.
Qed.

Lemma getRow_db {A} (sql : Db -> completion A) st :
  db (snd (getRow w sql st)) = db st.
Proof. unfold getRow. now destruct (fault w (nstmt st)). Qed.
End StatementFacts.

(** Breaks a run of [bind] or [try_catch] in a hypothesis into the runs of
    its parts. *)
Ltac split_run H :=
  match type of H with
  | bind ?m ?k ?st = _ =>
      let a := fresh "a" in let e := fresh "e" in
      let st' := fresh "st" in let E := fresh "E" in
      unfold bind at 1 in H; destruct (m st) as [[a|e] st'] eqn:E
  | try_catch ?m ?h ?st = _ =>
      let a := fresh "a" in let e := fresh "e" in
      let st' := fresh "st" in let E := fresh "E" in
      unfold try_catch at 1 in H; destruct (m st) as [[a|e] st'] eqn:E
  end.

(** ** The sync read *)

Section SyncReadFacts.
Context {rt : Runtime}.
Variable w : World.

Lemma read_page_keeps conditions limit offset sinceTimestamp :
  keeps eq (read_page w conditions limit offset sinceTimestamp).
Proof.
  unfold read_page.
  apply keeps_bind; [congruence|apply keeps_getRows; reflexivity|intros records].
  apply keeps_bind; [congruence|apply keeps_getRow; reflexivity|intros total].
  now apply keeps_ret.
Qed.

Lemma In_insert_desc r a l :
  In r (SyncSql.insert_desc a l) -> r = a \/ In r l.
Proof.
  induction l as [|b l IH]; simpl.
  - intros [<-|[]]. now left.
  - destruct (_ <=? _); simpl.
    + intros [<-|H]; [now left|now right].
    + intros [<-|H]; [right; now left|].
      destruct (IH H) as [->|H']; [now left|right; now right].
Qed.

Lemma In_order_by r l : In r (SyncSql.order_by_timestamp_desc l) -> In r l.
Proof.
  induction l as [|a l IH]; simpl; [tauto|].
  intros H. apply In_insert_desc in H. destruct H as [->|H]; auto.
Qed.

Lemma In_limit_offset r limit offset l :
  In r (SyncSql.limit_offset limit offset l) -> In r l.
Proof.
  unfold SyncSql.limit_offset. intros H.
  destruct (limit <? 0).
  - apply list_elem_of_In in H. apply list_elem_of_In.
    eapply (subseteq_drop (Z.to_nat offset)), H.
  - apply list_elem_of_In in H. apply list_elem_of_In.
    eapply (subseteq_drop (Z.to_nat offset)), (subseteq_take (Z.to_nat limit)), H.
Qed.

(** Every row a page carries satisfies the conditions of the read. *)
Lemma read_page_where conditions limit offset sinceTimestamp st body :
  fst (read_page w conditions limit offset sinceTimestamp st)
    = Normal (Success body) ->
  Forall (fun r => SyncSql.where_ conditions r = true) (SyncData.data body).
Proof.
  unfold read_page. intros H.
  destruct (bind _ _ st) as [out st'] eqn:E. simpl in H. subst out.
  split_run E; [|discriminate].
  apply getRow_Normal in E0. destruct E0 as (Hsel & _ & _).
  split_run E; [|discriminate].
  injection E as <- _. simpl.
  unfold SyncSql.select_health_data in Hsel.
  destruct (option_map _ _) as [l|]; [|discriminate].
  destruct (parseInt offset) as [o|]; [|discriminate].
  injection Hsel as <-.
  apply List.Forall_forall. intros r Hr.
  apply In_limit_offset, In_order_by, List.filter_In in Hr. tauto.
Qed.

Lemma where_app l l' r :
  SyncSql.where_ (l ++ l') r = SyncSql.where_ l r && SyncSql.where_ l' r.
Proof. apply forallb_app. Qed.
End SyncReadFacts.

(** C6: whatever the since, until, dataType, limit and offset parameters,
    no record in the data array of a sync read by device D has deviceId
    equal to D. *)
Theorem sync_read_excludes_own (rt : Runtime) (w : World) (deviceId : string)
    (q : SyncData.query) (st : St) (body : SyncData.body) :
  fst (get_sync_data w deviceId q st) = Normal (Success body) ->
  Forall (fun r => HealthData.device_id r <> deviceId) (SyncData.data body).
Proof.
  intros H.
  assert (Hne : forall cs r,
    SyncSql.where_ (SyncSql.device_id_ne deviceId :: cs) r = true ->
    HealthData.device_id r <> deviceId).
  { intros cs r Hw. simpl in Hw. apply andb_true_iff in Hw. destruct Hw as [Hw _].
    unfold SyncSql.device_id_ne in Hw. apply negb_true_iff in Hw.
    now apply String.eqb_neq in Hw. }
  unfold get_sync_data in H.
  destruct (try_catch _ _ st) as [out st'] eqn:E. simpl in H. subst out.
  split_run E; [|discriminate].
  injection E as -> ->.
  destruct (validateSyncParams _ _ _ _); [|discriminate].
  split_run E0; [|discriminate].
  destruct a as [device|]; [|discriminate].
  set (s := if truthy (param (SyncData.since q) JUndefined) then _ else _) in E0.
  set (c1 := if match s with Some t => t >? 0 | None => false end then _ else _) in E0.
  set (c2 := if truthy (param (SyncData.until q) JUndefined) then _ else _) in E0.
  assert (Hc2 : exists cs, c2 = SyncSql.device_id_ne deviceId :: cs).
  { unfold c2, c1.
    destruct (truthy (param (SyncData.until q) JUndefined)),
      (match s with Some t => t >? 0 | None => false end);
      simpl; eauto. }
  destruct Hc2 as [cs Hcs].
  assert (Hpage : forall conds,
    fst (read_page w (c2 ++ conds)
           (param (SyncData.limit q) (JNum (num_of_Z 1000)))
           (param (SyncData.offset q) (JNum (num_of_Z 0))) s st0)
      = Normal (Success body) ->
    Forall (fun r => HealthData.device_id r <> deviceId) (SyncData.data body)).
  { intros conds Hp. apply read_page_where in Hp.
    eapply List.Forall_impl; [|exact Hp]. intros r Hr.
    rewrite Hcs in Hr. simpl app in Hr. eapply Hne, Hr. }
  destruct (SyncData.dataType q) as [dataType|].
  - destruct (String.eqb dataType EmptyString).
    + apply (Hpage []). rewrite app_nil_r. now rewrite E0.
    + destruct (negb _); [discriminate|].
      apply (Hpage [SyncSql.data_type_eq dataType]). now rewrite E0.
  - apply (Hpage []). rewrite app_nil_r. now rewrite E0.
Qed.

(** C6 on the sample database holding one record of w1 and one of p1: the
    read of p1 since 0 returns a record, and none of p1. *)
Lemma sync_read_excludes_own_sample :
  exists body,
    fst (get_sync_data (rt := DecimalRuntime.runtime) Sample.quiet "p1"
           Sample.since_zero Sample.after_both) = Normal (Success body) /\
    length (SyncData.data body) = 1%nat /\
    Forall (fun r => HealthData.device_id r <> "p1"%string) (SyncData.data body).
Proof.
  eexists. split; [vm_compute; reflexivity|]. split; [reflexivity|].
  apply (sync_read_excludes_own DecimalRuntime.runtime Sample.quiet "p1"
           Sample.since_zero Sample.after_both).
  vm_compute. reflexivity.
Defined.

(** C7: a sync read leaves the whole database as it found it, so the
    device rows, the cursor of the requesting device and the health
    records are unchanged, whatever the read answers. *)
Theorem sync_read_changes_nothing (rt : Runtime) (w : World)
    (deviceId : string) (q : SyncData.query) (st : St) :
  db (snd (get_sync_data w deviceId q st)) = db st.
Proof.
  enough (H : keeps eq (get_sync_data w deviceId q)) by (symmetry; apply H).
  unfold get_sync_data.
  apply keeps_try_catch; [congruence| |intros; now apply keeps_ret].
  destruct (validateSyncParams _ _ _ _); [|now apply keeps_ret].
  apply keeps_bind; [congruence|apply keeps_getRow; reflexivity|].
  intros [device|]; [|now apply keeps_ret].
  destruct (SyncData.dataType q) as [dataType|]; [|apply read_page_keeps].
  destruct (String.eqb dataType EmptyString); [apply read_page_keeps|].
  destruct (negb _); [now apply keeps_ret|apply read_page_keeps].
Qed.

(** A helper for C7: the explicit operation that moves the cursor.  On a
    known device, with a usable timestamp and a storage that accepts the
    two statements, [PUT /timestamp/:deviceId] stores the timestamp as the
    cursor of the device. *)
Lemma put_sync_timestamp_sets_cursor (rt : Runtime) (w : World)
    (deviceId : string) (timestamp : jsval) (timestampNum : Z) (st : St) :
  truthy timestamp = true ->
  parseInt timestamp = Some timestampNum ->
  is_Some (devices (db st) !! deviceId) ->
  fault w (nstmt st) = false ->
  fault w (S (nstmt st)) = false ->
  fst (put_sync_timestamp w deviceId timestamp st) = Normal (Success timestampNum) /\
  lastSyncCursor (db (snd (put_sync_timestamp w deviceId timestamp st))) deviceId
    = Some timestampNum.
Proof.
  intros Ht Hp [device Hd] F0 F1.
  unfold put_sync_timestamp, try_catch, bind, getRow, runQuery, lastSyncCursor.
  rewrite Hp, Ht. simpl. rewrite F0. simpl. rewrite Hd. simpl. rewrite F1. simpl.
  split; [reflexivity|].
  rewrite lookup_alter_eq, Hd. reflexivity.
Qed.

(** ** Completing a session *)

(** C8, amended: completing a session whose status is started makes it
    failed when a non-empty error message comes with the call and
    completed when none or an empty one does; on a session that is not
    started the call answers with an error and the database, hence
    status, records_synced, end_time and error_message of the session,
    stays as it is. *)
Theorem complete_session_once (w : World)
    (req : Complete.request) (st : St) (sessionId : string)
    (session : SyncSessions.row) :
  Complete.sessionId req = Some sessionId ->
  sessionId <> EmptyString ->
  sync_sessions (db st) !! sessionId = Some session ->
  (SyncSessions.status session = SyncSessions.started ->
   fault w (nstmt st) = false -> fault w (S (nstmt st)) = false ->
   exists status session',
     fst (post_sync_complete w req st)
       = Normal (Success
           {| Complete.status := status;
              Complete.recordsSynced_ := default 0 (Complete.recordsSynced req) |}) /\
     sync_sessions (db (snd (post_sync_complete w req st))) !! sessionId
       = Some session' /\
     SyncSessions.status session' = status /\
     (Complete.errorMessage req = None -> status = SyncSessions.completed) /\
     (Complete.errorMessage req = Some EmptyString ->
        status = SyncSessions.completed) /\
     (forall message, Complete.errorMessage req = Some message ->
        message <> EmptyString -> status = SyncSessions.failed)) /\
  (SyncSessions.status session <> SyncSessions.started ->
   (exists code error,
      fst (post_sync_complete w req st) = Normal (Failure code error)) /\
   db (snd (post_sync_complete w req st)) = db st).
Proof.
  intros Hid Hne Hs.
  assert (Hnb : String.eqb sessionId EmptyString = false)
    by now apply String.eqb_neq.
  split.
  - intros Hst F0 F1.
    unfold post_sync_complete, try_catch, bind, getRow, runQuery.
    rewrite Hid, Hnb. simpl. rewrite F0. simpl. rewrite Hs, Hst. simpl.
    rewrite F1. simpl.
    eexists _, _. split; [reflexivity|].
    split; [rewrite lookup_alter_eq, Hs; reflexivity|].
    split; [reflexivity|]. split; [|split].
    + now intros ->.
    + now intros ->.
    + intros message -> Hm. simpl. apply String.eqb_neq in Hm. now rewrite Hm.
  - intros Hst.
    unfold post_sync_complete, try_catch, bind, getRow.
    rewrite Hid, Hnb. simpl.
    destruct (fault w (nstmt st)); simpl; [eauto|].
    rewrite Hs. destruct (SyncSessions.status session); simpl; [congruence| |]; eauto.
Qed.

(** C8 at work: a call without an error message completes a started
    session, a call with one makes it failed, and a call on a completed
    session is refused and changes nothing. *)
Lemma complete_session_once_sample :
  fst (post_sync_complete Sample.quiet (Sample.complete None)
         (Sample.start (Sample.with_session SyncSessions.started)))
    = Normal (Success {| Complete.status := SyncSessions.completed;
                         Complete.recordsSynced_ := 5 |}) /\
  fst (post_sync_complete Sample.quiet (Sample.complete (Some "timeout"%string))
         (Sample.start (Sample.with_session SyncSessions.started)))
    = Normal (Success {| Complete.status := SyncSessions.failed;
                         Complete.recordsSynced_ := 5 |}) /\
  fst (post_sync_complete Sample.quiet (Sample.complete None)
         (Sample.start (Sample.with_session SyncSessions.completed)))
    = Normal (Failure 400 "Cannot complete session with status: completed") /\
  db (snd (post_sync_complete Sample.quiet (Sample.complete None)
             (Sample.start (Sample.with_session SyncSessions.completed))))
    = Sample.with_session SyncSessions.completed.
Proof.
  split; [|split].
  - destruct (complete_session_once Sample.quiet (Sample.complete None)
                (Sample.start (Sample.with_session SyncSessions.started))
                "s1" (Sample.session SyncSessions.started))
      as [H _]; [reflexivity|discriminate|reflexivity|].
    destruct H as (status & session' & Hr & _ & _ & Hc & _);
      [reflexivity|reflexivity|reflexivity|].
    rewrite Hr, (Hc eq_refl). reflexivity.
  - destruct (complete_session_once Sample.quiet
                (Sample.complete (Some "timeout"%string))
                (Sample.start (Sample.with_session SyncSessions.started))
                "s1" (Sample.session SyncSessions.started))
      as [H _]; [reflexivity|discriminate|reflexivity|].
    destruct H as (status & session' & Hr & _ & _ & _ & _ & Hf);
      [reflexivity|reflexivity|reflexivity|].
    rewrite Hr, (Hf "timeout"%string eq_refl); [reflexivity|discriminate].
  - destruct (complete_session_once Sample.quiet (Sample.complete None)
                (Sample.start (Sample.with_session SyncSessions.completed))
                "s1" (Sample.session SyncSessions.completed))
      as [_ H]; [reflexivity|discriminate|reflexivity|].
    destruct H as [_ H]; [discriminate|].
    split; [reflexivity|exact H].
Defined.

(** C8 as stated fails: an error message is supplied, the empty string,
    and the started session becomes completed, not failed, its stored
    error message being null. *)
Lemma empty_error_message_completes :
  fst (post_sync_complete Sample.quiet (Sample.complete (Some EmptyString))
         (Sample.start (Sample.with_session SyncSessions.started)))
    = Normal (Success {| Complete.status := SyncSessions.completed;
                         Complete.recordsSynced_ := 5 |}) /\
  sync_sessions
    (db (snd (post_sync_complete Sample.quiet
                (Sample.complete (Some EmptyString))
                (Sample.start (Sample.with_session SyncSessions.started)))))
    !! "s1"%string
    = Some {| SyncSessions.device_id := "w1";
              SyncSessions.sync_type := "http";
              SyncSessions.status := SyncSessions.completed;
              SyncSessions.records_synced := 5;
              SyncSessions.start_time := 1700000000;
              SyncSessions.end_time := Some (CURRENT_TIMESTAMP Sample.quiet 1);
              SyncSessions.error_message := None |}.
Proof. split; vm_compute; reflexivity. Qed.

(** ** Ingestion *)

Section IngestFacts.
Context {rt : Runtime}.
Variable w : World.

(** Each record of a batch ends up valid or with an error. *)
Lemma process_records_length dataType records : forall i,
  (length (fst (process_records w dataType i records))
   + length (snd (process_records w dataType i records))
   = length records)%nat.
Proof.
  induction records as [|record records IH]; intros i; simpl; [reflexivity|].
  specialize (IH (S i)).
  destruct (process_records w dataType (S i) records) as [valid errors].
  simpl in IH.
  destruct (validateHealthData _ _ _); [|simpl; lia].
  destruct (sanitizeHealthData _ _); simpl; lia.
Qed.

(** The timestamp kept by [sanitizeHealthData] is the one validation
    read. *)
Lemma sanitizeHealthData_timestamp dataType record s ts :
  sanitizeHealthData dataType record = Normal s ->
  get record "timestamp" = Normal ts ->
  Sanitized.timestamp s = parseInt ts.
Proof.
  unfold sanitizeHealthData. intros H Hts. rewrite Hts in H.
  destruct (get record "value"), (get record "unit"),
    (get record "sourceApp"), (get record "metadata"); try discriminate.
  now injection H as <-.
Qed.

(** The valid records of a batch are accepted records. *)
Lemma process_records_valid dataType records : forall i,
  Forall (accepted_at w dataType i records)
    (fst (process_records w dataType i records)).
Proof.
  induction records as [|record records IH]; intros i; simpl; [constructor|].
  specialize (IH (S i)).
  destruct (process_records w dataType (S i) records) as [valid errors].
  simpl in IH.
  assert (Hshift : Forall (accepted_at w dataType i (record :: records)) valid).
  { eapply List.Forall_impl; [|exact IH].
    intros s (j & r & t & Hj & Hv & Ht & Hf).
    exists (S j), r, t. replace (i + S j)%nat with (S i + j)%nat by lia. auto. }
  destruct (validateHealthData _ _ _) eqn:Hv; [|exact Hshift].
  destruct (sanitizeHealthData _ _) as [s|] eqn:Hs; [|exact Hshift].
  simpl. constructor; [|exact Hshift].
  pose proof (validateHealthData_Valid _ _ _ Hv)
    as (ts & _ & _ & timestamp & Hts & _ & _ & _ & _ & Hp & _ & Hf & _).
  exists 0%nat, record, timestamp. rewrite Nat.add_0_r.
  split; [reflexivity|]. split; [exact Hv|]. split; [|exact Hf].
  now rewrite (sanitizeHealthData_timestamp _ _ _ _ Hs Hts).
Qed.

(** A record that fails validation is reported under its index. *)
Lemma process_records_errors dataType records : forall i j record error,
  records !! j = Some record ->
  validateHealthData (Date_now w (i + j)) dataType record = Invalid error ->
  In ((i + j)%nat, error) (snd (process_records w dataType i records)).
Proof.
  induction records as [|r records IH]; intros i j record error Hj Hv;
    [discriminate|].
  simpl. specialize (IH (S i)).
  destruct (process_records w dataType (S i) records) as [valid errors].
  simpl in IH.
  destruct j as [|j]; simpl in Hj.
  - injection Hj as ->. rewrite Nat.add_0_r in *. rewrite Hv. now left.
  - replace (i + S j)%nat with (S i + j)%nat in * by lia.
    specialize (IH j record error Hj Hv).
    destruct (validateHealthData _ _ r); [|now right].
    destruct (sanitizeHealthData _ r); [exact IH|now right].
Qed.

Lemma Math_max_Some (l : list (option Z)) :
  l <> [] -> Forall is_Some l -> is_Some (Math_max l).
Proof.
  induction l as [|x l IH]; [congruence|]. intros _ H.
  apply Forall_cons in H. destruct H as [[a Ha] Hl]. subst x.
  destruct l as [|y l]; [simpl; eauto|].
  destruct IH as [b Hb]; [discriminate|exact Hl|].
  change (Math_max (Some a :: y :: l))
    with (match Math_max (y :: l) with
          | Some b => Some (Z.max a b) | None => None end).
  rewrite Hb. eauto.
Qed.

(** [Math.max] of integers is one of them and bounds them all. *)
Lemma Math_max_spec (l : list (option Z)) (m : Z) :
  Math_max l = Some m ->
  In (Some m) l /\ Forall (fun x => exists a, x = Some a /\ a <= m) l.
Proof.
  revert m. induction l as [|x l IH]; intros m; [discriminate|].
  destruct l as [|y l].
  - simpl. intros ->. split; [now left|]. constructor; [|constructor].
    exists m. split; [reflexivity|lia].
  - change (Math_max (x :: y :: l))
      with (match x, Math_max (y :: l) with
            | Some a, Some b => Some (Z.max a b) | _, _ => None end).
    destruct x as [a|]; [|discriminate].
    destruct (Math_max (y :: l)) as [b|]; [|discriminate].
    intros [= <-]. destruct (IH b eq_refl) as [Hin Hall]. split.
    + destruct (Z.max_spec a b) as [[_ ->]|[_ ->]]; [now right|now left].
    + constructor.
      * exists a. split; [reflexivity|lia].
      * eapply List.Forall_impl; [|exact Hall].
        intros z (c & -> & Hc). exists c. split; [reflexivity|lia].
Qed.
End IngestFacts.

Section IngestStatements.
Context {rt : Runtime}.
Variable w : World.

Lemma appends_refl P d : appends P d d.
Proof. exists []. split; [now rewrite app_nil_r|constructor]. Qed.

Lemma appends_trans P d1 d2 d3 :
  appends P d1 d2 -> appends P d2 d3 -> appends P d1 d3.
Proof.
  intros (r1 & H1 & F1) (r2 & H2 & F2). exists (r1 ++ r2). split.
  - now rewrite H2, H1, app_assoc.
  - apply Forall_app. split; assumption.
Qed.

Lemma appends_same P d d' : health_data d' = health_data d -> appends P d d'.
Proof. intros H. exists []. split; [now rewrite app_nil_r|constructor]. Qed.

Lemma ensureDeviceExists_keeps P deviceId deviceName deviceType :
  keeps (appends P) (ensureDeviceExists w deviceId deviceName deviceType).
Proof.
  unfold ensureDeviceExists.
  apply keeps_bind;
    [apply appends_trans|apply keeps_getRow, appends_refl|intros [device|]].
  - apply keeps_runQuery; [apply appends_refl|].
    intros now d d' [= <-]. now apply appends_same.
  - apply keeps_runQuery; [apply appends_refl|].
    intros now d d'. unfold Sql.insert_device.
    destruct (negb _); [discriminate|]. destruct (devices d !! deviceId);
      [discriminate|]. intros [= <-]. now apply appends_same.
Qed.

Lemma ensureDeviceExists_Normal deviceId deviceName deviceType st u st' :
  ensureDeviceExists w deviceId deviceName deviceType st = (Normal u, st') ->
  is_Some (devices (db st') !! deviceId) /\
  health_data (db st') = health_data (db st).
Proof.
  unfold ensureDeviceExists. intros H. split_run H; [|discriminate].
  apply getRow_Normal in E. destruct E as (Hsel & Hdb & _).
  injection Hsel as <-.
  destruct (devices (db st) !! deviceId) as [device|] eqn:Hd;
    apply runQuery_Normal in H; destruct H as (_ & Hq & _); rewrite Hdb in Hq.
  - injection Hq as <-. simpl. split; [|reflexivity].
    rewrite lookup_alter_eq, Hd. simpl. eauto.
  - unfold Sql.insert_device in Hq. destruct (negb _); [discriminate|].
    rewrite Hd in Hq. injection Hq as <-. simpl. split; [|reflexivity].
    rewrite lookup_insert_eq. eauto.
Qed.

Lemma updateDeviceLastSync_keeps P deviceId timestamp :
  keeps (appends P) (updateDeviceLastSync w deviceId timestamp).
Proof.
  apply keeps_runQuery; [apply appends_refl|].
  intros now d d' [= <-]. now apply appends_same.
Qed.

Lemma updateDeviceLastSync_Normal deviceId timestamp st u st' :
  updateDeviceLastSync w deviceId timestamp st = (Normal u, st') ->
  health_data (db st') = health_data (db st) /\
  (is_Some (devices (db st) !! deviceId) ->
   lastSyncCursor (db st') deviceId = timestamp).
Proof.
  intros H. apply runQuery_Normal in H. destruct H as (_ & Hq & _).
  injection Hq as <-. simpl. split; [reflexivity|].
  intros [device Hd]. unfold lastSyncCursor. simpl.
  now rewrite lookup_alter_eq, Hd.
Qed.

(** The insertion loop never throws: it adds one row per record the
    storage accepts, counts these, and touches nothing else. *)
Lemma insert_loop deviceId dataType records : forall c st,
  exists rows,
    insertHealthRecords_from w c deviceId dataType records st
      = (Normal (c + length rows)%nat,
         {| db := {| devices := devices (db st);
                     health_data := health_data (db st) ++ rows;
                     sync_sessions := sync_sessions (db st) |};
            nstmt := (nstmt st + length records)%nat |}) /\
    (length rows <= length records)%nat /\
    Forall (fun row => exists s,
              In s records /\
              Sanitized.timestamp s = Some (HealthData.timestamp row)) rows /\
    ((forall n, fault w n = false) ->
     is_Some (devices (db st) !! deviceId) ->
     Forall (fun s => is_Some (Sanitized.timestamp s)) records ->
     length rows = length records).
Proof.
  induction records as [|record records IH]; intros c [[dv hd ss] n].
  - exists []. simpl. rewrite app_nil_r, !Nat.add_0_r.
    repeat split; auto.
  - simpl insertHealthRecords_from.
    unfold bind at 1, try_catch at 1, bind at 1, runQuery at 1. simpl.
    destruct (fault w n) eqn:Hf; simpl.
    { destruct (IH c {| db := {| devices := dv; health_data := hd;
                                 sync_sessions := ss |}; nstmt := S n |})
        as (rows & Hrun & Hlen & Hall & _).
      exists rows. simpl in *. rewrite Hrun.
      split; [do 3 f_equal; lia|]. split; [lia|]. split.
      - eapply List.Forall_impl; [|exact Hall].
        intros row (s & Hs & Ht). exists s. split; [now right|exact Ht].
      - intros Hnf. now rewrite Hnf in Hf. }
    unfold Sql.insert_health_data. simpl.
    destruct (Sanitized.timestamp record) as [timestamp|] eqn:Hts; simpl.
    + destruct (dv !! deviceId) as [device|] eqn:Hd; simpl.
      * match goal with
        | |- context [ hd ++ [?r] ] => set (row := r)
        end.
        destruct (IH (S c) {| db := {| devices := dv; health_data := hd ++ [row];
                                       sync_sessions := ss |}; nstmt := S n |})
          as (rows & Hrun & Hlen & Hall & Hfull).
        exists (row :: rows). simpl in *. rewrite Hrun.
        split; [rewrite <- app_assoc; simpl; do 3 f_equal; lia|].
        split; [lia|]. split.
        -- constructor.
           ++ exists record. split; [now left|exact Hts].
           ++ eapply List.Forall_impl; [|exact Hall].
              intros r (s & Hs & Ht). exists s. split; [now right|exact Ht].
        -- intros Hnf _ Hrec. apply Forall_cons in Hrec.
           f_equal. apply Hfull; [exact Hnf|rewrite Hd; eauto|tauto].
      * destruct (IH c {| db := {| devices := dv; health_data := hd;
                                   sync_sessions := ss |}; nstmt := S n |})
          as (rows & Hrun & Hlen & Hall & _).
        exists rows. simpl in *. rewrite Hrun.
        split; [do 3 f_equal; lia|]. split; [lia|]. split.
        -- eapply List.Forall_impl; [|exact Hall].
           intros row (s & Hs & Ht). exists s. split; [now right|exact Ht].
        -- intros _ [device Hdev]. congruence.
    + destruct (IH c {| db := {| devices := dv; health_data := hd;
                                 sync_sessions := ss |}; nstmt := S n |})
        as (rows & Hrun & Hlen & Hall & _).
      exists rows. simpl in *. rewrite Hrun.
      split; [do 3 f_equal; lia|]. split; [lia|]. split.
      * eapply List.Forall_impl; [|exact Hall].
        intros row (s & Hs & Ht). exists s. split; [now right|exact Ht].
      * intros _ _ Hrec. apply Forall_cons in Hrec.
        destruct Hrec as [[t Ht] _]. congruence.
Qed.
End IngestStatements.

(** ** The ingestion handler *)

Section IngestHandler.
Context {rt : Runtime}.
Variable w : World.

(** What a successful ingestion did. *)
Lemma post_health_data_Success req st body st' :
  post_health_data w req st = (Normal (Success body), st') ->
  exists deviceId dataType records st1 rows,
    Ingest.deviceId req = Some deviceId /\
    Ingest.dataType req = Some dataType /\
    Ingest.records req = JArr records /\
    (length records <= config.maxBatchSize)%nat /\
    ensureDeviceExists w deviceId (Ingest.deviceName req)
      (or_else (Ingest.deviceType req) "wearos") st = (Normal tt, st1) /\
    body = {| Ingest.processed :=
                {| Processed.total := length records;
                   Processed.inserted := length rows;
                   Processed.errors :=
                     length (snd (process_records w dataType 0 records)) |};
              Ingest.errors := snd (process_records w dataType 0 records) |} /\
    health_data (db st') = health_data (db st1) ++ rows /\
    (length rows <= length (fst (process_records w dataType 0 records)))%nat /\
    ((forall n, fault w n = false) ->
     length rows = length (fst (process_records w dataType 0 records))) /\
    lastSyncCursor (db st') deviceId
      = maxTimestamp w (fst (process_records w dataType 0 records))
          (length records).
Proof.
  unfold post_health_data. intros H.
  split_run H; [|discriminate]. injection H as -> ->.
  destruct (Ingest.deviceId req) as [deviceId|]; [|discriminate].
  destruct (Ingest.dataType req) as [dataType|]; [|discriminate].
  destruct (Ingest.records req) as [| | | | |records|]; try discriminate.
  destruct (_ || _); [discriminate|].
  destruct (negb _); [discriminate|].
  destruct (config.maxBatchSize <? length records)%nat eqn:Hsize;
    [discriminate|].
  apply Nat.ltb_ge in Hsize.
  split_run E; [|discriminate]. destruct a.
  destruct (process_records w dataType 0 records) as [valid errors] eqn:Hp.
  split_run E; [|discriminate].
  split_run E; [|discriminate]. injection E as <- <-.
  destruct (ensureDeviceExists_Normal _ _ _ _ _ _ _ E0) as [Hdev Hhd].
  apply updateDeviceLastSync_Normal in E2. destruct E2 as [Hhd2 Hcur].
  assert (Hins : exists rows,
    a = length rows /\
    health_data (db st1) = health_data (db st0) ++ rows /\
    devices (db st1) = devices (db st0) /\
    (length rows <= length valid)%nat /\
    ((forall n, fault w n = false) -> length rows = length valid)).
  { destruct (0 <? length valid)%nat eqn:Hnz.
    - unfold insertHealthRecords in E1.
      destruct (insert_loop w deviceId dataType valid 0%nat st0)
        as (rows & Hrun & Hlen & _ & Hfull).
      rewrite Hrun in E1. injection E1 as <- <-. exists rows. simpl.
      repeat split; auto.
      intros Hnf. apply Hfull; [exact Hnf|exact Hdev|].
      pose proof (process_records_valid w dataType records 0%nat) as Hv.
      rewrite Hp in Hv. simpl in Hv.
      eapply List.Forall_impl; [|exact Hv].
      intros s (_ & _ & t & _ & _ & Ht & _). eauto.
    - injection E1 as <- <-. exists []. simpl.
      apply Nat.ltb_ge in Hnz. rewrite app_nil_r.
      repeat split; auto; lia. }
  destruct Hins as (rows & -> & Hrows & Hdevs & Hlen & Hfull).
  exists deviceId, dataType, records, st0, rows. rewrite !Hp. simpl.
  repeat split; auto.
  - now rewrite Hhd2.
  - apply Hcur. now rewrite Hdevs.
Qed.

(** Whatever it answers, the handler only adds rows, and only rows that
    stem from accepted records of the batch. *)
Lemma post_health_data_keeps req :
  keeps (appends (fun row =>
           exists i, (i < length (items (Ingest.records req)))%nat /\
                     fresh (Date_now w i) (HealthData.timestamp row)))
    (post_health_data w req).
Proof.
  set (P := fun row : HealthData.row => _).
  assert (Tr : forall d1 d2 d3 : Db,
             appends P d1 d2 -> appends P d2 d3 -> appends P d1 d3)
    by apply appends_trans.
  unfold post_health_data.
  apply keeps_try_catch;
    [exact Tr| |intros; apply keeps_ret, appends_refl].
  destruct (Ingest.deviceId req) as [deviceId|];
    [|apply keeps_ret, appends_refl].
  destruct (Ingest.dataType req) as [dataType|];
    [|apply keeps_ret, appends_refl].
  destruct (Ingest.records req) as [| | | | |records|] eqn:Hrec;
    try apply keeps_ret, appends_refl.
  destruct (_ || _); [apply keeps_ret, appends_refl|].
  destruct (negb _); [apply keeps_ret, appends_refl|].
  destruct (_ <? _)%nat; [apply keeps_ret, appends_refl|].
  apply keeps_bind; [exact Tr|apply ensureDeviceExists_keeps|intros _].
  pose proof (process_records_valid w dataType records 0%nat) as Hv.
  destruct (process_records w dataType 0 records) as [valid errors].
  simpl in Hv.
  apply keeps_bind; [exact Tr| |intros c].
  - destruct (0 <? length valid)%nat; [|apply keeps_ret, appends_refl].
    intros st. unfold insertHealthRecords.
    destruct (insert_loop w deviceId dataType valid 0%nat st)
      as (rows & -> & _ & Hall & _).
    exists rows. simpl. split; [reflexivity|].
    eapply List.Forall_impl; [|exact Hall].
    intros row (s & Hs & Ht).
    apply (proj1 (List.Forall_forall _ _) Hv) in Hs.
    destruct Hs as (j & record & t & Hj & _ & Ht' & Hf).
    exists j. subst P. simpl. split.
    + now apply lookup_lt_Some in Hj.
    + rewrite Ht in Ht'. injection Ht' as ->. exact Hf.
  - apply keeps_bind;
      [exact Tr|apply updateDeviceLastSync_keeps|intros _].
    apply keeps_ret, appends_refl.
Qed.
End IngestHandler.

Section IngestIndices.
Context {rt : Runtime}.
Variable w : World.

(** The index reported with an error is the position of the record. *)
Lemma process_records_error_index dataType records : forall i,
  Forall (fun e => (i <= fst e < i + length records)%nat)
    (snd (process_records w dataType i records)).
Proof.
  induction records as [|record records IH]; intros i; simpl; [constructor|].
  specialize (IH (S i)).
  destruct (process_records w dataType (S i) records) as [valid errors].
  simpl in IH.
  assert (Hshift : Forall (fun e => (i <= fst e < i + S (length records))%nat)
                     errors).
  { eapply List.Forall_impl; [|exact IH]. simpl. intros e He. lia. }
  destruct (validateHealthData _ _ _).
  - destruct (sanitizeHealthData _ _); simpl; [exact Hshift|].
    constructor; [simpl; lia|exact Hshift].
  - simpl. constructor; [simpl; lia|exact Hshift].
Qed.
End IngestIndices.

(** C1, as amended: an ingestion call answered with success sets the
    stored cursor of the device to the greatest timestamp among the
    records of the batch that passed validation, or to the clock reading
    taken after the batch when none passed; so the cursor is not below its
    previous value whenever that greatest timestamp (or clock reading) is
    not. *)
Theorem ingest_sets_cursor (rt : Runtime) (w : World) (req : Ingest.request)
    (st : St) (body : Ingest.body) (deviceId dataType : string)
    (records : list jsval) :
  fst (post_health_data w req st) = Normal (Success body) ->
  Ingest.deviceId req = Some deviceId ->
  Ingest.dataType req = Some dataType ->
  Ingest.records req = JArr records ->
  exists m,
    lastSyncCursor (db (snd (post_health_data w req st))) deviceId = Some m /\
    maxTimestamp w (fst (process_records w dataType 0 records)) (length records)
      = Some m /\
    (fst (process_records w dataType 0 records) = [] ->
     m = Date_now w (length records)) /\
    (fst (process_records w dataType 0 records) <> [] ->
     In (Some m)
        (map Sanitized.timestamp (fst (process_records w dataType 0 records))) /\
     Forall (fun s => exists t, Sanitized.timestamp s = Some t /\ t <= m)
        (fst (process_records w dataType 0 records))) /\
    (forall c, lastSyncCursor (db st) deviceId = Some c -> c <= m ->
       exists c',
         lastSyncCursor (db (snd (post_health_data w req st))) deviceId = Some c'
         /\ c <= c').
Proof.
  intros H Hid Hdt Hrec.
  destruct (post_health_data w req st) as [out st'] eqn:E. simpl in H. subst out.
  apply post_health_data_Success in E.
  destruct E as (deviceId' & dataType' & records' & st1 & rows
                 & Hid' & Hdt' & Hrec' & _ & _ & _ & _ & _ & _ & Hcur).
  rewrite Hid in Hid'. rewrite Hdt in Hdt'. rewrite Hrec in Hrec'.
  injection Hid' as <-. injection Hdt' as <-. injection Hrec' as <-.
  simpl snd. rewrite Hcur.
  pose proof (process_records_valid w dataType records 0%nat) as Hv.
  destruct (process_records w dataType 0 records) as [valid errors].
  simpl fst in *. unfold maxTimestamp.
  destruct valid as [|s valid].
  - simpl. exists (Date_now w (length records)).
    repeat split; try congruence. eauto.
  - change (0 <? length (s :: valid))%nat with true. cbv iota.
    destruct (Math_max_Some (map Sanitized.timestamp (s :: valid))) as [m Hm].
    + discriminate.
    + apply Forall_map. eapply List.Forall_impl; [|exact Hv].
      intros x (_ & _ & t & _ & _ & Ht & _). simpl. eauto.
    + exists m. rewrite Hm. repeat split; try congruence; eauto.
      * now apply Math_max_spec.
      * apply Math_max_spec in Hm. destruct Hm as [_ Hall].
        apply List.Forall_forall. intros x Hx.
        apply (proj1 (List.Forall_forall _ _) Hall (Sanitized.timestamp x)),
          in_map, Hx.
Qed.

(** C1, amended, on the first sample batch: the cursor of w1 becomes the
    timestamp of the single accepted record. *)
Lemma ingest_sets_cursor_sample :
  lastSyncCursor (db Sample.after_first) "w1" = Some Sample.now.
Proof.
  destruct (ingest_sets_cursor DecimalRuntime.runtime Sample.quiet
              Sample.first_batch (Sample.start Sample.empty)
              {| Ingest.processed :=
                   {| Processed.total := 1; Processed.inserted := 1;
                      Processed.errors := 0 |};
                 Ingest.errors := [] |}
              "w1" "heart_rate" [ Sample.record Sample.now 72 ])
    as (m & Hcur & Hmax & _); [vm_compute; reflexivity|reflexivity..|].
  unfold Sample.after_first. rewrite Hcur. rewrite <- Hmax.
  vm_compute. reflexivity.
Defined.

(** C1 as stated fails: after the first sample batch the cursor of w1 is
    1700000000000; the second batch, accepted with a record one second
    older, rolls it back to 1699999999000. *)
Lemma cursor_rolled_back :
  lastSyncCursor (db Sample.after_first) "w1" = Some 1700000000000 /\
  lastSyncCursor (db Sample.after_second) "w1" = Some 1699999999000 /\
  1699999999000 < 1700000000000.
Proof. vm_compute. repeat split. Qed.

(** C2, as amended: in every successful response total is the length of
    the batch, errors the number of reported failures, each reported with
    the index of its record, and inserted the number of rows added;
    inserted + errors never exceeds total and equals it when the storage
    rejects no statement. *)
Theorem ingest_counts (rt : Runtime) (w : World) (req : Ingest.request)
    (st : St) (body : Ingest.body) :
  fst (post_health_data w req st) = Normal (Success body) ->
  let processed := Ingest.processed body in
  Processed.total processed = length (items (Ingest.records req)) /\
  Processed.errors processed = length (Ingest.errors body) /\
  Forall (fun e => (fst e < Processed.total processed)%nat) (Ingest.errors body) /\
  length (health_data (db (snd (post_health_data w req st))))
    = (length (health_data (db st)) + Processed.inserted processed)%nat /\
  (Processed.inserted processed + Processed.errors processed
     <= Processed.total processed)%nat /\
  ((forall n, fault w n = false) ->
   (Processed.inserted processed + Processed.errors processed
      = Processed.total processed)%nat).
Proof.
  intros H.
  destruct (post_health_data w req st) as [out st'] eqn:E. simpl in H. subst out.
  apply post_health_data_Success in E.
  destruct E as (deviceId & dataType & records & st1 & rows
                 & _ & _ & Hrec & _ & Hens & -> & Hhd & Hlen & Hfull & _).
  apply ensureDeviceExists_Normal in Hens. destruct Hens as [_ Hhd1].
  pose proof (process_records_length w dataType records 0%nat) as Hsum.
  pose proof (process_records_error_index w dataType records 0%nat) as Hidx.
  simpl. rewrite Hrec. simpl.
  split; [reflexivity|]. split; [reflexivity|].
  split; [eapply List.Forall_impl; [|exact Hidx]; simpl; intros e He; lia|].
  split; [now rewrite Hhd, Hhd1, length_app|].
  split; [lia|]. intros Hnf. specialize (Hfull Hnf). lia.
Qed.

(** C2, amended, on the sample batch of two valid records in a world
    without storage failures: 2 inserted, no error, total 2. *)
Lemma ingest_counts_sample :
  fst (post_health_data (rt := DecimalRuntime.runtime) Sample.quiet
         Sample.pair_batch (Sample.start Sample.empty))
    = Normal (Success
        {| Ingest.processed :=
             {| Processed.total := 2; Processed.inserted := 2;
                Processed.errors := 0 |};
           Ingest.errors := [] |}) /\
  (2 + 0 = 2)%nat.
Proof.
  assert (H : fst (post_health_data (rt := DecimalRuntime.runtime) Sample.quiet
                     Sample.pair_batch (Sample.start Sample.empty))
              = Normal (Success
                  {| Ingest.processed :=
                       {| Processed.total := 2; Processed.inserted := 2;
                          Processed.errors := 0 |};
                     Ingest.errors := [] |}))
    by (vm_compute; reflexivity).
  split; [exact H|].
  apply (ingest_counts DecimalRuntime.runtime Sample.quiet Sample.pair_batch
           (Sample.start Sample.empty) _ H).
  intros n. reflexivity.
Defined.

(** C2 as stated fails: when the storage rejects the first insertion of
    the sample batch of two valid records, the response counts total 2,
    inserted 1 and no error. *)
Lemma storage_failure_not_counted :
  fst (post_health_data (rt := DecimalRuntime.runtime) Sample.third_fails
         Sample.pair_batch (Sample.start Sample.empty))
    = Normal (Success
        {| Ingest.processed :=
             {| Processed.total := 2; Processed.inserted := 1;
                Processed.errors := 0 |};
           Ingest.errors := [] |}) /\
  (1 + 0 <> 2)%nat.
Proof. split; [vm_compute; reflexivity|discriminate]. Qed.

(** C3: the handler persists a record only if its timestamp lies between
    now - maxRecordAge and now + 5 minutes, now being the clock reading
    taken for that record: every row it adds has such a timestamp, and in
    a successful response every record whose timestamp is older or further
    ahead is reported with an error under its index, whatever its value
    and the data type. *)
Theorem ingest_only_fresh (rt : Runtime) (w : World) (req : Ingest.request)
    (st : St) :
  (exists rows,
     health_data (db (snd (post_health_data w req st)))
       = health_data (db st) ++ rows /\
     Forall (fun row =>
               exists i, (i < length (items (Ingest.records req)))%nat /\
                         fresh (Date_now w i) (HealthData.timestamp row)) rows) /\
  (forall body i record ts timestamp,
     fst (post_health_data w req st) = Normal (Success body) ->
     items (Ingest.records req) !! i = Some record ->
     get record "timestamp" = Normal ts ->
     parseInt ts = Some timestamp ->
     ~ fresh (Date_now w i) timestamp ->
     exists error, In (i, error) (Ingest.errors body)).
Proof.
  split; [apply post_health_data_keeps|].
  intros body i record ts timestamp H Hi Hts Hp Hstale.
  destruct (post_health_data w req st) as [out st'] eqn:E. simpl in H. subst out.
  apply post_health_data_Success in E.
  destruct E as (deviceId & dataType & records & st1 & rows
                 & _ & _ & Hrec & _ & _ & -> & _).
  rewrite Hrec in Hi. simpl in Hi.
  destruct (validateHealthData_stale (Date_now w i) dataType record ts timestamp
              Hts Hp Hstale) as [error He].
  exists error. simpl.
  apply (process_records_errors w dataType records 0%nat i record error Hi He).
Qed.

(** C3 on the sample batch whose only record is one millisecond too old,
    with a valid value: the record is reported under index 0. *)
Lemma ingest_only_fresh_sample :
  fst (post_health_data (rt := DecimalRuntime.runtime) Sample.quiet
         Sample.stale_batch (Sample.start Sample.empty))
    = Normal (Success
        {| Ingest.processed :=
             {| Processed.total := 1; Processed.inserted := 0;
                Processed.errors := 1 |};
           Ingest.errors :=
             [ (0%nat, "Record too old (max age: 7776000000ms)"%string) ] |}) /\
  exists error,
    In (0%nat, error)
       [ (0%nat, "Record too old (max age: 7776000000ms)"%string) ].
Proof.
  assert (H : fst (post_health_data (rt := DecimalRuntime.runtime) Sample.quiet
                     Sample.stale_batch (Sample.start Sample.empty))
              = Normal (Success
                  {| Ingest.processed :=
                       {| Processed.total := 1; Processed.inserted := 0;
                          Processed.errors := 1 |};
                     Ingest.errors :=
                       [ (0%nat,
                          "Record too old (max age: 7776000000ms)"%string) ] |}))
    by (vm_compute; reflexivity).
  split; [exact H|].
  apply (proj2 (ingest_only_fresh DecimalRuntime.runtime Sample.quiet
                  Sample.stale_batch (Sample.start Sample.empty))
           _ 0%nat (Sample.record (Sample.now - config.maxRecordAge - 1) 72)
           (JNum (num_of_Z (Sample.now - config.maxRecordAge - 1)))
           (Sample.now - config.maxRecordAge - 1) H).
  - reflexivity.
  - reflexivity.
  - vm_compute. reflexivity.
  - unfold fresh. vm_compute. intros [Hlo _]. apply Hlo. reflexivity.
Defined.

(** C9: a request whose records array is longer than maxBatchSize is
    answered with status 400 and leaves the state as it was: no statement
    is handed to the storage, so no record is inserted, no device row is
    created or touched and no cursor is changed. *)
Theorem oversized_batch_rejected (rt : Runtime) (w : World)
    (req : Ingest.request) (st : St) (records : list jsval) :
  Ingest.records req = JArr records ->
  (config.maxBatchSize < length records)%nat ->
  exists error,
    post_health_data w req st = (Normal (Failure 400 error), st).
Proof.
  intros Hrec Hsize. apply Nat.ltb_lt in Hsize.
  unfold post_health_data, try_catch. rewrite Hrec.
  destruct (Ingest.deviceId req) as [deviceId|]; [|simpl; eauto].
  destruct (Ingest.dataType req) as [dataType|]; [|simpl; eauto].
  destruct (_ || _); [simpl; eauto|].
  destruct (negb _); [simpl; eauto|].
  rewrite Hsize. simpl. eauto.
Qed.

(** C9 on the sample batch of 1001 records: status 400, state unchanged. *)
Lemma oversized_batch_rejected_sample :
  exists error,
    post_health_data (rt := DecimalRuntime.runtime) Sample.quiet
      Sample.oversized_batch (Sample.start Sample.empty)
    = (Normal (Failure 400 error), Sample.start Sample.empty).
Proof.
  apply (oversized_batch_rejected DecimalRuntime.runtime Sample.quiet
           Sample.oversized_batch (Sample.start Sample.empty)
           (repeat (Sample.record Sample.now 72) 1001)).
  - reflexivity.
  - apply Nat.ltb_lt. vm_compute. reflexivity.
Defined.

(** What a second pass of the sanitiser does to the result of a first:
    it trims the end. *)
Lemma length_trimStart l : (length (trimStart l) <= length l)%nat.
Proof.
  induction l as [|c l IH]; simpl; [lia|].
  destruct (is_white_space c); simpl; lia.
Qed.

Lemma trimEnd_fixed_iff l : trimEnd l = l <-> no_trailing_space l = true.
Proof.
  unfold trimEnd, no_trailing_space. split.
  - intros H. rewrite <- H at 1. rewrite rev_involutive.
    apply trimStart_no_leading.
  - intros H. rewrite (trimStart_fixed _ H). apply rev_involutive.
Qed.

Lemma sanitize_chars_twice l :
  sanitize_chars (sanitize_chars l) = trimEnd (sanitize_chars l).
Proof.
  set (out := sanitize_chars l).
  assert (Hm : Forall (fun c => is_markup c = false) out)
    by apply Forall_take, trim_Forall, remove_markup_Forall.
  assert (Hs : no_leading_space out = true).
  { assert (H : no_leading_space (trim (remove_markup l)) = true)
      by apply trimEnd_no_leading, trimStart_no_leading.
    subst out. unfold sanitize_chars.
    destruct (trim (remove_markup l)); [reflexivity|exact H]. }
  assert (Hl : (length out <= 255)%nat)
    by (subst out; unfold sanitize_chars; rewrite length_take; lia).
  unfold sanitize_chars at 1.
  rewrite (remove_markup_fixed out Hm). unfold trim.
  rewrite (trimStart_fixed out Hs). apply firstn_all2.
  unfold trimEnd. rewrite length_rev.
  pose proof (length_trimStart (rev out)) as H. rewrite length_rev in H. lia.
Qed.

(** C10, as amended: a second pass of the sanitiser changes nothing
    exactly when the result of the first pass does not end in white space;
    it changes nothing, in particular, for every string whose text, once
    the markup characters are removed and the surrounding white space is
    trimmed, has at most 255 characters. *)
Theorem sanitizeString_idempotent_iff (s : string) :
  (sanitizeString (sanitizeString (JStr s)) = sanitizeString (JStr s) <->
   exists t, sanitizeString (JStr s) = JStr t /\
             no_trailing_space (list_ascii_of_string t) = true) /\
  ((length (trim (remove_markup (list_ascii_of_string s))) <= 255)%nat ->
   sanitizeString (sanitizeString (JStr s)) = sanitizeString (JStr s)).
Proof.
  split.
  - cbn [sanitizeString]. rewrite list_ascii_of_string_of_list_ascii.
    rewrite sanitize_chars_twice. split.
    + intros [= H].
      apply (f_equal list_ascii_of_string) in H.
      rewrite !list_ascii_of_string_of_list_ascii in H.
      eexists. split; [reflexivity|].
      rewrite list_ascii_of_string_of_list_ascii.
      now apply trimEnd_fixed_iff.
    + intros (t & [= <-] & Ht).
      rewrite list_ascii_of_string_of_list_ascii in Ht.
      apply trimEnd_fixed_iff in Ht. now rewrite Ht.
  - intros Hlen. cbn [sanitizeString]. f_equal. f_equal.
    rewrite list_ascii_of_string_of_list_ascii.
    now apply sanitize_chars_idempotent.
Qed.

(** C10, amended, on a text that is cut: 300 letters a lose 45 of them in
    the first pass and nothing in the second. *)
Lemma sanitizeString_idempotent_sample :
  String.length Scenario.cut_text = 300%nat /\
  sanitizeString (sanitizeString (JStr Scenario.cut_text))
  = sanitizeString (JStr Scenario.cut_text).
Proof.
  split; [vm_compute; reflexivity|].
  apply (proj2 (proj1 (sanitizeString_idempotent_iff Scenario.cut_text))).
  eexists. split; vm_compute; reflexivity.
Defined.

(** C10 as stated fails: on an a, 254 spaces and a b the first pass cuts
    the b off and leaves the spaces, which the second pass trims. *)
Lemma sanitizeString_second_pass_trims :
  sanitizeString (sanitizeString (JStr Sample.long_text)) = JStr "a" /\
  sanitizeString (sanitizeString (JStr Sample.long_text))
    <> sanitizeString (JStr Sample.long_text).
Proof.
  split; [vm_compute; reflexivity|].
  intros H. vm_compute in H. discriminate H.
Qed.

(** * More properties *)

(** ** Sanitised text *)

Lemma length_string_of_list_ascii (l : list ascii) :
  String.length (string_of_list_ascii l) = length l.
Proof. induction l as [|c l IH]; simpl; [reflexivity|now f_equal]. Qed.

Lemma sanitize_chars_clean (l : list ascii) :
  Forall (fun c => is_markup c = false) (sanitize_chars l) /\
  (length (sanitize_chars l) <= 255)%nat /\
  no_leading_space (sanitize_chars l) = true.
Proof.
  unfold sanitize_chars. split; [|split].
  - apply Forall_take, trim_Forall, remove_markup_Forall.
  - rewrite length_take. lia.
  - assert (H : no_leading_space (trim (remove_markup l)) = true)
      by apply trimEnd_no_leading, trimStart_no_leading.
    destruct (trim (remove_markup l)); [reflexivity|exact H].
Qed.

(** X1: whatever string it is given, [sanitizeString] returns a string
    without any of the five markup characters, of at most 255 code units
    and without white space at the front; for any other value it returns
    null. *)
Theorem sanitizeString_output (v : jsval) :
  match v with
  | JStr _ => exists t, sanitizeString v = JStr t /\ clean_text t
  | _ => sanitizeString v = JNull
  end.
Proof.
  destruct v; try reflexivity.
  eexists. split; [reflexivity|].
  unfold clean_text.
  rewrite list_ascii_of_string_of_list_ascii, length_string_of_list_ascii.
  apply sanitize_chars_clean.
Qed.

(** ** Validation of values *)

Section ValueFacts.
Context {rt : Runtime}.

Lemma in_range_number n lo hi :
out_of_range n (num_of_Z lo) (num_of_Z hi) = false ->
exists q, n = Fin q /\ (inject_Z lo <= q <= inject_Z hi)%Q.
Proof.
destruct n as [| |q|]; try discriminate.
intros H. exists q. split; [reflexivity|]. now apply in_range_Fin.
Qed.

Lemma between_Fin q lo hi :
num_lt (Fin q) (num_of_Z lo) || num_gt (Fin q) (num_of_Z hi) = false <->
(inject_Z lo <= q <= inject_Z hi)%Q.
Proof. exact (in_range_Fin q lo hi). Qed.
End ValueFacts.

(** X2: a GPS coordinate with numeric latitude and longitude is accepted
    exactly when -90 <= latitude <= 90 and -180 <= longitude <= 180. *)
Theorem validateGPSCoordinate_iff (rt : Runtime) (coord : jsval) (lat lng : Q) :
  get coord "latitude" = Normal (JNum (Fin lat)) ->
  get coord "longitude" = Normal (JNum (Fin lng)) ->
  validateGPSCoordinate coord = true <->
  (-90 <= lat <= 90)%Q /\ (-180 <= lng <= 180)%Q.
Proof.
  intros Hla Hlo.
  assert (Hobj : exists fs, coord = JObj fs)
    by (destruct coord; try discriminate; eauto).
  destruct Hobj as [fs ->].
  unfold validateGPSCoordinate. rewrite Hla, Hlo.
  change (negb (truthy (JObj fs)) || negb (typeof_object (JObj fs))) with false.
  cbv iota. simpl parseFloat. simpl isNaN. simpl orb at 1. cbv iota.
  destruct (num_lt (Fin lat) _ || num_gt (Fin lat) _) eqn:Elat.
  - split; [discriminate|]. intros [H _].
    apply (between_Fin lat (-90) 90) in H. congruence.
  - destruct (num_lt (Fin lng) _ || num_gt (Fin lng) _) eqn:Elng.
    + split; [discriminate|]. intros [_ H].
      apply (between_Fin lng (-180) 180) in H. congruence.
    + split; [|reflexivity]. intros _.
      split; [now apply (between_Fin lat (-90) 90)
             |now apply (between_Fin lng (-180) 180)].
Qed.

(** X2 on the corner of the range and just outside it. *)
Lemma validateGPSCoordinate_sample :
  validateGPSCoordinate (rt := DecimalRuntime.runtime)
    (Scenario.coordinate 90 (-180)) = true /\
  validateGPSCoordinate (rt := DecimalRuntime.runtime)
    (Scenario.coordinate 91 0) <> true.
Proof.
  split.
  - apply (validateGPSCoordinate_iff DecimalRuntime.runtime
             (Scenario.coordinate 90 (-180)) 90 (-180));
      [reflexivity|reflexivity|].
    repeat split; vm_compute; discriminate.
  - intros H.
    apply (validateGPSCoordinate_iff DecimalRuntime.runtime
             (Scenario.coordinate 91 0) 91 0) in H;
      [|reflexivity|reflexivity].
    destruct H as [[_ H] _]. now vm_compute in H.
Defined.

(** X3: for blood_pressure the verdict on the value is a verdict on the
    metadata alone: with numeric systolic and diastolic readings the value
    passes exactly when 70 <= systolic <= 250 and 40 <= diastolic <= 150,
    whatever the value of the record is, as long as it converts to a
    string (the value is parsed before the type is looked at, and parsing
    a value that does not convert throws). *)
Theorem blood_pressure_iff (rt : Runtime) (value metadata : jsval)
    (systolic diastolic : Q) :
  converts_to_string value = true ->
  get metadata "systolic" = Normal (JNum (Fin systolic)) ->
  get metadata "diastolic" = Normal (JNum (Fin diastolic)) ->
  validateValueByType "blood_pressure" value metadata = Normal Valid <->
  (70 <= systolic <= 250)%Q /\ (40 <= diastolic <= 150)%Q.
Proof.
  intros _ Hs Hd.
  assert (Hobj : exists fs, metadata = JObj fs)
    by (destruct metadata; try discriminate; eauto).
  destruct Hobj as [fs ->].
  unfold validateValueByType. simpl String.eqb. cbv iota.
  rewrite Hs, Hd. simpl parseFloat.
  pose proof (truthy_Fin systolic) as Ts.
  pose proof (truthy_Fin diastolic) as Td.
  unfold config.min, config.max, config.systolic, config.diastolic.
  destruct (truthy (JNum (Fin systolic))) eqn:Es.
  - destruct (truthy (JNum (Fin diastolic))) eqn:Ed.
    + simpl orb. cbv iota.
      destruct (out_of_range (Fin systolic) _ _) eqn:Esys.
      * split; [discriminate|]. intros [H _].
        apply (in_range_Fin systolic 70 250) in H. congruence.
      * destruct (out_of_range (Fin diastolic) _ _) eqn:Edia.
        -- split; [discriminate|]. intros [_ H].
           apply (in_range_Fin diastolic 40 150) in H. congruence.
        -- split; [|reflexivity]. intros _.
           split; [now apply (in_range_Fin systolic 70 250)
                  |now apply (in_range_Fin diastolic 40 150)].
    + simpl orb. cbv iota. split; [discriminate|]. intros [_ [H _]].
      exfalso. assert (Hz : ~ ~ (diastolic == 0)%Q)
        by (intros Hn; apply Td in Hn; discriminate).
      apply Hz. intros Heq. rewrite Heq in H. now apply H.
  - simpl orb. cbv iota. split; [discriminate|]. intros [[H _] _].
    exfalso. assert (Hz : ~ ~ (systolic == 0)%Q)
      by (intros Hn; apply Ts in Hn; discriminate).
    apply Hz. intros Heq. rewrite Heq in H. now apply H.
Qed.

(** X3 on a normal reading, with a value that is not even a number. *)
Lemma blood_pressure_sample :
  validateValueByType (rt := DecimalRuntime.runtime) "blood_pressure"
    (JStr "n/a") (Scenario.pressure 120 80) = Normal Valid.
Proof.
  apply (blood_pressure_iff DecimalRuntime.runtime (JStr "n/a")
           (Scenario.pressure 120 80) 120 80);
    [reflexivity|reflexivity|reflexivity|].
  repeat split; vm_compute; discriminate.
Defined.

Section BoundedValues.
Context {rt : Runtime}.

Lemma bounded_verdict n lo hi msg :
Normal (if out_of_range n (num_of_Z lo) (num_of_Z hi)
        then Invalid msg else Valid) = Normal Valid ->
0 <= lo -> hi <= 1000000 ->
exists q, n = Fin q /\ (0 <= q <= 1000000)%Q.
Proof.
intros H Hlo Hhi.
destruct (out_of_range n _ _) eqn:E; [discriminate|].
apply in_range_number in E. destruct E as (q & -> & Hl & Hh).
exists q. split; [reflexivity|]. split.
- eapply Qle_trans; [|exact Hl]. change 0%Q with (inject_Z 0).
  now rewrite <- Zle_Qle.
- eapply Qle_trans; [exact Hh|]. change 1000000%Q with (inject_Z 1000000).
  now rewrite <- Zle_Qle.
Qed.
End BoundedValues.

(** X4: for every supported data type but blood_pressure, a value that
    passes [validateValueByType] reads as a finite number between 0 and
    1000000: no NaN, no infinity and no negative number gets through. *)
Theorem accepted_value_bounded (rt : Runtime) (dataType : string)
    (value metadata : jsval) :
  includes config.supportedTypes dataType = true ->
  dataType <> "blood_pressure"%string ->
  validateValueByType dataType value metadata = Normal Valid ->
  exists q, parseFloat value = Fin q /\ (0 <= q <= 1000000)%Q.
Proof.
  intros Hin Hbp H.
  unfold includes, config.supportedTypes in Hin. simpl existsb in Hin.
  repeat match type of Hin with
  | (String.eqb dataType ?s || _) = true =>
      destruct (String.eqb dataType s) eqn:E;
        [apply String.eqb_eq in E; clear Hin|simpl orb in Hin; clear E]
  end;
  try discriminate; try (subst dataType);
  try (exfalso; now apply Hbp);
  unfold validateValueByType in H;
  cbn -[out_of_range parseFloat num_of_Z get forallb] in H;
  try (eapply bounded_verdict; [exact H|lia|lia]).
  (* gps_route *)
  destruct (out_of_range (parseFloat value) (num_of_Z 0) (num_of_Z 50000)) eqn:E;
    [discriminate|].
  eapply (bounded_verdict _ 0 50000 EmptyString); [now rewrite E|lia|lia].
Qed.

(** X4 on a steps value. *)
Lemma accepted_value_bounded_sample :
  exists q, parseFloat (rt := DecimalRuntime.runtime) (JNum (num_of_Z 5000)) = Fin q
            /\ (0 <= q <= 1000000)%Q.
Proof.
  apply (accepted_value_bounded DecimalRuntime.runtime "steps"
           (JNum (num_of_Z 5000)) JUndefined).
  - reflexivity.
  - discriminate.
  - vm_compute. reflexivity.
Defined.

(** X5: [validateDeviceRegistration] accepts exactly a device id that is
    a string of 1 to 100 code units, with a name that is a string of 1 to
    255 code units and a type that is the string wearos or ios. *)
Theorem validateDeviceRegistration_iff (deviceId deviceName deviceType : jsval) :
  validateDeviceRegistration deviceId deviceName deviceType = Valid <->
  exists id name type,
    deviceId = JStr id /\ deviceName = JStr name /\ deviceType = JStr type /\
    (1 <= String.length id <= 100)%nat /\
    (1 <= String.length name <= 255)%nat /\
    (type = "wearos" \/ type = "ios")%string.
Proof.
  unfold validateDeviceRegistration. split.
  - intros H.
    destruct deviceId as [| | | |id| |];
      try (simpl in H; rewrite ?orb_true_r in H; simpl in H; discriminate).
    destruct deviceName as [| | | |name| |];
      try (simpl in H; rewrite ?orb_true_r in H; simpl in H;
           destruct (_ || _) in H; discriminate).
    simpl typeof_string in H. simpl length_of in H. simpl negb in H.
    rewrite !orb_false_r in H.
    match type of H with (if ?c then _ else _) = _ =>
      destruct c eqn:E1; [discriminate|] end.
    match type of H with (if ?c then _ else _) = _ =>
      destruct c eqn:E2; [discriminate|] end.
    match type of H with (if ?c then _ else _) = _ =>
      destruct c eqn:E3; [discriminate|] end.
    apply orb_false_iff in E1. destruct E1 as [E1 L1'].
    apply orb_false_iff in E1. destruct E1 as [_ L1].
    apply orb_false_iff in E2. destruct E2 as [E2 L2'].
    apply orb_false_iff in E2. destruct E2 as [_ L2].
    apply orb_false_iff in E3. destruct E3 as [_ E3].
    apply negb_false_iff in E3.
    destruct deviceType as [| | | |type| |]; try discriminate.
    exists id, name, type.
    apply Nat.ltb_ge in L1, L1', L2, L2'.
    repeat split; try lia.
    simpl in E3. rewrite orb_false_r in E3. apply orb_true_iff in E3.
    destruct E3 as [E3|E3]; apply String.eqb_eq in E3; auto.
  - intros (id & name & type & -> & -> & -> & [L1 L1'] & [L2 L2'] & Ht).
    assert (Tid : truthy (JStr id) = true)
      by (destruct id; [simpl in L1; lia|reflexivity]).
    assert (Tname : truthy (JStr name) = true)
      by (destruct name; [simpl in L2; lia|reflexivity]).
    rewrite Tid, Tname. simpl typeof_string. simpl length_of. simpl negb.
    apply Nat.ltb_ge in L1, L1', L2, L2'. rewrite L1, L1', L2, L2'. simpl.
    destruct Ht as [-> | ->]; reflexivity.
Qed.

(** X6: the records of a batch are judged one by one: the valid records
    and the errors of two batches put end to end are the valid records
    and the errors of the first followed by those of the second, the
    second being judged from the index and with the clock readings that
    follow the first. *)
Theorem process_records_app (rt : Runtime) (w : World) (dataType : string)
    (i : nat) (l1 l2 : list jsval) :
  process_records w dataType i (l1 ++ l2)
  = (fst (process_records w dataType i l1)
       ++ fst (process_records w dataType (i + length l1) l2),
     snd (process_records w dataType i l1)
       ++ snd (process_records w dataType (i + length l1) l2)).
Proof.
  revert i l2. induction l1 as [|record l1 IH]; intros i l2.
  - simpl. rewrite Nat.add_0_r. now destruct (process_records _ _ _ l2).
  - simpl. rewrite (IH (S i) l2).
    replace (i + S (length l1))%nat with (S i + length l1)%nat by lia.
    destruct (process_records w dataType (S i) l1) as [v1 e1].
    destruct (process_records w dataType (S i + length l1) l2) as [v2 e2].
    simpl.
    destruct (validateHealthData _ _ _); [|reflexivity].
    destruct (sanitizeHealthData _ _); reflexivity.
Qed.

(** ** More on the ingestion handler *)

Section IngestSteps.
Context {rt : Runtime}.
Variable w : World.

(** The steps of a successful ingestion. *)
Lemma post_health_data_steps req st body st' :
post_health_data w req st = (Normal (Success body), st') ->
exists deviceId dataType records st1 st2 insertedCount,
  Ingest.deviceId req = Some deviceId /\
  Ingest.dataType req = Some dataType /\
  Ingest.records req = JArr records /\
  ensureDeviceExists w deviceId (Ingest.deviceName req)
    (or_else (Ingest.deviceType req) "wearos") st = (Normal tt, st1) /\
  (if (0 <? length (fst (process_records w dataType 0 records)))%nat
   then insertHealthRecords w deviceId dataType
          (fst (process_records w dataType 0 records))
   else ret 0%nat) st1 = (Normal insertedCount, st2) /\
  updateDeviceLastSync w deviceId
    (maxTimestamp w (fst (process_records w dataType 0 records))
       (length records)) st2 = (Normal tt, st').
Proof.
unfold post_health_data. intros H.
split_run H; [|discriminate]. injection H as -> ->.
destruct (Ingest.deviceId req) as [deviceId|]; [|discriminate].
destruct (Ingest.dataType req) as [dataType|]; [|discriminate].
destruct (Ingest.records req) as [| | | | |records|]; try discriminate.
destruct (_ || _); [discriminate|].
destruct (negb _); [discriminate|].
destruct (config.maxBatchSize <? length records)%nat; [discriminate|].
split_run E; [|discriminate]. destruct a.
destruct (process_records w dataType 0 records) as [valid errors] eqn:Hp.
split_run E; [|discriminate].
split_run E; [|discriminate]. injection E as <- <-. destruct a0.
exists deviceId, dataType, records, st0, st1, a. rewrite Hp. simpl.
repeat split; assumption.
Qed.

(** The insertion loop, row by row: the rows added hold, in order, the
  records the storage accepted. *)
Lemma insert_loop_rows deviceId dataType records : forall c st,
exists rows kept,
  db (snd (insertHealthRecords_from w c deviceId dataType records st))
    = {| devices := devices (db st);
         health_data := health_data (db st) ++ rows;
         sync_sessions := sync_sessions (db st) |} /\
  sublist kept records /\
  Forall2 (stored_as deviceId dataType) kept rows /\
  ((forall n, fault w n = false) ->
   is_Some (devices (db st) !! deviceId) ->
   Forall (fun s => is_Some (Sanitized.timestamp s)) records ->
   kept = records).
Proof.
induction records as [|record records IH]; intros c [[dv hd ss] n].
- exists [], []. simpl. rewrite app_nil_r.
  repeat split; auto; constructor.
- simpl insertHealthRecords_from.
  unfold bind at 1, try_catch at 1, bind at 1, runQuery at 1. simpl.
  destruct (fault w n) eqn:Hf; simpl.
  { destruct (IH c {| db := {| devices := dv; health_data := hd;
                               sync_sessions := ss |}; nstmt := S n |})
      as (rows & kept & Hdb & Hsub & Hall & _).
    exists rows, kept. simpl in *. split; [exact Hdb|].
    split; [now apply sublist_cons|]. split; [exact Hall|].
    intros Hnf. now rewrite Hnf in Hf. }
  unfold Sql.insert_health_data. simpl.
  destruct (Sanitized.timestamp record) as [timestamp|] eqn:Hts; simpl.
  + destruct (dv !! deviceId) as [device|] eqn:Hd; simpl.
    * match goal with
      | |- context [ hd ++ [?r] ] => set (row := r)
      end.
      destruct (IH (S c) {| db := {| devices := dv; health_data := hd ++ [row];
                                     sync_sessions := ss |}; nstmt := S n |})
        as (rows & kept & Hdb & Hsub & Hall & Hfull).
      exists (row :: rows), (record :: kept). simpl in *.
      split; [now rewrite Hdb, <- app_assoc|].
      split; [now apply sublist_skip|]. split.
      -- constructor; [|exact Hall].
         unfold stored_as, row. simpl. rewrite Hts. repeat split.
      -- intros Hnf _ Hrec. apply Forall_cons in Hrec.
         f_equal. apply Hfull; [exact Hnf|rewrite Hd; eauto|tauto].
    * destruct (IH c {| db := {| devices := dv; health_data := hd;
                                 sync_sessions := ss |}; nstmt := S n |})
        as (rows & kept & Hdb & Hsub & Hall & _).
      exists rows, kept. simpl in *. split; [exact Hdb|].
      split; [now apply sublist_cons|]. split; [exact Hall|].
      intros _ [device Hdev]. congruence.
  + destruct (IH c {| db := {| devices := dv; health_data := hd;
                               sync_sessions := ss |}; nstmt := S n |})
      as (rows & kept & Hdb & Hsub & Hall & _).
    exists rows, kept. simpl in *. split; [exact Hdb|].
    split; [now apply sublist_cons|]. split; [exact Hall|].
    intros _ _ Hrec. apply Forall_cons in Hrec.
    destruct Hrec as [[t Ht] _]. congruence.
Qed.

Lemma registry_kept_refl touched d : registry_kept touched d d.
Proof.
split; [reflexivity|]. split; [auto|].
intros id r Hr. exists r. repeat split; auto.
Qed.

Lemma registry_kept_trans touched d1 d2 d3 :
registry_kept touched d1 d2 -> registry_kept touched d2 d3 ->
registry_kept touched d1 d3.
Proof.
intros (Hs1 & Hn1 & Hk1) (Hs2 & Hn2 & Hk2).
split; [congruence|]. split; [auto|].
intros id r Hr.
destruct (Hk1 id r Hr) as (r1 & Hr1 & N1 & T1 & A1 & M1 & C1 & E1).
destruct (Hk2 id r1 Hr1) as (r2 & Hr2 & N2 & T2 & A2 & M2 & C2 & E2).
exists r2. repeat split; try congruence.
intros Hne. rewrite (E2 Hne). auto.
Qed.

(** Rewriting columns of the row of the touched device, the listed ones
  apart, keeps the registry. *)
Lemma registry_kept_alter deviceId f d :
(forall r, Devices.name (f r) = Devices.name r /\
           Devices.type (f r) = Devices.type r /\
           Devices.is_active (f r) = Devices.is_active r /\
           Devices.metadata (f r) = Devices.metadata r /\
           Devices.created_at (f r) = Devices.created_at r) ->
registry_kept (Some deviceId) d
  (Sql.with_devices d (alter f deviceId (devices d))).
Proof.
intros Hf. split; [reflexivity|]. simpl. split.
- intros id Hnone _. destruct (decide (deviceId = id)) as [->|Hne].
  + now rewrite lookup_alter_eq, Hnone.
  + now rewrite lookup_alter_ne.
- intros id r Hr. destruct (decide (deviceId = id)) as [->|Hne].
  + exists (f r). rewrite lookup_alter_eq, Hr. simpl.
    destruct (Hf r) as (? & ? & ? & ? & ?). repeat split; auto. congruence.
  + exists r. rewrite lookup_alter_ne by exact Hne. repeat split; auto.
Qed.

Lemma ensureDeviceExists_registry deviceId deviceName deviceType :
keeps (registry_kept (Some deviceId))
  (ensureDeviceExists w deviceId deviceName deviceType).
Proof.
unfold ensureDeviceExists.
apply keeps_bind;
  [apply registry_kept_trans|apply keeps_getRow, registry_kept_refl|].
intros [device|]; (apply keeps_runQuery; [apply registry_kept_refl|]).
- intros now d d' [= <-]. now apply registry_kept_alter.
- intros now d d'. unfold Sql.insert_device.
  destruct (negb _); [discriminate|].
  destruct (devices d !! deviceId) eqn:Hd; [discriminate|]. intros [= <-].
  split; [reflexivity|]. simpl. split.
  + intros id Hnone Hne. rewrite lookup_insert_ne; [exact Hnone|congruence].
  + intros id r Hr. exists r.
    rewrite lookup_insert_ne by congruence. repeat split; auto.
Qed.

Lemma insertHealthRecords_registry touched deviceId dataType records c :
keeps (registry_kept touched)
  (insertHealthRecords_from w c deviceId dataType records).
Proof.
intros st.
destruct (insert_loop_rows deviceId dataType records c st)
  as (rows & kept & -> & _).
split; [reflexivity|]. simpl. split; [auto|].
intros id r Hr. exists r. repeat split; auto.
Qed.

Lemma updateDeviceLastSync_registry deviceId timestamp :
keeps (registry_kept (Some deviceId))
  (updateDeviceLastSync w deviceId timestamp).
Proof.
apply keeps_runQuery; [apply registry_kept_refl|].
intros now d d' [= <-]. now apply registry_kept_alter.
Qed.
End IngestSteps.

(** X7: whatever it answers, an ingestion call leaves the sync sessions
    alone, creates no device but the one it names, removes none, and keeps
    name, type, activity flag, metadata and creation time of every device,
    the named one included; the rows of the other devices stay as they
    are. *)
Theorem ingest_keeps_registry (rt : Runtime) (w : World)
    (req : Ingest.request) (st : St) :
  registry_kept (Ingest.deviceId req) (db st)
    (db (snd (post_health_data w req st))).
Proof.
  revert st. change (keeps (registry_kept (Ingest.deviceId req))
                       (post_health_data w req)).
  assert (Tr : forall d1 d2 d3 : Db,
             registry_kept (Ingest.deviceId req) d1 d2 ->
             registry_kept (Ingest.deviceId req) d2 d3 ->
             registry_kept (Ingest.deviceId req) d1 d3)
    by apply registry_kept_trans.
  unfold post_health_data.
  apply keeps_try_catch;
    [exact Tr| |intros; apply keeps_ret, registry_kept_refl].
  destruct (Ingest.deviceId req) as [deviceId|];
    [|apply keeps_ret, registry_kept_refl].
  destruct (Ingest.dataType req) as [dataType|];
    [|apply keeps_ret, registry_kept_refl].
  destruct (Ingest.records req) as [| | | | |records|];
    try apply keeps_ret, registry_kept_refl.
  destruct (_ || _); [apply keeps_ret, registry_kept_refl|].
  destruct (negb _); [apply keeps_ret, registry_kept_refl|].
  destruct (_ <? _)%nat; [apply keeps_ret, registry_kept_refl|].
  apply keeps_bind; [exact Tr|apply ensureDeviceExists_registry|intros _].
  destruct (process_records w dataType 0 records) as [valid errors].
  apply keeps_bind; [exact Tr| |intros c].
  - destruct (0 <? length valid)%nat;
      [apply insertHealthRecords_registry|apply keeps_ret, registry_kept_refl].
  - apply keeps_bind;
      [exact Tr|apply updateDeviceLastSync_registry|intros _].
    apply keeps_ret, registry_kept_refl.
Qed.

(** X8: an ingestion call answered with status 400 (missing fields,
    unsupported data type, oversized batch) has handed nothing to the
    storage: the state is the one before the call. *)
Theorem ingest_400_changes_nothing (rt : Runtime) (w : World)
    (req : Ingest.request) (st : St) (error : string) :
  fst (post_health_data w req st) = Normal (Failure 400 error) ->
  snd (post_health_data w req st) = st.
Proof.
  intros H.
  destruct (post_health_data w req st) as [out st'] eqn:E. simpl in *. subst out.
  unfold post_health_data in E.
  split_run E; [injection E as -> ->|discriminate].
  destruct (Ingest.deviceId req) as [deviceId|]; [|now injection E0].
  destruct (Ingest.dataType req) as [dataType|]; [|now injection E0].
  destruct (Ingest.records req) as [| | | | |records|];
    try now injection E0.
  destruct (_ || _); [now injection E0|].
  destruct (negb _); [now injection E0|].
  destruct (_ <? _)%nat; [now injection E0|].
  split_run E0; [|discriminate].
  destruct (process_records w dataType 0 records) as [valid errors].
  split_run E0; [|discriminate].
  split_run E0; [|discriminate]. discriminate.
Qed.

(** X8 on a batch that names no data type. *)
Lemma ingest_400_changes_nothing_sample :
  snd (post_health_data (rt := DecimalRuntime.runtime) Sample.quiet
         Scenario.untyped_batch Sample.after_first) = Sample.after_first.
Proof.
  apply (ingest_400_changes_nothing DecimalRuntime.runtime Sample.quiet
           Scenario.untyped_batch Sample.after_first
           "Missing required fields: deviceId, dataType, records (array)").
  reflexivity.
Defined.

Section IngestDevices.
Context {rt : Runtime}.
Variable w : World.

(** What [ensureDeviceExists] writes for a device it does not know. *)
Lemma ensureDeviceExists_creates deviceId deviceName deviceType st u st' :
devices (db st) !! deviceId = None ->
ensureDeviceExists w deviceId deviceName deviceType st = (Normal u, st') ->
includes [ "wearos"; "ios" ]%string deviceType = true /\
exists r,
  devices (db st') !! deviceId = Some r /\
  Devices.name r = or_else deviceName (deviceType ++ " Device") /\
  Devices.type r = deviceType /\
  Devices.is_active r = true /\
  Devices.last_sync_timestamp r = Some 0 /\
  Devices.metadata r = JObj [ ("auto_created"%string, JBool true) ].
Proof.
intros Hnone H. unfold ensureDeviceExists in H.
split_run H; [|discriminate].
apply getRow_Normal in E. destruct E as (Hsel & Hdb & _).
injection Hsel as <-. rewrite Hnone in H.
apply runQuery_Normal in H. destruct H as (_ & Hq & _). rewrite Hdb in Hq.
unfold Sql.insert_device in Hq.
destruct (includes _ deviceType); [|discriminate]. simpl in Hq.
rewrite Hnone in Hq. injection Hq as <-. split; [reflexivity|].
eexists. simpl. rewrite lookup_insert_eq. split; [reflexivity|].
repeat split.
Qed.
End IngestDevices.

(** X9: a successful ingestion call naming an unknown device creates its
    row: the type is the deviceType of the request, wearos when there is
    none, and is wearos or ios; the name is the deviceName of the request,
    or the type followed by Device; the device is active and its metadata
    says auto_created. *)
Theorem ingest_creates_device (rt : Runtime) (w : World)
    (req : Ingest.request) (st : St) (body : Ingest.body) (deviceId : string) :
  fst (post_health_data w req st) = Normal (Success body) ->
  Ingest.deviceId req = Some deviceId ->
  devices (db st) !! deviceId = None ->
  exists r,
    devices (db (snd (post_health_data w req st))) !! deviceId = Some r /\
    Devices.type r = or_else (Ingest.deviceType req) "wearos" /\
    (Devices.type r = "wearos" \/ Devices.type r = "ios")%string /\
    Devices.name r
      = or_else (Ingest.deviceName req) (Devices.type r ++ " Device") /\
    Devices.is_active r = true /\
    Devices.metadata r = JObj [ ("auto_created"%string, JBool true) ].
Proof.
  intros H Hid Hnone.
  destruct (post_health_data w req st) as [out st'] eqn:E. simpl in *. subst out.
  apply post_health_data_steps in E.
  destruct E as (deviceId' & dataType & records & st1 & st2 & c
                 & Hid' & _ & _ & Hens & Hins & Hupd).
  rewrite Hid in Hid'. injection Hid' as <-.
  destruct (ensureDeviceExists_creates w _ _ _ _ _ _ Hnone Hens)
    as (Htype & r1 & Hr1 & Hname & Hty & Hact & _ & Hmeta).
  assert (K1 : registry_kept (Some deviceId) (db st1) (db st2)).
  { destruct (0 <? length _)%nat.
    - pose proof (insertHealthRecords_registry w (Some deviceId) deviceId
                    dataType (fst (process_records w dataType 0 records))
                    0%nat st1) as Hk.
      unfold insertHealthRecords in Hins. now rewrite Hins in Hk.
    - injection Hins as _ <-. apply registry_kept_refl. }
  assert (K2 : registry_kept (Some deviceId) (db st2) (db st')).
  { pose proof (updateDeviceLastSync_registry w deviceId
                  (maxTimestamp w (fst (process_records w dataType 0 records))
                     (length records)) st2) as Hk.
    now rewrite Hupd in Hk. }
  destruct (registry_kept_trans _ _ _ _ K1 K2) as (_ & _ & Hkept).
  destruct (Hkept deviceId r1 Hr1) as (r & Hr & N & T & A & M & _).
  exists r. split; [exact Hr|]. rewrite T, N, A, M, Hname, Hty, Hact, Hmeta.
  repeat split.
  unfold includes in Htype. simpl in Htype. rewrite orb_false_r in Htype.
  apply orb_true_iff in Htype.
  destruct Htype as [Ht|Ht]; apply String.eqb_eq in Ht; auto.
Qed.

(** X9 on the batch of the new device p9, named Phone, of type ios. *)
Lemma ingest_creates_device_sample :
  exists r,
    devices (db (snd (post_health_data (rt := DecimalRuntime.runtime)
                        Sample.quiet Scenario.named_batch Sample.after_first)))
      !! "p9"%string = Some r /\
    Devices.type r = "ios"%string /\ Devices.name r = "Phone"%string.
Proof.
  destruct (ingest_creates_device DecimalRuntime.runtime Sample.quiet
              Scenario.named_batch Sample.after_first
              {| Ingest.processed :=
                   {| Processed.total := 1; Processed.inserted := 1;
                      Processed.errors := 0 |};
                 Ingest.errors := [] |} "p9")
    as (r & Hr & Ht & _ & Hn & _);
    [vm_compute; reflexivity|reflexivity|vm_compute; reflexivity|].
  exists r. split; [exact Hr|]. split; [exact Ht|]. exact Hn.
Defined.

(** X10: when a well-formed ingestion request names an unknown device
    with a deviceType other than wearos and ios, the INSERT into devices
    violates the CHECK of the table: the call is answered with status 500
    and the database is unchanged (no device, no record). *)
Theorem ingest_unknown_device_type (rt : Runtime) (w : World)
    (req : Ingest.request) (st : St) (deviceId dataType : string)
    (records : list jsval) :
  Ingest.deviceId req = Some deviceId -> deviceId <> EmptyString ->
  Ingest.dataType req = Some dataType ->
  includes config.supportedTypes dataType = true ->
  Ingest.records req = JArr records ->
  (length records <= config.maxBatchSize)%nat ->
  devices (db st) !! deviceId = None ->
  includes [ "wearos"; "ios" ]%string (or_else (Ingest.deviceType req) "wearos")
    = false ->
  fst (post_health_data w req st) = Normal (Failure 500 "Internal server error")
  /\ db (snd (post_health_data w req st)) = db st.
Proof.
  intros Hid Hne Hdt Hsup Hrec Hsize Hnone Hbad.
  assert (Hdne : String.eqb dataType EmptyString = false).
  { destruct dataType; [discriminate Hsup|reflexivity]. }
  apply String.eqb_neq in Hne. apply Nat.ltb_ge in Hsize.
  unfold post_health_data, try_catch, bind, ensureDeviceExists, bind, getRow,
    runQuery.
  rewrite Hid, Hdt, Hrec, Hne, Hdne, Hsup, Hsize. simpl.
  destruct (fault w (nstmt st)); simpl; [auto|].
  rewrite Hnone. simpl.
  destruct (fault w (S (nstmt st))); simpl; [auto|].
  unfold Sql.insert_device. rewrite Hbad. simpl. auto.
Qed.

(** X10 on a first batch of a device of type android. *)
Lemma ingest_unknown_device_type_sample :
  fst (post_health_data (rt := DecimalRuntime.runtime) Sample.quiet
         Scenario.android_batch (Sample.start Sample.empty))
    = Normal (Failure 500 "Internal server error") /\
  db (snd (post_health_data (rt := DecimalRuntime.runtime) Sample.quiet
             Scenario.android_batch (Sample.start Sample.empty)))
    = Sample.empty.
Proof.
  apply (ingest_unknown_device_type DecimalRuntime.runtime Sample.quiet
           Scenario.android_batch (Sample.start Sample.empty) "a1" "steps"
           [ Sample.record Sample.now 10 ]);
    try reflexivity; try discriminate.
  apply Nat.leb_le. reflexivity.
Defined.

(** X11: the rows a successful ingestion call adds hold, in the order of
    the batch, accepted records of the batch, each under the device id and
    data type of the request with its timestamp, value, unit, metadata and
    source application; a storage failure only leaves records out, and
    when the storage rejects nothing there is one row per accepted
    record. *)
Theorem ingest_stores_in_order (rt : Runtime) (w : World)
    (req : Ingest.request) (st : St) (body : Ingest.body)
    (deviceId dataType : string) (records : list jsval) :
  fst (post_health_data w req st) = Normal (Success body) ->
  Ingest.deviceId req = Some deviceId ->
  Ingest.dataType req = Some dataType ->
  Ingest.records req = JArr records ->
  exists rows kept,
    health_data (db (snd (post_health_data w req st)))
      = health_data (db st) ++ rows /\
    sublist kept (fst (process_records w dataType 0 records)) /\
    Forall2 (stored_as deviceId dataType) kept rows /\
    ((forall n, fault w n = false) ->
     kept = fst (process_records w dataType 0 records)).
Proof.
  intros H Hid Hdt Hrec.
  destruct (post_health_data w req st) as [out st'] eqn:E. simpl in *. subst out.
  apply post_health_data_steps in E.
  destruct E as (deviceId' & dataType' & records' & st1 & st2 & c
                 & Hid' & Hdt' & Hrec' & Hens & Hins & Hupd).
  rewrite Hid in Hid'. rewrite Hdt in Hdt'. rewrite Hrec in Hrec'.
  injection Hid' as <-. injection Hdt' as <-. injection Hrec' as <-.
  destruct (ensureDeviceExists_Normal w _ _ _ _ _ _ Hens) as [Hdev Hhd1].
  apply updateDeviceLastSync_Normal in Hupd. destruct Hupd as [Hhd2 _].
  pose proof (process_records_valid w dataType records 0%nat) as Hv.
  set (valid := fst (process_records w dataType 0 records)) in *.
  destruct (0 <? length valid)%nat eqn:Hnz.
  - unfold insertHealthRecords in Hins.
    destruct (insert_loop_rows w deviceId dataType valid 0%nat st1)
      as (rows & kept & Hdb & Hsub & Hall & Hfull).
    rewrite Hins in Hdb. simpl in Hdb.
    exists rows, kept. rewrite Hhd2, Hdb. simpl. rewrite Hhd1.
    repeat split; auto.
    intros Hnf. apply Hfull; [exact Hnf|exact Hdev|].
    eapply List.Forall_impl; [|exact Hv].
    intros s (_ & _ & t & _ & _ & Ht & _). eauto.
  - injection Hins as _ <-. apply Nat.ltb_ge in Hnz.
    assert (Hnil : valid = []) by (destruct valid; [reflexivity|simpl in Hnz; lia]).
    exists [], []. rewrite Hhd2, Hhd1, app_nil_r, Hnil.
    repeat split; auto; constructor.
Qed.

(** X11 on the first sample batch: the single accepted record is stored
    under w1 and heart_rate. *)
Lemma ingest_stores_in_order_sample :
  exists rows kept,
    health_data (db Sample.after_first) = [] ++ rows /\
    length kept = 1%nat /\
    Forall2 (stored_as "w1" "heart_rate") kept rows.
Proof.
  destruct (ingest_stores_in_order DecimalRuntime.runtime Sample.quiet
              Sample.first_batch (Sample.start Sample.empty)
              {| Ingest.processed :=
                   {| Processed.total := 1; Processed.inserted := 1;
                      Processed.errors := 0 |};
                 Ingest.errors := [] |}
              "w1" "heart_rate" [ Sample.record Sample.now 72 ])
    as (rows & kept & Hhd & _ & Hall & Hfull);
    [vm_compute; reflexivity|reflexivity..|].
  exists rows, kept. split; [exact Hhd|]. split; [|exact Hall].
  rewrite Hfull by (intros n; reflexivity). vm_compute. reflexivity.
Defined.

(** ** More on the sync read *)

Section SyncReadPages.
Context {rt : Runtime}.
Variable w : World.

Lemma validateSyncParams_Valid since until limit offset :
validateSyncParams since until limit offset = Valid ->
(is_undefined limit = false ->
 exists l, parseInt limit = Some l /\ 1 <= l <= 1000) /\
(is_undefined offset = false ->
 exists o, parseInt offset = Some o /\ 0 <= o) /\
(is_undefined until = false -> exists u, parseInt until = Some u).
Proof.
unfold validateSyncParams. intros H.
destruct (negb (is_undefined since) && _); [discriminate|].
destruct (negb (is_undefined until) && _) eqn:Eu; [discriminate|].
destruct (negb (is_undefined limit) && _) eqn:El; [discriminate|].
destruct (negb (is_undefined offset) && _) eqn:Eo; [discriminate|].
split; [|split].
- intros Hl. rewrite Hl in El. simpl negb in El. rewrite andb_true_l in El.
  destruct (parseInt limit) as [l|]; [|discriminate].
  exists l. split; [reflexivity|]. unfold config.maxBatchSize in El.
  apply orb_false_iff in El. destruct El as [E1 E2].
  change (Z.of_nat 1000) with 1000 in E2. lia.
- intros Ho. rewrite Ho in Eo. simpl negb in Eo. rewrite andb_true_l in Eo.
  destruct (parseInt offset) as [o|]; [|discriminate].
  exists o. split; [reflexivity|]. lia.
- intros Hu. rewrite Hu in Eu. simpl negb in Eu. rewrite andb_true_l in Eu.
  destruct (parseInt until) as [u|]; [|discriminate]. eauto.
Qed.

Lemma read_page_Success conditions limit offset sinceTimestamp st body st' :
read_page w conditions limit offset sinceTimestamp st
  = (Normal (Success body), st') ->
exists l o,
  parseInt limit = Some l /\ parseInt offset = Some o /\
  body =
    {| SyncData.data :=
         SyncSql.limit_offset (Z.min (Z.of_nat config.maxBatchSize) l) o
           (SyncSql.order_by_timestamp_desc
              (List.filter (SyncSql.where_ conditions) (health_data (db st))));
       SyncData.pagination_ :=
         {| SyncData.total :=
              length (List.filter (SyncSql.where_ conditions)
                        (health_data (db st)));
            SyncData.limitNum := Some (Z.min (Z.of_nat config.maxBatchSize) l);
            SyncData.offsetNum := Some o;
            SyncData.hasMore :=
              o + Z.of_nat
                    (length
                       (SyncSql.limit_offset
                          (Z.min (Z.of_nat config.maxBatchSize) l) o
                          (SyncSql.order_by_timestamp_desc
                             (List.filter (SyncSql.where_ conditions)
                                (health_data (db st))))))
              <? Z.of_nat
                   (length (List.filter (SyncSql.where_ conditions)
                              (health_data (db st)))) |};
       SyncData.lastSyncTimestamp := sinceTimestamp |}.
Proof.
unfold read_page. intros H.
split_run H; [|discriminate].
apply getRow_Normal in E. destruct E as (Hsel & Hdb & _).
split_run H; [|discriminate].
apply getRow_Normal in E. destruct E as (Hcnt & _ & _).
injection H as <- _.
unfold SyncSql.select_health_data in Hsel.
destruct (parseInt limit) as [l|]; [|discriminate].
destruct (parseInt offset) as [o|]; [|discriminate].
simpl in Hsel. injection Hsel as <-.
unfold SyncSql.count_health_data in Hcnt. rewrite Hdb in Hcnt.
injection Hcnt as <-.
exists l, o. repeat split.
Qed.

(** What a successful sync read returns. *)
Lemma get_sync_data_Success deviceId q st body st' :
get_sync_data w deviceId q st = (Normal (Success body), st') ->
exists device l o all,
  devices (db st) !! deviceId = Some device /\
  parseInt (param (SyncData.limit q) (JNum (num_of_Z 1000))) = Some l /\
  parseInt (param (SyncData.offset q) (JNum (num_of_Z 0))) = Some o /\
  1 <= l <= 1000 /\ 0 <= o /\
  all = List.filter
          (sync_selects deviceId (sync_since q device) (SyncData.until q)
             (SyncData.dataType q))
          (health_data (db st)) /\
  SyncData.data body
    = take (Z.to_nat l) (drop (Z.to_nat o)
                           (SyncSql.order_by_timestamp_desc all)) /\
  SyncData.total (SyncData.pagination_ body) = length all /\
  SyncData.limitNum (SyncData.pagination_ body) = Some l /\
  SyncData.offsetNum (SyncData.pagination_ body) = Some o /\
  SyncData.hasMore (SyncData.pagination_ body)
    = (o + Z.of_nat (length (SyncData.data body)) <? Z.of_nat (length all)) /\
  SyncData.lastSyncTimestamp body = sync_since q device.
Proof.
unfold get_sync_data. intros H.
split_run H; [|discriminate]. injection H as -> ->.
destruct (validateSyncParams _ _ _ _) eqn:Hval; [|discriminate].
apply validateSyncParams_Valid in Hval. destruct Hval as (Hl & Ho & Hu).
split_run E; [|discriminate].
apply getRow_Normal in E0. destruct E0 as (Hsel & Hdb & _).
injection Hsel as <-.
destruct (devices (db st) !! deviceId) as [device|] eqn:Hdev; [|discriminate].
match type of E with
| match _ with Some _ => _ | None => read_page _ _ ?li ?off ?s end _ = _ =>
    set (since := s) in E; set (limit := li) in E; set (offset := off) in E
end.
assert (Hsince : since = sync_since q device).
{ unfold since, sync_since. destruct (SyncData.since q) as [s|]; simpl;
    [|reflexivity]. now destruct (String.eqb s EmptyString). }
clearbody since. subst since.
match type of E with
| match _ with Some _ => _ | None => read_page _ ?c _ _ _ end _ = _ =>
    set (conds := c) in E
end.
assert (Hpage : forall extra,
  read_page w (conds ++ extra) limit offset (sync_since q device) st0
    = (Normal (Success body), st') ->
  (forall r, SyncSql.where_ (conds ++ extra) r
             = sync_selects deviceId (sync_since q device) (SyncData.until q)
                 (SyncData.dataType q) r) ->
  exists l o all,
    parseInt limit = Some l /\ parseInt offset = Some o /\
    1 <= l <= 1000 /\ 0 <= o /\
    all = List.filter
            (sync_selects deviceId (sync_since q device) (SyncData.until q)
               (SyncData.dataType q))
            (health_data (db st)) /\
    SyncData.data body
      = take (Z.to_nat l) (drop (Z.to_nat o)
                             (SyncSql.order_by_timestamp_desc all)) /\
    SyncData.total (SyncData.pagination_ body) = length all /\
    SyncData.limitNum (SyncData.pagination_ body) = Some l /\
    SyncData.offsetNum (SyncData.pagination_ body) = Some o /\
    SyncData.hasMore (SyncData.pagination_ body)
      = (o + Z.of_nat (length (SyncData.data body)) <? Z.of_nat (length all)) /\
    SyncData.lastSyncTimestamp body = sync_since q device).
{ intros extra Hrun Hext. apply read_page_Success in Hrun.
  destruct Hrun as (l & o & Hpl & Hpo & ->).
  destruct Hl as (l' & Hl' & Hlb);
    [unfold limit; now destruct (SyncData.limit q)|].
  destruct Ho as (o' & Ho' & Hob);
    [unfold offset; now destruct (SyncData.offset q)|].
  fold limit in Hl'. fold offset in Ho'.
  rewrite Hpl in Hl'. rewrite Hpo in Ho'.
  injection Hl' as <-. injection Ho' as <-.
  assert (Hmin : Z.min (Z.of_nat config.maxBatchSize) l = l)
    by (unfold config.maxBatchSize; change (Z.of_nat 1000) with 1000; lia).
  rewrite Hmin. rewrite Hdb.
  rewrite (List.filter_ext _ _ Hext).
  exists l, o. eexists.
  split; [exact Hpl|]. split; [exact Hpo|].
  split; [exact Hlb|]. split; [exact Hob|].
  split; [reflexivity|]. simpl.
  unfold SyncSql.limit_offset. replace (l <? 0) with false by lia.
  repeat split; auto. }
assert (Hbase : forall r,
  SyncSql.where_ conds r
  = negb (String.eqb (HealthData.device_id r) deviceId)
    && match sync_since q device with
       | Some s => if s >? 0 then HealthData.timestamp r >? s else true
       | None => true
       end
    && match SyncData.until q with
       | Some u =>
           if String.eqb u EmptyString then true
           else match parseInt (JStr u) with
                | Some t => HealthData.timestamp r <=? t
                | None => false
                end
       | None => true
       end).
{ intros r. unfold conds.
  match goal with
  | |- SyncSql.where_ (if _ then ?c ++ _ else _) r = _ => set (c1 := c)
  end.
  assert (Hc1 : SyncSql.where_ c1 r
                = negb (String.eqb (HealthData.device_id r) deviceId)
                  && match sync_since q device with
                     | Some s =>
                         if s >? 0 then HealthData.timestamp r >? s else true
                     | None => true
                     end).
  { unfold c1. destruct (sync_since q device) as [s|];
      [destruct (s >? 0)|];
      unfold SyncSql.where_; cbn [app forallb];
      unfold SyncSql.device_id_ne, SyncSql.timestamp_gt;
      rewrite ?andb_true_r; reflexivity. }
  destruct (SyncData.until q) as [u|]; cbn [param truthy].
  - destruct (String.eqb u EmptyString); cbn [negb].
    + rewrite Hc1, andb_true_r. reflexivity.
    + rewrite where_app, Hc1. unfold SyncSql.where_ at 1. cbn [forallb].
      unfold SyncSql.timestamp_le. rewrite andb_true_r.
      destruct (parseInt (JStr u)); reflexivity.
  - rewrite Hc1, andb_true_r. reflexivity. }
destruct (SyncData.dataType q) as [dataType|] eqn:Hdt.
- destruct (String.eqb dataType EmptyString) eqn:Hde.
  + destruct (Hpage []) as (l & o & all & R);
      [now rewrite app_nil_r| |exists device, l, o, all; split; [reflexivity|exact R]].
    intros r. rewrite app_nil_r, Hbase. unfold sync_selects.
    rewrite Hde. now rewrite andb_true_r.
  + destruct (negb _); [discriminate|].
    destruct (Hpage [SyncSql.data_type_eq dataType])
      as (l & o & all & R);
      [exact E| |exists device, l, o, all; split; [reflexivity|exact R]].
    intros r. rewrite where_app, Hbase. unfold sync_selects.
    rewrite Hde. simpl. unfold SyncSql.data_type_eq.
    now rewrite andb_true_r.
- destruct (Hpage []) as (l & o & all & R);
    [now rewrite app_nil_r| |exists device, l, o, all; split; [reflexivity|exact R]].
  intros r. rewrite app_nil_r, Hbase. unfold sync_selects.
  now rewrite andb_true_r.
Qed.
End SyncReadPages.

Section Ordering.
Lemma insert_desc_sorted r l :
newest_first l -> newest_first (SyncSql.insert_desc r l).
Proof.
unfold newest_first. induction 1 as [|a l Hl IH Ha]; simpl.
- constructor; constructor.
- destruct (HealthData.timestamp a <=? HealthData.timestamp r) eqn:E.
  + constructor; [now constructor|].
    constructor; [lia|].
    eapply List.Forall_impl; [|exact Ha]. simpl. intros b Hb. lia.
  + constructor; [exact IH|].
    apply List.Forall_forall. intros b Hb.
    apply In_insert_desc in Hb. destruct Hb as [->|Hb]; [lia|].
    apply (proj1 (List.Forall_forall _ _) Ha b Hb).
Qed.

Lemma order_by_sorted l : newest_first (SyncSql.order_by_timestamp_desc l).
Proof.
induction l as [|r l IH]; simpl; [constructor|].
now apply insert_desc_sorted.
Qed.

Lemma newest_first_drop n l : newest_first l -> newest_first (drop n l).
Proof.
unfold newest_first. revert n. induction l as [|a l IH]; intros n H.
- now rewrite drop_nil.
- destruct n; [exact H|]. simpl. apply IH. now inversion H.
Qed.

Lemma newest_first_take n l : newest_first l -> newest_first (take n l).
Proof.
unfold newest_first. revert n. induction l as [|a l IH]; intros n H.
- now rewrite take_nil.
- destruct n; [constructor|]. simpl. inversion H; subst.
  constructor; [now apply IH|]. now apply Forall_take.
Qed.

Lemma length_insert_desc r l :
length (SyncSql.insert_desc r l) = S (length l).
Proof.
induction l as [|a l IH]; simpl; [reflexivity|].
destruct (_ <=? _); simpl; [reflexivity|now rewrite IH].
Qed.

Lemma length_order_by l :
length (SyncSql.order_by_timestamp_desc l) = length l.
Proof.
induction l as [|a l IH]; simpl; [reflexivity|].
now rewrite length_insert_desc, IH.
Qed.

Lemma In_insert_desc_iff r a l :
In r (SyncSql.insert_desc a l) <-> r = a \/ In r l.
Proof.
split; [apply In_insert_desc|].
induction l as [|b l IH]; simpl.
- intros [->|[]]. now left.
- destruct (_ <=? _); simpl.
  + intros [->|[->|H]]; auto.
  + intros [->|[->|H]]; auto.
Qed.

Lemma In_order_by_iff r l :
In r (SyncSql.order_by_timestamp_desc l) <-> In r l.
Proof.
induction l as [|a l IH]; simpl; [tauto|].
rewrite In_insert_desc_iff, IH. split; intros [H|H]; auto.
Qed.
End Ordering.

(** X12: the records of a sync read come newest first: of two records of
    the data array the earlier never has the smaller timestamp. *)
Theorem sync_read_newest_first (rt : Runtime) (w : World) (deviceId : string)
    (q : SyncData.query) (st : St) (body : SyncData.body) :
  fst (get_sync_data w deviceId q st) = Normal (Success body) ->
  newest_first (SyncData.data body).
Proof.
  intros H.
  destruct (get_sync_data w deviceId q st) as [out st'] eqn:E.
  simpl in H. subst out. apply get_sync_data_Success in E.
  destruct E as (device & l & o & all & _ & _ & _ & _ & _ & _ & -> & _).
  apply newest_first_take, newest_first_drop, order_by_sorted.
Qed.

(** X12 on the sample database: p1 reads the three records of w1, the
    newest first. *)
Lemma sync_read_newest_first_sample :
  exists body,
    fst (get_sync_data (rt := DecimalRuntime.runtime) Sample.quiet "p1"
           (Scenario.page (Some "1") None None) Scenario.populated)
      = Normal (Success body) /\
    map HealthData.timestamp (SyncData.data body)
      = [ Sample.now; Sample.now - 1000; Sample.now - 2000 ] /\
    newest_first (SyncData.data body).
Proof.
  eexists. split; [vm_compute; reflexivity|]. split; [reflexivity|].
  apply (sync_read_newest_first DecimalRuntime.runtime Sample.quiet "p1"
           (Scenario.page (Some "1") None None) Scenario.populated).
  vm_compute. reflexivity.
Defined.

(** X13: a successful sync read reports as limit the limit asked for
    (1000 without one), which lies between 1 and 1000, and as offset the
    offset asked for; the data array holds at most limit records and at
    most total records, and hasMore tells exactly whether offset plus the
    number of records returned is below total. *)
Theorem sync_read_page_bounds (rt : Runtime) (w : World) (deviceId : string)
    (q : SyncData.query) (st : St) (body : SyncData.body) :
  fst (get_sync_data w deviceId q st) = Normal (Success body) ->
  exists l o,
    SyncData.limitNum (SyncData.pagination_ body) = Some l /\
    SyncData.offsetNum (SyncData.pagination_ body) = Some o /\
    parseInt (param (SyncData.limit q) (JNum (num_of_Z 1000))) = Some l /\
    parseInt (param (SyncData.offset q) (JNum (num_of_Z 0))) = Some o /\
    1 <= l <= 1000 /\ 0 <= o /\
    Z.of_nat (length (SyncData.data body)) <= l /\
    (length (SyncData.data body)
       <= SyncData.total (SyncData.pagination_ body))%nat /\
    (SyncData.hasMore (SyncData.pagination_ body) = true <->
     o + Z.of_nat (length (SyncData.data body))
       < Z.of_nat (SyncData.total (SyncData.pagination_ body))).
Proof.
  intros H.
  destruct (get_sync_data w deviceId q st) as [out st'] eqn:E.
  simpl in H. subst out. apply get_sync_data_Success in E.
  destruct E as (device & l & o & all & _ & Hpl & Hpo & Hl & Ho & _
                 & Hdata & Htot & Hlim & Hoff & Hmore & _).
  exists l, o. rewrite Hlim, Hoff, Htot, Hmore.
  split; [reflexivity|]. split; [reflexivity|].
  split; [exact Hpl|]. split; [exact Hpo|].
  split; [exact Hl|]. split; [exact Ho|].
  split; [rewrite Hdata, length_take; lia|].
  split; [rewrite Hdata, length_take, length_drop, length_order_by; lia|].
  apply Z.ltb_lt.
Qed.

(** X13 on the sample database: a page of two of the three records. *)
Lemma sync_read_page_bounds_sample :
  exists body,
    fst (get_sync_data (rt := DecimalRuntime.runtime) Sample.quiet "p1"
           (Scenario.page (Some "1") (Some "2") None) Scenario.populated)
      = Normal (Success body) /\
    length (SyncData.data body) = 2%nat /\
    SyncData.total (SyncData.pagination_ body) = 3%nat /\
    SyncData.hasMore (SyncData.pagination_ body) = true.
Proof.
  eexists. split; [vm_compute; reflexivity|].
  split; [reflexivity|]. split; [reflexivity|].
  destruct (sync_read_page_bounds DecimalRuntime.runtime Sample.quiet "p1"
              (Scenario.page (Some "1") (Some "2") None) Scenario.populated _
              ltac:(vm_compute; reflexivity))
    as (l & o & Hl & Ho & _ & _ & _ & _ & _ & _ & Hmore).
  apply Hmore. simpl in Hl, Ho. injection Ho as <-. reflexivity.
Defined.
(** Every record a successful sync read returns is a stored row that
    the read selects. *)
Lemma sync_read_selected (rt : Runtime) (w : World) (deviceId : string)
    (q : SyncData.query) (st : St) (body : SyncData.body) :
  fst (get_sync_data w deviceId q st) = Normal (Success body) ->
  Forall (fun r => In r (health_data (db st)) /\
                   sync_selects deviceId (SyncData.lastSyncTimestamp body)
                     (SyncData.until q) (SyncData.dataType q) r = true)
    (SyncData.data body).
Proof.
  intros H.
  destruct (get_sync_data w deviceId q st) as [out st'] eqn:E.
  simpl in H. subst out. apply get_sync_data_Success in E.
  destruct E as (device & l & o & all & _ & _ & _ & Hl & Ho & Hall
                 & Hdata & Htot & _ & Hoff & Hmore & Hsince).
  rewrite Hsince, Hdata. apply List.Forall_forall. intros r Hr.
  apply list_elem_of_In in Hr.
  apply (subseteq_take (Z.to_nat l)), (subseteq_drop (Z.to_nat o)) in Hr.
  apply list_elem_of_In in Hr. apply In_order_by in Hr.
  rewrite Hall in Hr. apply List.filter_In in Hr. exact Hr.
Qed.


(** X14: a successful sync read selects the rows of the other devices
    that are newer than the watermark it reports (when that is positive),
    not newer than until and of the data type asked for: total is their
    number, every record returned is one of them, and when the offset is 0
    and hasMore is false every one of them is returned. *)
Theorem sync_read_selects (rt : Runtime) (w : World) (deviceId : string)
    (q : SyncData.query) (st : St) (body : SyncData.body) :
  fst (get_sync_data w deviceId q st) = Normal (Success body) ->
  let selected :=
    sync_selects deviceId (SyncData.lastSyncTimestamp body) (SyncData.until q)
      (SyncData.dataType q) in
  SyncData.total (SyncData.pagination_ body)
    = length (List.filter selected (health_data (db st))) /\
  Forall (fun r => In r (health_data (db st)) /\ selected r = true)
    (SyncData.data body) /\
  (SyncData.offsetNum (SyncData.pagination_ body) = Some 0 ->
   SyncData.hasMore (SyncData.pagination_ body) = false ->
   forall r, In r (health_data (db st)) -> selected r = true ->
             In r (SyncData.data body)).
Proof.
  intros H. pose proof (sync_read_selected rt w deviceId q st body H) as Hin.
  destruct (get_sync_data w deviceId q st) as [out st'] eqn:E.
  simpl in H. subst out. apply get_sync_data_Success in E.
  destruct E as (device & l & o & all & _ & _ & _ & Hl & Ho & Hall
                 & Hdata & Htot & _ & Hoff & Hmore & Hsince).
  simpl. rewrite Hsince in Hin |- *. rewrite <- Hall.
  split; [exact Htot|]. split; [exact Hin|]. clear Hin.
  rewrite Hoff, Hmore. intros [= ->] Hfull r Hin Hsel.
  apply Z.ltb_ge in Hfull.
  assert (Hlen : (length all <= length (SyncData.data body))%nat) by lia.
  rewrite Hdata in *. change (Z.to_nat 0) with 0%nat in *.
  rewrite drop_0 in *.
  rewrite length_take, length_order_by in Hlen.
  rewrite take_ge by (rewrite length_order_by; lia).
  apply In_order_by_iff. rewrite Hall. apply List.filter_In. auto.
Qed.

(** X14 on the sample database: p1 reads since the oldest record of w1,
    which is thereby left out, as is the record of p1 itself. *)
Lemma sync_read_selects_sample :
  exists body,
    fst (get_sync_data (rt := DecimalRuntime.runtime) Sample.quiet "p1"
           (Scenario.page (Some "1699999998000") None None) Scenario.populated)
      = Normal (Success body) /\
    SyncData.total (SyncData.pagination_ body) = 2%nat /\
    map HealthData.timestamp (SyncData.data body)
      = [ Sample.now; Sample.now - 1000 ].
Proof.
  eexists. split; [vm_compute; reflexivity|]. split; [|reflexivity].
  destruct (sync_read_selects DecimalRuntime.runtime Sample.quiet "p1"
              (Scenario.page (Some "1699999998000") None None)
              Scenario.populated _ ltac:(vm_compute; reflexivity))
    as (Htot & _ & _).
  rewrite Htot. vm_compute. reflexivity.
Defined.

(** X15: total does not depend on limit and offset: two successful sync
    reads of one device on one database that agree on since, until and
    dataType report the same total and the same watermark. *)
Theorem sync_read_total_independent (rt : Runtime) (w1 w2 : World)
    (deviceId : string) (q1 q2 : SyncData.query) (st1 st2 : St)
    (body1 body2 : SyncData.body) :
  db st1 = db st2 ->
  SyncData.since q1 = SyncData.since q2 ->
  SyncData.until q1 = SyncData.until q2 ->
  SyncData.dataType q1 = SyncData.dataType q2 ->
  fst (get_sync_data w1 deviceId q1 st1) = Normal (Success body1) ->
  fst (get_sync_data w2 deviceId q2 st2) = Normal (Success body2) ->
  SyncData.total (SyncData.pagination_ body1)
    = SyncData.total (SyncData.pagination_ body2) /\
  SyncData.lastSyncTimestamp body1 = SyncData.lastSyncTimestamp body2.
Proof.
  intros Hdb Hs Hu Hd H1 H2.
  destruct (get_sync_data w1 deviceId q1 st1) as [out1 st1'] eqn:E1.
  destruct (get_sync_data w2 deviceId q2 st2) as [out2 st2'] eqn:E2.
  simpl in H1, H2. subst out1 out2.
  apply get_sync_data_Success in E1, E2.
  destruct E1 as (d1 & l1 & o1 & all1 & Hd1 & _ & _ & _ & _ & Hall1
                  & _ & Ht1 & _ & _ & _ & Hs1).
  destruct E2 as (d2 & l2 & o2 & all2 & Hd2 & _ & _ & _ & _ & Hall2
                  & _ & Ht2 & _ & _ & _ & Hs2).
  rewrite Hdb, Hd2 in Hd1. injection Hd1 as <-.
  assert (Hsince : sync_since q1 d2 = sync_since q2 d2)
    by (unfold sync_since; now rewrite Hs).
  rewrite Ht1, Ht2, Hs1, Hs2, Hall1, Hall2, Hdb, Hsince, Hu, Hd. auto.
Qed.

(** X15 on the sample database: a page of one record after the first and
    the full read agree on total 3. *)
Lemma sync_read_total_independent_sample :
  exists body1 body2,
    fst (get_sync_data (rt := DecimalRuntime.runtime) Sample.quiet "p1"
           (Scenario.page (Some "1") (Some "1") (Some "1")) Scenario.populated)
      = Normal (Success body1) /\
    fst (get_sync_data (rt := DecimalRuntime.runtime) Sample.quiet "p1"
           (Scenario.page (Some "1") None None) Scenario.populated)
      = Normal (Success body2) /\
    length (SyncData.data body1) = 1%nat /\
    SyncData.total (SyncData.pagination_ body1)
      = SyncData.total (SyncData.pagination_ body2).
Proof.
  eexists _, _. split; [vm_compute; reflexivity|].
  split; [vm_compute; reflexivity|]. split; [reflexivity|].
  apply (sync_read_total_independent DecimalRuntime.runtime Sample.quiet
           Sample.quiet "p1"
           (Scenario.page (Some "1") (Some "1") (Some "1"))
           (Scenario.page (Some "1") None None)
           Scenario.populated Scenario.populated);
    try reflexivity; vm_compute; reflexivity.
Defined.

(** X16: a sync read without a since parameter takes the stored cursor of
    the requesting device for watermark: it reports that cursor as
    lastSyncTimestamp and, when the cursor is positive, returns only
    records newer than it. *)
Theorem sync_read_from_cursor (rt : Runtime) (w : World) (deviceId : string)
    (q : SyncData.query) (st : St) (body : SyncData.body) :
  SyncData.since q = None ->
  fst (get_sync_data w deviceId q st) = Normal (Success body) ->
  SyncData.lastSyncTimestamp body = lastSyncCursor (db st) deviceId /\
  (forall c, lastSyncCursor (db st) deviceId = Some c -> 0 < c ->
     Forall (fun r => c < HealthData.timestamp r) (SyncData.data body)).
Proof.
  intros Hnone H.
  pose proof (sync_read_selected rt w deviceId q st body H) as Hsel.
  destruct (get_sync_data w deviceId q st) as [out st'] eqn:E.
  simpl in H. subst out. apply get_sync_data_Success in E.
  destruct E as (device & l & o & all & Hdev & _ & _ & _ & _ & _
                 & _ & _ & _ & _ & _ & Hsince).
  assert (Hcur : SyncData.lastSyncTimestamp body = lastSyncCursor (db st) deviceId).
  { rewrite Hsince. unfold sync_since, lastSyncCursor. now rewrite Hnone, Hdev. }
  split; [exact Hcur|]. intros c Hc Hpos.
  eapply List.Forall_impl; [|exact Hsel]. intros r [_ Hr].
  rewrite Hcur, Hc in Hr. unfold sync_selects in Hr.
  replace (c >? 0) with true in Hr by lia.
  apply andb_true_iff in Hr. destruct Hr as [Hr _].
  apply andb_true_iff in Hr. destruct Hr as [Hr _].
  apply andb_true_iff in Hr. destruct Hr as [_ Hr]. lia.
Qed.

(** X16 on the sample database: the cursor of p1 is the timestamp of its
    own record, and its read without since returns the three newer
    records of w1. *)
Lemma sync_read_from_cursor_sample :
  exists body,
    fst (get_sync_data (rt := DecimalRuntime.runtime) Sample.quiet "p1"
           (Scenario.page None None None) Scenario.populated)
      = Normal (Success body) /\
    SyncData.lastSyncTimestamp body = Some (Sample.now - 5000) /\
    length (SyncData.data body) = 3%nat.
Proof.
  eexists. split; [vm_compute; reflexivity|]. split; [|reflexivity].
  destruct (sync_read_from_cursor DecimalRuntime.runtime Sample.quiet "p1"
              (Scenario.page None None None) Scenario.populated _ eq_refl
              ltac:(vm_compute; reflexivity)) as [Hcur _].
  rewrite Hcur. vm_compute. reflexivity.
Defined.

(** ** The cursor update *)

(** X17: for a timestamp that converts to a string. When the cursor
    update succeeds, the value it answers with is the integer read from
    the timestamp sent, the device was known, and that integer is now the
    cursor of the device, whatever the cursor was before, a later one
    included; an unknown device gets status 404 and a timestamp that is no
    number status 400. *)
Theorem cursor_update_effect (rt : Runtime) (w : World)
    (deviceId : string) (timestamp : jsval) (st : St) :
  converts_to_string timestamp = true ->
  (forall timestampNum,
     fst (put_sync_timestamp w deviceId timestamp st)
       = Normal (Success timestampNum) ->
     parseInt timestamp = Some timestampNum /\
     is_Some (devices (db st) !! deviceId) /\
     lastSyncCursor (db (snd (put_sync_timestamp w deviceId timestamp st)))
       deviceId = Some timestampNum) /\
  (parseInt timestamp = None ->
   put_sync_timestamp w deviceId timestamp st
     = (Normal (Failure 400 "Valid timestamp is required"), st)) /\
  (forall timestampNum, parseInt timestamp = Some timestampNum ->
   truthy timestamp = true ->
   devices (db st) !! deviceId = None -> fault w (nstmt st) = false ->
   fst (put_sync_timestamp w deviceId timestamp st)
     = Normal (Failure 404 "Device not found")).
Proof.
  intros _. split; [|split].
  - intros t. unfold put_sync_timestamp, try_catch, bind, getRow, runQuery.
    destruct (parseInt timestamp) as [timestampNum|]; [|discriminate].
    destruct (negb (truthy timestamp)); [discriminate|].
    destruct (fault w (nstmt st)); [discriminate|].
    cbn. destruct (devices (db st) !! deviceId) as [device|] eqn:Hd;
      [|discriminate].
    cbn. destruct (fault w (S (nstmt st))); [discriminate|].
    cbn. intros [= <-]. split; [reflexivity|]. split; [eauto|].
    unfold lastSyncCursor. cbn. now rewrite lookup_alter_eq, Hd.
  - intros Hp. unfold put_sync_timestamp, try_catch. now rewrite Hp.
  - intros t Hp Ht Hd F0.
    unfold put_sync_timestamp, try_catch, bind, getRow.
    rewrite Hp, Ht. cbn. rewrite F0. cbn. now rewrite Hd.
Qed.

(** X17 on the sample database: the cursor of w1 is moved back from
    1700000000000 to 12345. *)
Lemma cursor_update_effect_sample :
  lastSyncCursor (db Sample.after_first) "w1" = Some 1700000000000 /\
  lastSyncCursor
    (db (snd (put_sync_timestamp (rt := DecimalRuntime.runtime) Sample.quiet
                "w1" (JStr "12345") Sample.after_first))) "w1" = Some 12345.
Proof.
  split; [vm_compute; reflexivity|].
  apply (proj1 (cursor_update_effect DecimalRuntime.runtime Sample.quiet
                  "w1" (JStr "12345") Sample.after_first eq_refl) 12345).
  vm_compute. reflexivity.
Defined.

(** X18: whatever it answers, the cursor update leaves the health
    records and the sessions alone and keeps every device, with its name,
    type, activity flag, metadata and creation time, the other devices
    whole; when it answers with an error the database is unchanged. *)
Theorem put_sync_timestamp_frame (rt : Runtime) (w : World)
    (deviceId : string) (timestamp : jsval) (st : St) :
  health_data (db (snd (put_sync_timestamp w deviceId timestamp st)))
    = health_data (db st) /\
  registry_kept (Some deviceId) (db st)
    (db (snd (put_sync_timestamp w deviceId timestamp st))) /\
  (forall code error,
     fst (put_sync_timestamp w deviceId timestamp st)
       = Normal (Failure code error) ->
     db (snd (put_sync_timestamp w deviceId timestamp st)) = db st).
Proof.
  assert (Same : forall (out : completion (response Z)) st',
             db st' = db st ->
             health_data (db st') = health_data (db st) /\
             registry_kept (Some deviceId) (db st) (db st') /\
             (forall code error,
                out = Normal (Failure code error) -> db st' = db st)).
  { intros out st' ->. split; [reflexivity|].
    split; [apply registry_kept_refl|reflexivity]. }
  unfold put_sync_timestamp, try_catch, bind, getRow, runQuery.
  destruct (parseInt timestamp) as [timestampNum|]; [|now apply Same].
  destruct (negb (truthy timestamp)); [now apply Same|].
  destruct (fault w (nstmt st)); [now apply Same|].
  simpl. destruct (devices (db st) !! deviceId) as [device|] eqn:Hd;
    [|now apply Same].
  simpl. destruct (fault w (S (nstmt st))); [now apply Same|].
  simpl. split; [reflexivity|]. split; [|discriminate].
  apply registry_kept_alter. intros r. repeat split.
Qed.

(** ** Sessions *)

(** X19: starting a session either creates exactly one session, keyed by
    the fresh id, of the named device and of the type asked for (http
    without one), with status started, no record synced, no end time and
    no error message, and changes nothing else, or it answers with an
    error and leaves the database unchanged. *)
Theorem start_session_effect (w : World) (uuid : string)
    (req : Start.request) (st : St) :
  (forall body,
     fst (post_sync_start w uuid req st) = Normal (Success body) ->
     Start.sessionId body = uuid /\
     Start.syncType_ body = default "http"%string (Start.syncType req) /\
     exists deviceId,
       Start.deviceId req = Some deviceId /\
       is_Some (devices (db st) !! deviceId) /\
       sync_sessions (db st) !! uuid = None /\
       db (snd (post_sync_start w uuid req st))
         = {| devices := devices (db st);
              health_data := health_data (db st);
              sync_sessions :=
                <[ uuid := {| SyncSessions.device_id := deviceId;
                              SyncSessions.sync_type :=
                                default "http"%string (Start.syncType req);
                              SyncSessions.status := SyncSessions.started;
                              SyncSessions.records_synced := 0;
                              SyncSessions.start_time :=
                                CURRENT_TIMESTAMP w (S (nstmt st));
                              SyncSessions.end_time := None;
                              SyncSessions.error_message := None |} ]>
                  (sync_sessions (db st)) |}) /\
  (forall code error,
     fst (post_sync_start w uuid req st) = Normal (Failure code error) ->
     db (snd (post_sync_start w uuid req st)) = db st).
Proof.
  unfold post_sync_start, try_catch, bind, getRow, runQuery. cbv zeta.
  set (syncType := default "http"%string (Start.syncType req)).
  destruct (Start.deviceId req) as [deviceId|];
    [|simpl; split; [discriminate|auto]].
  destruct (negb (truthy (js_of (Some deviceId))));
    [simpl; split; [discriminate|auto]|].
  change (default EmptyString (Some deviceId)) with deviceId.
  destruct (includes [ "http"; "bluetooth" ]%string syncType) eqn:Hty;
    [|simpl; split; [discriminate|auto]].
  cbn -[includes DeviceSql.insert_session].
  destruct (fault w (nstmt st));
    [simpl; split; [discriminate|auto]|].
  cbn -[includes DeviceSql.insert_session].
  destruct (devices (db st) !! deviceId) as [device|] eqn:Hd;
    [|simpl; split; [discriminate|auto]].
  cbn -[includes DeviceSql.insert_session].
  destruct (fault w (S (nstmt st))); [simpl; split; [discriminate|auto]|].
  unfold DeviceSql.insert_session. rewrite Hty, Hd.
  cbn -[includes].
  destruct (sync_sessions (db st) !! uuid) eqn:Hs;
    [simpl; split; [discriminate|auto]|].
  cbn -[includes]. split; [|discriminate].
  intros body [= <-]. cbn [Start.sessionId Start.syncType_].
  split; [reflexivity|]. split; [reflexivity|].
  exists deviceId. split; [reflexivity|]. split; [eauto|].
  split; reflexivity.
Qed.

(** X19 on the sample database: a session u1 of w1 is started. *)
Lemma start_session_effect_sample :
  sync_sessions
    (db (snd (post_sync_start Sample.quiet "u1" Scenario.start_w1
                Sample.after_first))) !! "u1"%string
  = Some {| SyncSessions.device_id := "w1";
            SyncSessions.sync_type := "http";
            SyncSessions.status := SyncSessions.started;
            SyncSessions.records_synced := 0;
            SyncSessions.start_time := 1700000000;
            SyncSessions.end_time := None;
            SyncSessions.error_message := None |}.
Proof.
  destruct (proj1 (start_session_effect Sample.quiet
                     "u1" Scenario.start_w1 Sample.after_first)
              {| Start.sessionId := "u1"; Start.syncType_ := "http" |})
    as (_ & _ & deviceId & Hid & _ & _ & Hdb); [vm_compute; reflexivity|].
  rewrite Hdb. simpl. rewrite lookup_insert_eq.
  injection Hid as <-. reflexivity.
Defined.

(** What a successful start does, from its preconditions. *)
Lemma post_sync_start_Success (w : World)
    (uuid deviceId : string) (req : Start.request) (st : St) :
  Start.deviceId req = Some deviceId ->
  deviceId <> EmptyString ->
  includes [ "http"; "bluetooth" ]%string
    (default "http"%string (Start.syncType req)) = true ->
  is_Some (devices (db st) !! deviceId) ->
  sync_sessions (db st) !! uuid = None ->
  fault w (nstmt st) = false ->
  fault w (S (nstmt st)) = false ->
  post_sync_start w uuid req st
  = (Normal (Success {| Start.sessionId := uuid;
                        Start.syncType_ :=
                          default "http"%string (Start.syncType req) |}),
     {| db := {| devices := devices (db st);
                 health_data := health_data (db st);
                 sync_sessions :=
                   <[ uuid := {| SyncSessions.device_id := deviceId;
                                 SyncSessions.sync_type :=
                                   default "http"%string (Start.syncType req);
                                 SyncSessions.status := SyncSessions.started;
                                 SyncSessions.records_synced := 0;
                                 SyncSessions.start_time :=
                                   CURRENT_TIMESTAMP w (S (nstmt st));
                                 SyncSessions.end_time := None;
                                 SyncSessions.error_message := None |} ]>
                     (sync_sessions (db st)) |};
        nstmt := S (S (nstmt st)) |}).
Proof.
  intros Hid Hne Hty [device Hd] Hs F0 F1.
  unfold post_sync_start, try_catch, bind, getRow, runQuery. cbv zeta.
  rewrite Hid. cbn [js_of truthy default].
  apply String.eqb_neq in Hne. rewrite Hne, Hty.
  cbn -[includes DeviceSql.insert_session].
  rewrite F0. cbn -[includes DeviceSql.insert_session].
  rewrite Hd. cbn -[includes DeviceSql.insert_session].
  rewrite F1. unfold DeviceSql.insert_session. rewrite Hty, Hs, Hd.
  reflexivity.
Qed.

(** X20: the life of a session. On a known device, with a fresh session
    id, a start followed by a completion followed by a second completion
    with the same body: the start succeeds, the first completion succeeds
    with a final status (completed or failed), and the second is refused
    with status 400, naming that final status, and changes nothing; the
    session keeps the device, the type and the start time of the start
    and the count and the end time of the first completion. *)
Theorem session_lifecycle (w : World)
    (uuid deviceId : string) (start : Start.request)
    (finish : Complete.request) (st : St) :
  Start.deviceId start = Some deviceId ->
  deviceId <> EmptyString ->
  includes [ "http"; "bluetooth" ]%string
    (default "http"%string (Start.syncType start)) = true ->
  is_Some (devices (db st) !! deviceId) ->
  sync_sessions (db st) !! uuid = None ->
  uuid <> EmptyString ->
  Complete.sessionId finish = Some uuid ->
  (forall k, (k < 5)%nat -> fault w (nstmt st + k) = false) ->
  let st1 := snd (post_sync_start w uuid start st) in
  let st2 := snd (post_sync_complete w finish st1) in
  let st3 := snd (post_sync_complete w finish st2) in
  exists status,
    status <> SyncSessions.started /\
    fst (post_sync_complete w finish st1)
      = Normal (Success
          {| Complete.status := status;
             Complete.recordsSynced_ :=
               default 0 (Complete.recordsSynced finish) |}) /\
    fst (post_sync_complete w finish st2)
      = Normal (Failure 400
          ("Cannot complete session with status: " ++ status_text status)) /\
    db st3 = db st2 /\
    sync_sessions (db st2) !! uuid
      = Some {| SyncSessions.device_id := deviceId;
                SyncSessions.sync_type :=
                  default "http"%string (Start.syncType start);
                SyncSessions.status := status;
                SyncSessions.records_synced :=
                  default 0 (Complete.recordsSynced finish);
                SyncSessions.start_time :=
                  CURRENT_TIMESTAMP w (S (nstmt st));
                SyncSessions.end_time :=
                  Some (CURRENT_TIMESTAMP w (S (S (S (nstmt st)))));
                SyncSessions.error_message :=
                  or_null (js_of (Complete.errorMessage finish)) |}.
Proof.
  intros Hid Hne Hty Hd Hs Hu Hf F.
  assert (F0 : fault w (nstmt st) = false)
    by (rewrite <- (Nat.add_0_r (nstmt st)); apply F; lia).
  assert (F1 : fault w (S (nstmt st)) = false)
    by (replace (S (nstmt st)) with (nstmt st + 1)%nat by lia; apply F; lia).
  assert (F2 : fault w (S (S (nstmt st))) = false)
    by (replace (S (S (nstmt st))) with (nstmt st + 2)%nat by lia;
        apply F; lia).
  assert (F3 : fault w (S (S (S (nstmt st)))) = false)
    by (replace (S (S (S (nstmt st)))) with (nstmt st + 3)%nat by lia;
        apply F; lia).
  assert (F4 : fault w (S (S (S (S (nstmt st))))) = false)
    by (replace (S (S (S (S (nstmt st))))) with (nstmt st + 4)%nat by lia;
        apply F; lia).
  intros st1 st2 st3. subst st3 st2 st1.
  rewrite (post_sync_start_Success w uuid deviceId start st) by assumption.
  apply String.eqb_neq in Hu.
  cbn [snd].
  set (status := if truthy (js_of (Complete.errorMessage finish))
                 then SyncSessions.failed else SyncSessions.completed).
  assert (Hone : post_sync_complete w finish
            {| db := {| devices := devices (db st);
                 health_data := health_data (db st);
                 sync_sessions :=
                   <[ uuid := {| SyncSessions.device_id := deviceId;
                                 SyncSessions.sync_type :=
                                   default "http"%string (Start.syncType start);
                                 SyncSessions.status := SyncSessions.started;
                                 SyncSessions.records_synced := 0;
                                 SyncSessions.start_time :=
                                   CURRENT_TIMESTAMP w (S (nstmt st));
                                 SyncSessions.end_time := None;
                                 SyncSessions.error_message := None |} ]>
                     (sync_sessions (db st)) |};
               nstmt := S (S (nstmt st)) |}
          = (Normal (Success
               {| Complete.status := status;
                  Complete.recordsSynced_ :=
                    default 0 (Complete.recordsSynced finish) |}),
             {| db := {| devices := devices (db st);
                  health_data := health_data (db st);
                  sync_sessions :=
                    <[ uuid := {| SyncSessions.device_id := deviceId;
                         SyncSessions.sync_type :=
                           default "http"%string (Start.syncType start);
                         SyncSessions.status := status;
                         SyncSessions.records_synced :=
                           default 0 (Complete.recordsSynced finish);
                         SyncSessions.start_time :=
                           CURRENT_TIMESTAMP w (S (nstmt st));
                         SyncSessions.end_time :=
                           Some (CURRENT_TIMESTAMP w (S (S (S (nstmt st)))));
                         SyncSessions.error_message :=
                           or_null (js_of (Complete.errorMessage finish)) |} ]>
                      (sync_sessions (db st)) |};
                nstmt := S (S (S (S (nstmt st)))) |})).
  { unfold post_sync_complete, try_catch, bind, getRow, runQuery.
    rewrite Hf, Hu. cbn [db nstmt]. rewrite F2.
    unfold SyncSql.select_session. cbn [db nstmt sync_sessions].
    rewrite lookup_insert_eq. cbn [SyncSessions.status db nstmt].
    rewrite F3. unfold SyncSql.update_session.
    cbn [db nstmt sync_sessions devices health_data ret].
    rewrite alter_insert_eq. reflexivity. }
  rewrite Hone. cbn [fst snd].
  assert (Hst : status <> SyncSessions.started)
    by (subst status; destruct (truthy _); discriminate).
  exists status. split; [exact Hst|]. split; [reflexivity|].
  unfold post_sync_complete, try_catch, bind, getRow, runQuery.
  rewrite Hf, Hu. cbn [db nstmt]. rewrite F4.
  unfold SyncSql.select_session. cbn [db nstmt sync_sessions].
  rewrite lookup_insert_eq. cbn [SyncSessions.status].
  destruct status; [congruence| |];
    (split; [reflexivity|]; split; reflexivity).
Qed.

(** X20 on the sample database: session u1 of w1 is started, completed
    with three records, and cannot be completed again. *)
Lemma session_lifecycle_sample :
  exists status,
    status <> SyncSessions.started /\
    fst (post_sync_complete Sample.quiet Scenario.complete_u1
           (snd (post_sync_start Sample.quiet
                   "u1" Scenario.start_w1 Sample.after_first)))
      = Normal (Success {| Complete.status := status;
                           Complete.recordsSynced_ := 3 |}) /\
    fst (post_sync_complete Sample.quiet Scenario.complete_u1
           (snd (post_sync_complete Sample.quiet Scenario.complete_u1
                   (snd (post_sync_start
                           Sample.quiet "u1" Scenario.start_w1
                           Sample.after_first)))))
      = Normal (Failure 400
          ("Cannot complete session with status: " ++ status_text status)).
Proof.
  destruct (session_lifecycle Sample.quiet "u1" "w1"
              Scenario.start_w1 Scenario.complete_u1 Sample.after_first)
    as (status & Hst & Hone & Htwo & _); try reflexivity.
  - discriminate.
  - vm_compute. eauto.
  - discriminate.
  - exists status. split; [exact Hst|]. split; [exact Hone|exact Htwo].
Defined.

(** ** Registration *)

(** A valid registration carries three strings, the type one of the two
    the table admits. *)
Lemma validateDeviceRegistration_Valid (deviceId deviceName deviceType : jsval) :
  validateDeviceRegistration deviceId deviceName deviceType = Valid ->
  exists id name type,
    deviceId = JStr id /\ deviceName = JStr name /\ deviceType = JStr type /\
    includes [ "wearos"; "ios" ]%string type = true.
Proof.
  unfold validateDeviceRegistration. intros H.
  destruct deviceId as [| | | |id| |];
    try (simpl in H; rewrite ?orb_true_r in H; simpl in H; discriminate).
  destruct deviceName as [| | | |name| |];
    try (simpl in H; rewrite ?orb_true_r in H; simpl in H;
         destruct (_ || _) in H; discriminate).
  match type of H with (if ?c then _ else _) = _ =>
    destruct c; [discriminate|] end.
  match type of H with (if ?c then _ else _) = _ =>
    destruct c; [discriminate|] end.
  match type of H with (if ?c then _ else _) = _ =>
    destruct c eqn:E3; [discriminate|] end.
  apply orb_false_iff in E3. destruct E3 as [_ E3].
  apply negb_false_iff in E3.
  destruct deviceType as [| | | |type| |]; try discriminate.
  exists id, name, type. auto.
Qed.

(** The two successful runs of a registration. *)
Lemma post_sync_register_existing (w : World) (req : Register.request)
    (st : St) (id name type : string) (r : Devices.row) :
  Register.deviceId req = JStr id ->
  Register.deviceName req = JStr name ->
  Register.deviceType req = JStr type ->
  validateDeviceRegistration (JStr id) (JStr name) (JStr type) = Valid ->
  devices (db st) !! id = Some r ->
  fault w (nstmt st) = false ->
  fault w (S (nstmt st)) = false ->
  post_sync_register w req st
  = (Normal (Success
       {| Register.status := 200;
          Register.message := "Device updated successfully";
          Register.device_ :=
            {| Register.id := id; Register.name := name;
               Register.type := type;
               Register.lastSyncTimestamp :=
                 Devices.last_sync_timestamp r |} |}),
     {| db := Sql.with_devices (db st)
                (<[ id := {| Devices.name := name;
                             Devices.type := type;
                             Devices.last_seen :=
                               CURRENT_TIMESTAMP w (S (nstmt st));
                             Devices.last_sync_timestamp :=
                               Devices.last_sync_timestamp r;
                             Devices.is_active := true;
                             Devices.metadata :=
                               if truthy (Register.metadata req)
                               then Register.metadata req else JObj [];
                             Devices.created_at := Devices.created_at r;
                             Devices.updated_at :=
                               CURRENT_TIMESTAMP w (S (nstmt st)) |} ]>
                   (devices (db st)));
        nstmt := S (S (nstmt st)) |}).
Proof.
  intros Hi Hn Ht Hv Hd F0 F1.
  destruct (validateDeviceRegistration_Valid _ _ _ Hv)
    as (id' & name' & type' & [= <-] & [= <-] & [= <-] & Hty).
  unfold post_sync_register, try_catch, bind, getRow, runQuery. cbv zeta.
  rewrite Hi, Hn, Ht, Hv, F0. unfold Sql.select_device.
  cbn [db nstmt]. rewrite Hd. cbn [db nstmt]. rewrite F1.
  unfold DeviceSql.update_device. cbn [db nstmt]. rewrite Hd, Hty.
  reflexivity.
Qed.

Lemma post_sync_register_new (w : World) (req : Register.request)
    (st : St) (id name type : string) :
  Register.deviceId req = JStr id ->
  Register.deviceName req = JStr name ->
  Register.deviceType req = JStr type ->
  validateDeviceRegistration (JStr id) (JStr name) (JStr type) = Valid ->
  devices (db st) !! id = None ->
  fault w (nstmt st) = false ->
  fault w (S (nstmt st)) = false ->
  post_sync_register w req st
  = (Normal (Success
       {| Register.status := 201;
          Register.message := "Device registered successfully";
          Register.device_ :=
            {| Register.id := id; Register.name := name;
               Register.type := type;
               Register.lastSyncTimestamp := Some 0 |} |}),
     {| db := Sql.with_devices (db st)
                (<[ id := {| Devices.name := name;
                             Devices.type := type;
                             Devices.last_seen :=
                               CURRENT_TIMESTAMP w (S (nstmt st));
                             Devices.last_sync_timestamp := Some 0;
                             Devices.is_active := true;
                             Devices.metadata :=
                               if truthy (Register.metadata req)
                               then Register.metadata req else JObj [];
                             Devices.created_at :=
                               CURRENT_TIMESTAMP w (S (nstmt st));
                             Devices.updated_at :=
                               CURRENT_TIMESTAMP w (S (nstmt st)) |} ]>
                   (devices (db st)));
        nstmt := S (S (nstmt st)) |}).
Proof.
  intros Hi Hn Ht Hv Hd F0 F1.
  destruct (validateDeviceRegistration_Valid _ _ _ Hv)
    as (id' & name' & type' & [= <-] & [= <-] & [= <-] & Hty).
  unfold post_sync_register, try_catch, bind, getRow, runQuery. cbv zeta.
  rewrite Hi, Hn, Ht, Hv, F0. unfold Sql.select_device.
  cbn [db nstmt]. rewrite Hd. cbn [db nstmt]. rewrite F1.
  unfold Sql.insert_device. cbn [db nstmt]. rewrite Hd, Hty.
  reflexivity.
Qed.

(** X21: a valid registration, when no statement fails, always succeeds.
    An unknown device is created, active, with cursor 0, and the answer
    has status 201 and cursor 0; a known device takes the new name and
    type and becomes active, keeps its cursor and its creation time, and
    the answer has status 200 and the cursor kept. In both cases the
    other devices, the health records and the sessions are untouched. *)
Theorem register_device (w : World) (req : Register.request) (st : St)
    (id name type : string) :
  Register.deviceId req = JStr id ->
  Register.deviceName req = JStr name ->
  Register.deviceType req = JStr type ->
  validateDeviceRegistration (JStr id) (JStr name) (JStr type) = Valid ->
  fault w (nstmt st) = false ->
  fault w (S (nstmt st)) = false ->
  exists body r',
    fst (post_sync_register w req st) = Normal (Success body) /\
    Register.device_ body
      = {| Register.id := id; Register.name := name; Register.type := type;
           Register.lastSyncTimestamp := Devices.last_sync_timestamp r' |} /\
    devices (db (snd (post_sync_register w req st))) !! id = Some r' /\
    Devices.name r' = name /\ Devices.type r' = type /\
    Devices.is_active r' = true /\
    match devices (db st) !! id with
    | Some r =>
        Register.status body = 200%nat /\
        Devices.last_sync_timestamp r' = Devices.last_sync_timestamp r /\
        Devices.created_at r' = Devices.created_at r
    | None =>
        Register.status body = 201%nat /\
        Devices.last_sync_timestamp r' = Some 0
    end /\
    (forall other, other <> id ->
       devices (db (snd (post_sync_register w req st))) !! other
         = devices (db st) !! other) /\
    health_data (db (snd (post_sync_register w req st)))
      = health_data (db st) /\
    sync_sessions (db (snd (post_sync_register w req st)))
      = sync_sessions (db st).
Proof.
  intros Hi Hn Ht Hv F0 F1.
  destruct (devices (db st) !! id) as [r|] eqn:Hd.
  - rewrite (post_sync_register_existing w req st id name type r)
      by assumption.
    cbn [fst snd db].
    match goal with |- context [<[ id := ?x ]> _] => eexists _, x end.
    split; [reflexivity|].
    unfold Sql.with_devices. cbn [devices health_data sync_sessions].
    rewrite lookup_insert_eq.
    split; [reflexivity|]. split; [reflexivity|].
    cbn. do 3 (split; [reflexivity|]). split; [repeat split|].
    split; [|split; reflexivity].
    intros other Ho. now rewrite lookup_insert_ne.
  - rewrite (post_sync_register_new w req st id name type) by assumption.
    cbn [fst snd db].
    match goal with |- context [<[ id := ?x ]> _] => eexists _, x end.
    split; [reflexivity|].
    unfold Sql.with_devices. cbn [devices health_data sync_sessions].
    rewrite lookup_insert_eq.
    split; [reflexivity|]. split; [reflexivity|].
    cbn. do 3 (split; [reflexivity|]). split; [repeat split|].
    split; [|split; reflexivity].
    intros other Ho. now rewrite lookup_insert_ne.
Qed.

(** X21 on the sample database: w1, known with cursor 1700000000000, is
    registered again under a new name. *)
Lemma register_device_sample :
  exists body,
    fst (post_sync_register Sample.quiet Scenario.register_w1
           Sample.after_first) = Normal (Success body) /\
    Register.device_ body
      = {| Register.id := "w1"; Register.name := "Galaxy Watch";
           Register.type := "wearos";
           Register.lastSyncTimestamp := Some 1700000000000 |} /\
    Register.status body = 200%nat.
Proof.
  destruct (register_device Sample.quiet Scenario.register_w1
              Sample.after_first "w1" "Galaxy Watch" "wearos")
    as (body & r' & Hout & Hdev & _ & _ & _ & _ & Hcase & _);
    try reflexivity.
  exists body. split; [exact Hout|].
  vm_compute in Hcase. destruct Hcase as (Hs & Hc & _).
  change (Devices.last_sync_timestamp r' = Some 1700000000000) in Hc.
  change (Register.status body = 200%nat) in Hs.
  rewrite Hdev, Hc. split; [reflexivity|exact Hs].
Defined.

(** X22: a registration that answers with an error changes nothing; when
    the body is not valid the answer is status 400 with the message of
    the validation, and no statement is run. *)
Theorem register_rejected (w : World) (req : Register.request) (st : St) :
  (forall error,
     validateDeviceRegistration (Register.deviceId req)
       (Register.deviceName req) (Register.deviceType req) = Invalid error ->
     post_sync_register w req st = (Normal (Failure 400 error), st)) /\
  (forall code error,
     fst (post_sync_register w req st) = Normal (Failure code error) ->
     db (snd (post_sync_register w req st)) = db st).
Proof.
  split.
  - intros error Hv. unfold post_sync_register, try_catch. now rewrite Hv.
  - intros code error.
    destruct (validateDeviceRegistration (Register.deviceId req)
                (Register.deviceName req) (Register.deviceType req))
      as [|bad] eqn:Hv.
    + destruct (validateDeviceRegistration_Valid _ _ _ Hv)
        as (id & name & type & Hi & Hn & Ht & Hty).
      rewrite Hi, Hn, Ht in Hv.
      destruct (fault w (nstmt st)) eqn:F0.
      { intros _. unfold post_sync_register, try_catch, bind, getRow.
        now rewrite Hi, Hn, Ht, Hv, F0. }
      destruct (fault w (S (nstmt st))) eqn:F1.
      { intros _.
        unfold post_sync_register, try_catch, bind, getRow, runQuery.
        rewrite Hi, Hn, Ht, Hv, F0. cbn [db nstmt].
        destruct (Sql.select_device id (db st)) as [[r|]|];
          cbn [db nstmt]; now rewrite ?F1. }
      destruct (devices (db st) !! id) as [r|] eqn:Hd.
      * now rewrite (post_sync_register_existing w req st id name type r).
      * now rewrite (post_sync_register_new w req st id name type).
    + intros _. unfold post_sync_register, try_catch. now rewrite Hv.
Qed.

(** X22 at work: a registration whose type is android is refused, and the
    database stays as it was. *)
Lemma register_rejected_sample :
  db (snd (post_sync_register Sample.quiet
             {| Register.deviceId := JStr "w9";
                Register.deviceName := JStr "Phone";
                Register.deviceType := JStr "android";
                Register.metadata := JUndefined |}
             Sample.after_first))
  = db Sample.after_first.
Proof.
  eapply (proj2 (register_rejected Sample.quiet _ Sample.after_first)).
  vm_compute. reflexivity.
Defined.

(** ** Unregistering a device *)

(** What a successful unregistration does. *)
Lemma delete_sync_device_Success (w : World) (deviceId : string) (st : St)
    (r : Devices.row) :
  devices (db st) !! deviceId = Some r ->
  fault w (nstmt st) = false ->
  fault w (S (nstmt st)) = false ->
  delete_sync_device w deviceId st
  = (Normal (Success "Device unregistered successfully"%string),
     {| db := Sql.with_devices (db st)
                (<[ deviceId :=
                      {| Devices.name := Devices.name r;
                         Devices.type := Devices.type r;
                         Devices.last_seen := Devices.last_seen r;
                         Devices.last_sync_timestamp :=
                           Devices.last_sync_timestamp r;
                         Devices.is_active := false;
                         Devices.metadata := Devices.metadata r;
                         Devices.created_at := Devices.created_at r;
                         Devices.updated_at :=
                           CURRENT_TIMESTAMP w (S (nstmt st)) |} ]>
                   (devices (db st)));
        nstmt := S (S (nstmt st)) |}).
Proof.
  intros Hd F0 F1.
  unfold delete_sync_device, try_catch, bind, getRow, runQuery.
  rewrite F0. unfold Sql.select_device. cbn [db nstmt]. rewrite Hd.
  cbn [db nstmt]. rewrite F1. unfold DeviceSql.deactivate_device.
  cbn [ret]. f_equal. f_equal. unfold Sql.with_devices. f_equal.
  apply map_eq. intros k. destruct (decide (k = deviceId)) as [->|Hk].
  - now rewrite lookup_alter_eq, lookup_insert_eq, Hd.
  - now rewrite lookup_alter_ne, lookup_insert_ne.
Qed.

(** X23: unregistering is a soft delete. When it succeeds the device was
    known and is now inactive, with its name, type, cursor, metadata,
    last-seen and creation times as before; no device row is removed, no
    other device changes, and the health records and the sessions, those
    of the device included, are all kept. When it answers with an error
    nothing changes, and an unknown device gets status 404. *)
Theorem unregister_keeps_data (w : World) (deviceId : string) (st : St) :
  (forall message,
     fst (delete_sync_device w deviceId st) = Normal (Success message) ->
     exists r r',
       devices (db st) !! deviceId = Some r /\
       devices (db (snd (delete_sync_device w deviceId st))) !! deviceId
         = Some r' /\
       Devices.is_active r' = false /\
       Devices.name r' = Devices.name r /\
       Devices.type r' = Devices.type r /\
       Devices.last_sync_timestamp r' = Devices.last_sync_timestamp r /\
       Devices.metadata r' = Devices.metadata r /\
       Devices.last_seen r' = Devices.last_seen r /\
       Devices.created_at r' = Devices.created_at r /\
       (forall other, other <> deviceId ->
          devices (db (snd (delete_sync_device w deviceId st))) !! other
            = devices (db st) !! other) /\
       health_data (db (snd (delete_sync_device w deviceId st)))
         = health_data (db st) /\
       sync_sessions (db (snd (delete_sync_device w deviceId st)))
         = sync_sessions (db st)) /\
  (forall code error,
     fst (delete_sync_device w deviceId st) = Normal (Failure code error) ->
     db (snd (delete_sync_device w deviceId st)) = db st) /\
  (devices (db st) !! deviceId = None -> fault w (nstmt st) = false ->
   fst (delete_sync_device w deviceId st)
     = Normal (Failure 404 "Device not found")).
Proof.
  destruct (fault w (nstmt st)) eqn:F0.
  { unfold delete_sync_device, try_catch, bind, getRow. rewrite F0.
    cbn. split; [discriminate|]. split; [reflexivity|discriminate]. }
  destruct (devices (db st) !! deviceId) as [r|] eqn:Hd.
  - destruct (fault w (S (nstmt st))) eqn:F1.
    + unfold delete_sync_device, try_catch, bind, getRow, runQuery.
      rewrite F0. unfold Sql.select_device. cbn [db nstmt]. rewrite Hd.
      cbn [db nstmt]. rewrite F1. cbn.
      split; [discriminate|]. split; [reflexivity|discriminate].
    + rewrite (delete_sync_device_Success w deviceId st r) by assumption.
      cbn [fst snd db]. split; [|split; discriminate].
      intros message _.
      match goal with |- context [<[ deviceId := ?x ]> _] => exists r, x end.
      split; [reflexivity|].
      unfold Sql.with_devices. cbn [devices health_data sync_sessions].
      rewrite lookup_insert_eq. split; [reflexivity|].
      cbn. do 7 (split; [reflexivity|]).
      split; [|split; reflexivity].
      intros other Ho. now rewrite lookup_insert_ne.
  - unfold delete_sync_device, try_catch, bind, getRow.
    rewrite F0. unfold Sql.select_device. cbn [db nstmt]. rewrite Hd.
    cbn. split; [discriminate|]. split; [reflexivity|reflexivity].
Qed.

(** X23 on the sample database: w1 is unregistered and its record is
    still there. *)
Lemma unregister_keeps_data_sample :
  health_data (db (snd (delete_sync_device Sample.quiet "w1"
                          Sample.after_first)))
  = health_data (db Sample.after_first).
Proof.
  destruct (proj1 (unregister_keeps_data Sample.quiet "w1" Sample.after_first)
              "Device unregistered successfully"%string)
    as (r & r' & _ & _ & _ & _ & _ & _ & _ & _ & _ & _ & Hh & _);
    [vm_compute; reflexivity|exact Hh].
Defined.

(** X24: registering a device that was unregistered brings it back: the
    device, inactive after the unregistration, is active again, with the
    cursor and the creation time it had before, the answer carries that
    cursor with status 200, and the health records have not changed. *)
Theorem reregister_restores (w : World) (req : Register.request) (st : St)
    (id name type : string) (r : Devices.row) :
  Register.deviceId req = JStr id ->
  Register.deviceName req = JStr name ->
  Register.deviceType req = JStr type ->
  validateDeviceRegistration (JStr id) (JStr name) (JStr type) = Valid ->
  devices (db st) !! id = Some r ->
  (forall k, (k < 4)%nat -> fault w (nstmt st + k) = false) ->
  let st1 := snd (delete_sync_device w id st) in
  let out := post_sync_register w req st1 in
  Devices.is_active <$> devices (db st1) !! id = Some false /\
  fst out
    = Normal (Success
        {| Register.status := 200;
           Register.message := "Device updated successfully";
           Register.device_ :=
             {| Register.id := id; Register.name := name;
                Register.type := type;
                Register.lastSyncTimestamp :=
                  Devices.last_sync_timestamp r |} |}) /\
  (exists r',
     devices (db (snd out)) !! id = Some r' /\
     Devices.is_active r' = true /\
     Devices.last_sync_timestamp r' = Devices.last_sync_timestamp r /\
     Devices.created_at r' = Devices.created_at r) /\
  health_data (db (snd out)) = health_data (db st).
Proof.
  intros Hi Hn Ht Hv Hd F.
  assert (F0 : fault w (nstmt st) = false)
    by (rewrite <- (Nat.add_0_r (nstmt st)); apply F; lia).
  assert (F1 : fault w (S (nstmt st)) = false)
    by (replace (S (nstmt st)) with (nstmt st + 1)%nat by lia; apply F; lia).
  assert (F2 : fault w (S (S (nstmt st))) = false)
    by (replace (S (S (nstmt st))) with (nstmt st + 2)%nat by lia;
        apply F; lia).
  assert (F3 : fault w (S (S (S (nstmt st)))) = false)
    by (replace (S (S (S (nstmt st)))) with (nstmt st + 3)%nat by lia;
        apply F; lia).
  intros st1 out. subst out st1.
  rewrite (delete_sync_device_Success w id st r) by assumption.
  cbn [snd].
  match goal with |- context [<[ id := ?x ]> _] => set (off := x) end.
  rewrite (post_sync_register_existing w req _ id name type off);
    [| assumption | assumption | assumption | assumption
     | cbn; apply lookup_insert_eq | assumption | assumption ].
  cbn [fst snd db]. unfold Sql.with_devices.
  cbn [devices health_data sync_sessions].
  rewrite !lookup_insert_eq. split; [reflexivity|].
  split; [reflexivity|]. split; [|reflexivity].
  eexists. split; [reflexivity|]. repeat split.
Qed.

(** X24 on the sample database. *)
Lemma reregister_restores_sample :
  fst (post_sync_register Sample.quiet Scenario.register_w1
         (snd (delete_sync_device Sample.quiet "w1" Sample.after_first)))
  = Normal (Success
      {| Register.status := 200;
         Register.message := "Device updated successfully";
         Register.device_ :=
           {| Register.id := "w1"; Register.name := "Galaxy Watch";
              Register.type := "wearos";
              Register.lastSyncTimestamp := Some 1700000000000 |} |}).
Proof.
  refine (proj1 (proj2 (reregister_restores Sample.quiet Scenario.register_w1
            Sample.after_first "w1" "Galaxy Watch" "wearos"
            (default
               {| Devices.name := EmptyString; Devices.type := EmptyString;
                  Devices.last_seen := 0;
                  Devices.last_sync_timestamp := Some 1700000000000;
                  Devices.is_active := true; Devices.metadata := JNull;
                  Devices.created_at := 0; Devices.updated_at := 0 |}
               (devices (db Sample.after_first) !! "w1"%string))
            _ _ _ _ _ _)));
    reflexivity.
Defined.

(** ** Reading health data *)

Section RetrieveFacts.
Context {rt : Runtime}.
Variable w : World.

(** The condition of an optional text parameter. *)
Lemma where_optional (p : option string)
    (condition : string -> HealthData.row -> bool) (r : HealthData.row) :
  SyncSql.where_
    (if truthy (js_of p) then [ condition (default EmptyString p) ] else [])
    r = true
  <-> (forall s, given p s -> condition s r = true).
Proof.
  unfold given. destruct p as [s|]; cbn [js_of truthy default].
  - destruct (String.eqb s EmptyString) eqn:E; cbn.
    + apply String.eqb_eq in E. split; [|reflexivity].
      intros _ s' [[= <-] Hs]. congruence.
    + apply String.eqb_neq in E. rewrite andb_true_r. split.
      * now intros H s' [[= <-] _].
      * intros H. apply H. auto.
  - cbn. split; [|reflexivity]. now intros _ s [? _].
Qed.

(** The condition of a timestamp parameter, when it is usable. *)
Lemma where_timestamp (p : option string)
    (condition : Z -> HealthData.row -> bool)
    (cs : list (HealthData.row -> bool)) (r : HealthData.row) :
  timestamp_condition p condition = Some cs ->
  SyncSql.where_ cs r = true
  <-> (forall s t, given p s -> parseInt (JStr s) = Some t ->
         condition t r = true).
Proof.
  unfold timestamp_condition, given.
  destruct p as [s|]; cbn [js_of truthy].
  - destruct (String.eqb s EmptyString) eqn:E; cbn [negb].
    + intros [= <-]. apply String.eqb_eq in E. split; [|reflexivity].
      intros _ s' t [[= <-] Hs]. congruence.
    + destruct (parseInt (JStr s)) as [t|] eqn:Hp; [|discriminate].
      intros [= <-]. cbn. rewrite andb_true_r. split.
      * intros H s' t' [[= <-] _] Hp'. cbn in Hp, Hp'. congruence.
      * intros H. apply (H s t); [|exact Hp].
        apply String.eqb_neq in E. auto.
  - intros [= <-]. split; [|reflexivity]. now intros _ s t [? _].
Qed.

(** What the two queries of a page give. *)
Lemma retrieve_page_Success conditions limit offset st body st' :
  retrieve_page w conditions limit offset st = (Normal (Success body), st') ->
  body =
    {| Retrieve.data :=
         SyncSql.limit_offset
           (Z.min (or_number (parseInt limit) 1000)
              (Z.of_nat config.maxBatchSize))
           (or_number (parseInt offset) 0)
           (SyncSql.order_by_timestamp_desc
              (List.filter (SyncSql.where_ conditions)
                 (health_data (db st))));
       Retrieve.pagination_ :=
         {| Retrieve.total :=
              length (List.filter (SyncSql.where_ conditions)
                        (health_data (db st)));
            Retrieve.limitNum :=
              Z.min (or_number (parseInt limit) 1000)
                (Z.of_nat config.maxBatchSize);
            Retrieve.offsetNum := or_number (parseInt offset) 0;
            Retrieve.hasMore :=
              or_number (parseInt offset) 0
              + Z.of_nat (length
                  (SyncSql.limit_offset
                     (Z.min (or_number (parseInt limit) 1000)
                        (Z.of_nat config.maxBatchSize))
                     (or_number (parseInt offset) 0)
                     (SyncSql.order_by_timestamp_desc
                        (List.filter (SyncSql.where_ conditions)
                           (health_data (db st))))))
              <? Z.of_nat
                   (length (List.filter (SyncSql.where_ conditions)
                              (health_data (db st)))) |} |}.
Proof.
  unfold retrieve_page, bind, getRows, getRow. cbv zeta.
  destruct (fault w (nstmt st)); [discriminate|].
  cbn [db nstmt SyncSql.select_health_data].
  destruct (fault w (S (nstmt st))); [discriminate|].
  cbn [db nstmt SyncSql.count_health_data ret].
  now intros [= <- _].
Qed.

Lemma retrieve_page_keeps conditions limit offset :
  keeps eq (retrieve_page w conditions limit offset).
Proof.
  unfold retrieve_page.
  apply keeps_bind; [congruence|apply keeps_getRows; reflexivity|intros records].
  apply keeps_bind; [congruence|apply keeps_getRow; reflexivity|intros total].
  now apply keeps_ret.
Qed.

(** A successful read ran the page queries under conditions that say
    what [retrieve_matches] says. *)
Lemma get_health_data_Success q st body :
  fst (get_health_data w q st) = Normal (Success body) ->
  exists conditions st',
    (forall r, SyncSql.where_ conditions r = true <-> retrieve_matches q r) /\
    retrieve_page w conditions
      (param (Retrieve.limit q) (JNum (num_of_Z 1000)))
      (param (Retrieve.offset q) (JNum (num_of_Z 0))) st
    = (Normal (Success body), st').
Proof.
  unfold get_health_data, try_catch. cbv zeta.
  destruct (truthy (js_of (Retrieve.dataType q))
            && negb (includes config.supportedTypes
                       (default EmptyString (Retrieve.dataType q))));
    [discriminate|].
  destruct (timestamp_condition (Retrieve.since q) HealthSql.timestamp_ge)
    as [since|] eqn:Hs; [|discriminate].
  destruct (timestamp_condition (Retrieve.until q)
              (fun t => SyncSql.timestamp_le (Some t)))
    as [until|] eqn:Hu; [|discriminate].
  match goal with |- context [retrieve_page w ?c ?l ?o st] =>
    remember c as conditions eqn:Hc;
    destruct (retrieve_page w conditions l o st)
      as [[[b|code e]|e] st'] eqn:Hrun;
    try discriminate end.
  cbn. intros [= <-]. exists conditions, st'. split; [|exact Hrun].
  intros r. subst conditions.
  assert (Hd := where_optional (Retrieve.deviceId q)
                  HealthSql.device_id_eq r).
  assert (Ht := where_optional (Retrieve.dataType q)
                  SyncSql.data_type_eq r).
  assert (Hsince := where_timestamp _ _ _ r Hs).
  assert (Huntil := where_timestamp _ _ _ r Hu).
  unfold retrieve_matches.
  destruct (truthy (js_of (Retrieve.dataType q)));
    rewrite ?where_app, ?andb_true_iff;
    rewrite Hd, Hsince, Huntil; [rewrite Ht|].
  - unfold HealthSql.device_id_eq, SyncSql.data_type_eq,
      HealthSql.timestamp_ge, SyncSql.timestamp_le.
    setoid_rewrite String.eqb_eq. setoid_rewrite Z.geb_le.
    setoid_rewrite Z.leb_le. tauto.
  - unfold HealthSql.device_id_eq, SyncSql.data_type_eq,
      HealthSql.timestamp_ge, SyncSql.timestamp_le in *.
    cbn in Ht. setoid_rewrite String.eqb_eq. setoid_rewrite Z.geb_le.
    setoid_rewrite Z.leb_le. setoid_rewrite String.eqb_eq in Ht.
    tauto.
Qed.
End RetrieveFacts.

(** X25: reading health data changes nothing in the database, whatever
    the query and whatever the answer. *)
Theorem retrieve_changes_nothing (rt : Runtime) (w : World)
    (q : Retrieve.query) (st : St) :
  db (snd (get_health_data w q st)) = db st.
Proof.
  symmetry. revert st. change (keeps eq (get_health_data w q)).
  unfold get_health_data. cbv zeta.
  apply keeps_try_catch; [congruence| |intros e; now apply keeps_ret].
  destruct (_ && _); [now apply keeps_ret|].
  destruct (timestamp_condition _ _); [|now apply keeps_ret].
  destruct (timestamp_condition _ _); [|now apply keeps_ret].
  apply retrieve_page_keeps.
Qed.

(** X26: a successful read of health data returns only stored rows that
    pass every filter given, the device, the type, a timestamp not before
    since (a row at since itself is included) and not after until, the
    newest first; total is the number of stored rows that pass them,
    whatever the limit and the offset. *)
Theorem retrieve_selects (rt : Runtime) (w : World) (q : Retrieve.query)
    (st : St) (body : Retrieve.body) :
  fst (get_health_data w q st) = Normal (Success body) ->
  (forall r, In r (Retrieve.data body) ->
     In r (health_data (db st)) /\ retrieve_matches q r) /\
  newest_first (Retrieve.data body) /\
  exists selected,
    (forall r, selected r = true <-> retrieve_matches q r) /\
    Retrieve.total (Retrieve.pagination_ body)
      = length (List.filter selected (health_data (db st))).
Proof.
  intros H. apply get_health_data_Success in H.
  destruct H as (conditions & st' & Hsel & Hrun).
  apply retrieve_page_Success in Hrun. subst body.
  cbn [Retrieve.data Retrieve.pagination_ Retrieve.total].
  split; [|split].
  - intros r Hr. apply In_limit_offset, In_order_by in Hr.
    apply filter_In in Hr. destruct Hr as [Hin Hw].
    split; [exact Hin|now apply Hsel].
  - unfold SyncSql.limit_offset.
    destruct (_ <? 0);
      [|apply newest_first_take]; apply newest_first_drop, order_by_sorted.
  - exists (SyncSql.where_ conditions). split; [exact Hsel|reflexivity].
Qed.

(** X26 on the sample database: of the three records of w1, the two at
    or after 1699999999000 are returned, the one at 1699999999000
    included. *)
Lemma retrieve_selects_sample :
  exists body,
    fst (get_health_data (rt := DecimalRuntime.runtime) Sample.quiet
           (Scenario.retrieve (Some "1699999999000") None) Scenario.populated)
      = Normal (Success body) /\
    map HealthData.timestamp (Retrieve.data body)
      = [ 1700000000000; 1699999999000 ] /\
    newest_first (Retrieve.data body).
Proof.
  eexists. split; [vm_compute; reflexivity|]. split; [reflexivity|].
  apply (retrieve_selects DecimalRuntime.runtime Sample.quiet
           (Scenario.retrieve (Some "1699999999000") None)
           Scenario.populated).
  vm_compute. reflexivity.
Defined.

(** X27: the page of a successful read of health data. The limit
    reported is never above 1000 and never 0, and is 1000 when no limit
    is asked for; when it is positive the data array holds at most that
    many records; the data array never holds more than total records, and
    hasMore tells exactly whether the offset reported plus the number of
    records returned is below total. *)
Theorem retrieve_page_bounds (rt : Runtime) (w : World) (q : Retrieve.query)
    (st : St) (body : Retrieve.body) :
  fst (get_health_data w q st) = Normal (Success body) ->
  let page := Retrieve.pagination_ body in
  Retrieve.limitNum page <= 1000 /\
  Retrieve.limitNum page <> 0 /\
  (Retrieve.limit q = None -> Retrieve.limitNum page = 1000) /\
  (0 < Retrieve.limitNum page ->
   Z.of_nat (length (Retrieve.data body)) <= Retrieve.limitNum page) /\
  (length (Retrieve.data body) <= Retrieve.total page)%nat /\
  (Retrieve.hasMore page = true <->
   Retrieve.offsetNum page + Z.of_nat (length (Retrieve.data body))
     < Z.of_nat (Retrieve.total page)).
Proof.
  intros H. apply get_health_data_Success in H.
  destruct H as (conditions & st' & Hsel & Hrun).
  apply retrieve_page_Success in Hrun. subst body.
  cbn [Retrieve.data Retrieve.pagination_ Retrieve.total Retrieve.limitNum
       Retrieve.offsetNum Retrieve.hasMore].
  change (Z.of_nat config.maxBatchSize) with 1000.
  set (limit := parseInt (param (Retrieve.limit q) (JNum (num_of_Z 1000)))).
  set (rows := SyncSql.order_by_timestamp_desc _).
  assert (Hrows : length rows
                  = length (List.filter (SyncSql.where_ conditions)
                              (health_data (db st))))
    by apply length_order_by.
  assert (Hnz : or_number limit 1000 <> 0)
    by (unfold or_number; destruct limit as [[| |]|]; lia).
  split; [lia|]. split; [lia|]. split.
  { intros Hq. subst limit. rewrite Hq. reflexivity. }
  split.
  { intros Hpos. unfold SyncSql.limit_offset.
    destruct (_ <? 0) eqn:E; [apply Z.ltb_lt in E; lia|].
    rewrite length_take. lia. }
  split.
  { unfold SyncSql.limit_offset. rewrite <- Hrows.
    destruct (_ <? 0); rewrite ?length_take, length_drop; lia. }
  apply Z.ltb_lt.
Qed.

(** X27 on the sample database: a page of two of the three records of
    w1. *)
Lemma retrieve_page_bounds_sample :
  exists body,
    fst (get_health_data (rt := DecimalRuntime.runtime) Sample.quiet
           (Scenario.retrieve None (Some "2")) Scenario.populated)
      = Normal (Success body) /\
    length (Retrieve.data body) = 2%nat /\
    Retrieve.total (Retrieve.pagination_ body) = 3%nat /\
    Retrieve.hasMore (Retrieve.pagination_ body) = true.
Proof.
  eexists. split; [vm_compute; reflexivity|].
  split; [reflexivity|]. split; [reflexivity|].
  destruct (retrieve_page_bounds DecimalRuntime.runtime Sample.quiet
              (Scenario.retrieve None (Some "2")) Scenario.populated _
              ltac:(vm_compute; reflexivity))
    as (_ & _ & _ & _ & _ & Hmore).
  apply Hmore. reflexivity.
Defined.

(** X28: the limit of a read of health data is capped from above only.
    When the limit reported is negative and the offset reported is not
    positive, the data array holds every stored row that passes the
    filters, as many as total says, be they more than 1000. *)
Theorem retrieve_negative_limit (rt : Runtime) (w : World)
    (q : Retrieve.query) (st : St) (body : Retrieve.body) :
  fst (get_health_data w q st) = Normal (Success body) ->
  Retrieve.limitNum (Retrieve.pagination_ body) < 0 ->
  Retrieve.offsetNum (Retrieve.pagination_ body) <= 0 ->
  length (Retrieve.data body) = Retrieve.total (Retrieve.pagination_ body) /\
  (forall r, In r (health_data (db st)) -> retrieve_matches q r ->
     In r (Retrieve.data body)).
Proof.
  intros H. apply get_health_data_Success in H.
  destruct H as (conditions & st' & Hsel & Hrun).
  apply retrieve_page_Success in Hrun. subst body.
  cbn [Retrieve.data Retrieve.pagination_ Retrieve.total Retrieve.limitNum
       Retrieve.offsetNum].
  intros Hl Ho. unfold SyncSql.limit_offset.
  apply Z.ltb_lt in Hl. rewrite Hl.
  replace (Z.to_nat (or_number _ 0)) with 0%nat by lia.
  rewrite drop_0, length_order_by. split; [reflexivity|].
  intros r Hin Hm. apply In_order_by_iff, filter_In.
  split; [exact Hin|now apply Hsel].
Qed.

(** X28 on the sample database: with limit -1 all three records of w1
    are returned. *)
Lemma retrieve_negative_limit_sample :
  exists body,
    fst (get_health_data (rt := DecimalRuntime.runtime) Sample.quiet
           (Scenario.retrieve None (Some "-1")) Scenario.populated)
      = Normal (Success body) /\
    Retrieve.limitNum (Retrieve.pagination_ body) = -1 /\
    length (Retrieve.data body) = 3%nat.
Proof.
  eexists. split; [vm_compute; reflexivity|]. split; [reflexivity|].
  apply (proj1 (retrieve_negative_limit DecimalRuntime.runtime Sample.quiet
                  (Scenario.retrieve None (Some "-1")) Scenario.populated _
                  ltac:(vm_compute; reflexivity)
                  ltac:(vm_compute; reflexivity)
                  ltac:(vm_compute; discriminate))).
Defined.

(** ** Deleting health data *)

Section PurgeFacts.
Context {rt : Runtime}.
Variable w : World.

(** A successful deletion ran one DELETE statement under conditions,
    at least one, that say what [purge_matches] says. *)
Lemma delete_health_data_Success environment q st changes :
  fst (delete_health_data w environment q st) = Normal (Success changes) ->
  environment <> "production"%string /\
  fault w (nstmt st) = false /\
  exists conditions,
    conditions <> [] /\
    (forall r, SyncSql.where_ conditions r = true <-> purge_matches q r) /\
    delete_health_data w environment q st
    = (Normal (Success
         (length (List.filter (SyncSql.where_ conditions)
                    (health_data (db st))))),
       {| db := {| devices := devices (db st);
                   health_data :=
                     List.filter
                       (fun r => negb (SyncSql.where_ conditions r))
                       (health_data (db st));
                   sync_sessions := sync_sessions (db st) |};
          nstmt := S (nstmt st) |}).
Proof.
  unfold delete_health_data, try_catch. cbv zeta.
  destruct (String.eqb environment "production") eqn:Henv; [discriminate|].
  apply String.eqb_neq in Henv.
  destruct (timestamp_condition (Purge.before q) HealthSql.timestamp_lt)
    as [before|] eqn:Hb; [|discriminate].
  match goal with |- context [Nat.eqb (length ?c) 0] =>
    remember c as conditions eqn:Hc end.
  destruct (Nat.eqb (length conditions) 0) eqn:Hlen; [discriminate|].
  unfold bind, runQuery_changes, HealthSql.delete_health_data.
  destruct (fault w (nstmt st)) eqn:F0; [discriminate|].
  cbn. intros [= <-]. split; [exact Henv|]. split; [reflexivity|].
  exists conditions. split.
  { intros ->. discriminate. }
  split; [|reflexivity].
  intros r. subst conditions.
  assert (Hd := where_optional (Purge.deviceId q)
                  HealthSql.device_id_eq r).
  assert (Ht := where_optional (Purge.dataType q)
                  SyncSql.data_type_eq r).
  assert (Hbefore := where_timestamp _ _ _ r Hb).
  unfold purge_matches.
  destruct (truthy (js_of (Purge.dataType q)));
    rewrite ?where_app, ?andb_true_iff;
    rewrite Hd, Hbefore; [rewrite Ht|].
  - unfold HealthSql.device_id_eq, SyncSql.data_type_eq,
      HealthSql.timestamp_lt.
    setoid_rewrite String.eqb_eq. setoid_rewrite Z.ltb_lt. tauto.
  - unfold HealthSql.device_id_eq, SyncSql.data_type_eq,
      HealthSql.timestamp_lt in *.
    cbn in Ht. setoid_rewrite String.eqb_eq. setoid_rewrite Z.ltb_lt.
    setoid_rewrite String.eqb_eq in Ht. tauto.
Qed.
End PurgeFacts.

(** X29: the guards of the deletion. In production it answers 403
    without running a statement; with no device, no type and no before
    parameter (or empty ones) it answers 400 without running one; and
    whenever it answers with an error the database is unchanged. *)
Theorem purge_guarded (rt : Runtime) (w : World) (environment : string)
    (q : Purge.query) (st : St) :
  (environment = "production"%string ->
   delete_health_data w environment q st
     = (Normal (Failure 403 "Data deletion not allowed in production"), st)) /\
  (environment <> "production"%string ->
   truthy (js_of (Purge.deviceId q)) = false ->
   truthy (js_of (Purge.dataType q)) = false ->
   truthy (js_of (Purge.before q)) = false ->
   delete_health_data w environment q st
     = (Normal (Failure 400
          "At least one filter (deviceId, dataType, or before) is required"),
        st)) /\
  (forall code error,
     fst (delete_health_data w environment q st)
       = Normal (Failure code error) ->
     db (snd (delete_health_data w environment q st)) = db st).
Proof.
  split; [|split].
  - intros ->. reflexivity.
  - intros Henv Hd Ht Hb. apply String.eqb_neq in Henv.
    unfold delete_health_data, try_catch, timestamp_condition. cbv zeta.
    now rewrite Henv, Hd, Ht, Hb.
  - intros code error.
    unfold delete_health_data, try_catch. cbv zeta.
    destruct (String.eqb environment "production"); [reflexivity|].
    destruct (timestamp_condition _ _); [|reflexivity].
    destruct (Nat.eqb _ 0); [reflexivity|].
    unfold bind, runQuery_changes, HealthSql.delete_health_data.
    destruct (fault w (nstmt st)); [reflexivity|]. discriminate.
Qed.

(** X29 on the sample database: in production nothing is deleted. *)
Lemma purge_guarded_sample :
  db (snd (delete_health_data (rt := DecimalRuntime.runtime) Sample.quiet
             "production" (Scenario.purge None) Scenario.populated))
  = db Scenario.populated.
Proof.
  rewrite (proj1 (purge_guarded DecimalRuntime.runtime Sample.quiet
                    "production" (Scenario.purge None) Scenario.populated)
             eq_refl).
  reflexivity.
Defined.

(** X30: a successful deletion removes exactly the stored rows that pass
    every filter given, the device, the type, a timestamp before the
    before parameter (a row at that timestamp stays): the rows left are
    the others, in their order, the number answered is the number of rows
    removed, and the devices and the sessions are untouched. *)
Theorem purge_removes_matching (rt : Runtime) (w : World)
    (environment : string) (q : Purge.query) (st : St) (changes : nat) :
  fst (delete_health_data w environment q st) = Normal (Success changes) ->
  let after := db (snd (delete_health_data w environment q st)) in
  (exists selected,
     (forall r, selected r = true <-> purge_matches q r) /\
     health_data after
       = List.filter (fun r => negb (selected r)) (health_data (db st)) /\
     changes = length (List.filter selected (health_data (db st)))) /\
  (length (health_data after) + changes = length (health_data (db st)))%nat /\
  devices after = devices (db st) /\
  sync_sessions after = sync_sessions (db st).
Proof.
  intros H. pose proof H as H'. apply delete_health_data_Success in H'.
  destruct H' as (_ & _ & conditions & _ & Hsel & Hrun).
  rewrite Hrun in H |- *. cbn in H. injection H as <-.
  cbn [snd db health_data devices sync_sessions].
  split; [|split; [|split; reflexivity]].
  - exists (SyncSql.where_ conditions). split; [exact Hsel|].
    split; reflexivity.
  - clear Hrun. induction (health_data (db st)) as [|r l IH]; [reflexivity|].
    cbn. destruct (SyncSql.where_ conditions r); cbn in *; lia.
Qed.

(** X30 on the sample database: of the three records of w1 the two
    before 1700000000000 are removed, and the record of p1 stays. *)
Lemma purge_removes_matching_sample :
  map HealthData.timestamp
    (health_data
       (db (snd (delete_health_data (rt := DecimalRuntime.runtime)
                   Sample.quiet "development"
                   (Scenario.purge (Some "1700000000000"))
                   Scenario.populated))))
  = [ 1700000000000; 1699999995000 ] /\
  (length (health_data
       (db (snd (delete_health_data (rt := DecimalRuntime.runtime)
                   Sample.quiet "development"
                   (Scenario.purge (Some "1700000000000"))
                   Scenario.populated)))) + 2
   = length (health_data (db Scenario.populated)))%nat.
Proof.
  split; [vm_compute; reflexivity|].
  apply (purge_removes_matching DecimalRuntime.runtime Sample.quiet
           "development" (Scenario.purge (Some "1700000000000"))
           Scenario.populated 2).
  vm_compute. reflexivity.
Defined.
